(** * FlavorForge: offer evaluation, store pricing policy, checkout and
      order cancellation

    A shallow embedding of the pricing helpers of [lib/api], of
    [lib/store-config.ts], of the checkout route
    [app/api/checkout/route.ts] and of the order-cancellation route,
    together with the properties proved about them.

    Conventions of the embedding.
    - A JavaScript [number] read from JSON or from a stored document is a
      rational [Q]; arithmetic on such values is exact.  The only
      division whose divisor is not a non-zero literal is the one of
      [getSavingsPercentage]; its result lives in [JsNumber], which adds
      the IEEE specials a division by zero produces.
    - The program computes in IEEE doubles, where each operation rounds
      its result.  The statements about the savings percentage, the
      validated discounts, the tax and the revenue figure are written
      in forms that rounding keeps: equations that repeat the program's
      own operations in the program's order, order comparisons (every
      rounded operation is monotone), and bounds whose margin is wider
      than the rounding error.
    - An optional property ([x?: T], or a key that may be missing from a
      JSON body) is an [option]; [None] is [undefined].
    - [new Date()] is an explicit clock reading in milliseconds.
    - The Payload collections are an explicit [Store]; a data operation
      that may throw takes its outcome from the [Env] record. *)

From Stdlib Require Import ZArith QArith Qround Qminmax Lqa Lia.
From Stdlib Require Import Bool List String DecimalString DecimalPos DecimalZ.
Import ListNotations.

Local Open Scope Q_scope.

(** ** JavaScript values *)

Module Js.

(** Truthiness of an optional string: [undefined] and [''] are falsy. *)
Definition truthy_str (s : option string) : bool :=
  match s with
  | Some s => negb (String.eqb s EmptyString)
  | None => false
  end.

(** Truthiness of an optional number: [undefined] and [0] are falsy. *)
Definition truthy_num (n : option Q) : bool :=
  match n with
  | Some q => negb (Qeq_bool q 0)
  | None => false
  end.

(** Truthiness of an optional boolean. *)
Definition truthy_bool (b : option bool) : bool :=
  match b with
  | Some b => b
  | None => false
  end.

(** [n <= k] for an optional number: a comparison with [undefined]
    is false. *)
Definition num_le (n : option Q) (k : Q) : bool :=
  match n with
  | Some q => Qle_bool q k
  | None => false
  end.

(** The value of a number known to be truthy. *)
Definition num_value (n : option Q) : Q :=
  match n with
  | Some q => q
  | None => 0
  end.

(** [x || d] on an optional number. *)
Definition num_or (n : option Q) (d : Q) : Q :=
  if truthy_num n then num_value n else d.

(** [s || d] on an optional string. *)
Definition str_or (s : option string) (d : string) : string :=
  match s with
  | Some v => if String.eqb v EmptyString then d else v
  | None => d
  end.

Definition Qlt_bool (a b : Q) : bool := negb (Qle_bool b a).

(** A [Date] built from a non-empty date string: its time value in
    milliseconds, or an invalid date (time value [NaN]). *)
Inductive JsDate :=
| ValidDate (ms : Z)
| InvalidDate.

(** [now < d] and [now > d] for a clock reading [now]; every comparison
    with an invalid date is false. *)
Definition before (now : Z) (d : JsDate) : bool :=
  match d with
  | ValidDate ms => (now <? ms)%Z
  | InvalidDate => false
  end.

Definition after (now : Z) (d : JsDate) : bool :=
  match d with
  | ValidDate ms => (ms <? now)%Z
  | InvalidDate => false
  end.

(** A number that may be an IEEE special. *)
Inductive JsNumber :=
| Fin (q : Q)
| PosInf
| NegInf
| NaN.

(** [a / b] for finite operands. *)
Definition div (a b : Q) : JsNumber :=
  if Qeq_bool b 0 then
    if Qeq_bool a 0 then NaN
    else if Qlt_bool 0 a then PosInf else NegInf
  else Fin (a / b).

(** [x * k] for a finite [k]. *)
Definition mul (x : JsNumber) (k : Q) : JsNumber :=
  match x with
  | Fin q => Fin (q * k)
  | PosInf =>
      if Qeq_bool k 0 then NaN else if Qlt_bool 0 k then PosInf else NegInf
  | NegInf =>
      if Qeq_bool k 0 then NaN else if Qlt_bool 0 k then NegInf else PosInf
  | NaN => NaN
  end.

(** [Math.round] on a finite value: the nearest integer, ties towards
    plus infinity. *)
Definition round_half_up (q : Q) : Z := Qfloor (q + (1 # 2)).

(** [Math.round]. *)
Definition round (x : JsNumber) : JsNumber :=
  match x with
  | Fin q => Fin (inject_Z (round_half_up q))
  | other => other
  end.

(** [Math.floor] on a finite value. *)
Definition floor (q : Q) : Q := inject_Z (Qfloor q).

End Js.

(** ** Offer / discount evaluator ([lib/api]) *)

Module Offer.

Inductive DiscountType := Percentage | Fixed.

(** The fields of [FoodItem] the pricing helpers and the checkout
    read. *)
Record FoodItem := mkFoodItem {
  id : string;
  name : string;
  price : Q;
  isOnOffer : option bool;
  discountType : option DiscountType;
  discountValue : option Q;
  offerStartDate : option Js.JsDate;
  offerEndDate : option Js.JsDate
}.

Definition is_percentage (t : option DiscountType) : bool :=
  match t with Some Percentage => true | _ => false end.

Definition is_fixed (t : option DiscountType) : bool :=
  match t with Some Fixed => true | _ => false end.

(** [isOfferActive], with the clock reading [now] made explicit. *)
Definition isOfferActive (now : Z) (item : FoodItem) : bool :=
  if negb (Js.truthy_bool (isOnOffer item))
     || negb (Js.truthy_num (discountValue item))
     || Js.num_le (discountValue item) 0
  then false
  else
    if match offerStartDate item with
       | Some startDate => Js.before now startDate
       | None => false
       end
    then false
    else
      if match offerEndDate item with
         | Some endDate => Js.after now endDate
         | None => false
         end
      then false
      else true.

(** [getEffectivePrice]. *)
Definition getEffectivePrice (now : Z) (item : FoodItem) : Q :=
  if negb (isOfferActive now item) then price item
  else
    if is_percentage (discountType item)
       && Js.truthy_num (discountValue item)
    then
      let discountAmount :=
        (price item * Js.num_value (discountValue item)) / 100 in
      Qmax 0 (price item - discountAmount)
    else
      if is_fixed (discountType item)
         && Js.truthy_num (discountValue item)
      then Qmax 0 (price item - Js.num_value (discountValue item))
      else price item.

(** [getSavingsAmount]. *)
Definition getSavingsAmount (now : Z) (item : FoodItem) : Q :=
  if negb (isOfferActive now item) then 0
  else price item - getEffectivePrice now item.

(** [getSavingsPercentage]. *)
Definition getSavingsPercentage (now : Z) (item : FoodItem)
  : Js.JsNumber :=
  if negb (isOfferActive now item) then Js.Fin 0
  else
    let savings := getSavingsAmount now item in
    Js.round (Js.mul (Js.div savings (price item)) 100).

(** The Products collection declares [price] with [min: 0]. *)
Definition price_valid (item : FoodItem) : Prop := 0 <= price item.

End Offer.

(** ** Store pricing policy ([lib/store-config.ts]) *)

Module StoreConfig.

Inductive ServiceType := Delivery | Pickup.

(** The part of [serviceOptions] the fee computation reads.  The code
    guards every access ([serviceOptions || {}], [?.], destructuring
    defaults), so each level may be missing. *)
Record ServiceOptions := mkServiceOptions {
  enableDelivery : option bool;
  deliveryFee : option Q;
  freeDeliveryThreshold : option Q
}.

Record Config := mkConfig {
  taxRate : option Q;
  minOrderAmount : Q;
  serviceOptions : option ServiceOptions
}.

Definition defaultConfig : Config :=
  {| taxRate := Some 0;
     minOrderAmount := 5;
     serviceOptions :=
       Some {| enableDelivery := Some true;
               deliveryFee := Some 1;
               freeDeliveryThreshold := Some 50 |} |}.

(** [config || defaultConfig]. *)
Definition orDefault (config : option Config) : Config :=
  match config with
  | Some c => c
  | None => defaultConfig
  end.

(** [isDeliveryEnabled]:
    [storeConfig.serviceOptions?.enableDelivery ?? true]. *)
Definition isDeliveryEnabled (config : option Config) : bool :=
  let storeConfig := orDefault config in
  match serviceOptions storeConfig with
  | Some so =>
      match enableDelivery so with
      | Some b => b
      | None => true
      end
  | None => true
  end.

(** The destructuring
    [{ deliveryFee = 0, freeDeliveryThreshold = 0 } = serviceOptions || {}]. *)
Definition configuredDeliveryFee (storeConfig : Config) : Q :=
  match serviceOptions storeConfig with
  | Some so => match deliveryFee so with Some f => f | None => 0 end
  | None => 0
  end.

Definition configuredThreshold (storeConfig : Config) : Q :=
  match serviceOptions storeConfig with
  | Some so =>
      match freeDeliveryThreshold so with Some t => t | None => 0 end
  | None => 0
  end.

Definition is_pickup (s : ServiceType) : bool :=
  match s with Pickup => true | Delivery => false end.

(** [calculateDeliveryFee]. *)
Definition calculateDeliveryFee (orderAmount : Q)
    (serviceType : ServiceType) (config : option Config) : Q :=
  let storeConfig := orDefault config in
  let deliveryFee := configuredDeliveryFee storeConfig in
  let freeDeliveryThreshold := configuredThreshold storeConfig in
  if is_pickup serviceType || negb (isDeliveryEnabled (Some storeConfig))
  then 0
  else
    if Js.Qlt_bool 0 freeDeliveryThreshold
       && Qle_bool freeDeliveryThreshold orderAmount
    then 0
    else deliveryFee.

End StoreConfig.

(** ** Stored documents *)

Module Addr.

(** A delivery address, as sent by the client and as stored. *)
Record Address := mkAddress {
  street : option string;
  area : option string;
  city : option string;
  postalCode : option string;
  phone : option string
}.

End Addr.

Module Customers.

(** A document of the Customers collection.  The four aggregates are
    declared with [defaultValue: 0] (no default for [lastOrderDate]);
    the route still reads them through [|| 0]. *)
Record Customer := mkCustomer {
  id : nat;
  email : option string;
  password : option string;
  firstName : option string;
  lastName : option string;
  phone : option string;
  isActive : bool;
  defaultAddress : option Addr.Address;
  totalOrders : option Q;
  totalSpent : option Q;
  lastOrderDate : option Z;
  loyaltyPoints : option Q
}.

(** [where: { email: { equals: e } }]; an [undefined] operand matches
    no document. *)
Definition email_equals (e : option string) (c : Customer) : bool :=
  match e, email c with
  | Some a, Some b => String.eqb a b
  | _, _ => false
  end.

(** [payload.find] on the collection: the matching documents, in
    collection order. *)
Definition find (e : option string) (docs : list Customer)
  : list Customer :=
  filter (email_equals e) docs.

(** [payload.update({ id, data })]: the document with this id is
    rewritten by [data]. *)
Definition update (i : nat) (data : Customer -> Customer)
    (docs : list Customer) : list Customer :=
  map (fun c => if Nat.eqb (id c) i then data c else c) docs.

End Customers.

Module Orders.

Inductive OrderStatus :=
| Pending | Confirmed | Preparing | ReadyForPickup | OutForDelivery
| Completed | Cancelled.

Inductive PaymentStatus := PayPending | Paid | Failed | Refunded.

(** A row of the [items] array. *)
Record OrderItem := mkOrderItem {
  foodItem : string;
  quantity : Q;
  price : Q;
  subtotal : Q
}.

Record Order := mkOrder {
  id : nat;
  orderNumber : string;
  customer : nat;
  items : list OrderItem;
  totalAmount : Q;
  status : OrderStatus;
  bookingDate : Z;
  customerNotes : option string;
  serviceType : string;
  paymentStatus : PaymentStatus;
  deliveryAddress : option Addr.Address
}.

(** The defaults the collection declares for keys the data of a create
    leaves out.  [deliveryAddress] is a group, so every stored order
    has one, and its [city] has [defaultValue: 'Muscat']; the other
    defaults ([status], [serviceType], [paymentStatus], the [quantity]
    of a row) concern keys the checkout route always supplies. *)
Definition defaultAddress (a : option Addr.Address) : Addr.Address :=
  match a with
  | Some a =>
      {| Addr.street := Addr.street a;
         Addr.area := Addr.area a;
         Addr.city :=
           match Addr.city a with
           | Some c => Some c
           | None => Some "Muscat"%string
           end;
         Addr.postalCode := Addr.postalCode a;
         Addr.phone := Addr.phone a |}
  | None =>
      {| Addr.street := None;
         Addr.area := None;
         Addr.city := Some "Muscat"%string;
         Addr.postalCode := None;
         Addr.phone := None |}
  end.

Definition withDefaults (data : Order) : Order :=
  {| id := id data;
     orderNumber := orderNumber data;
     customer := customer data;
     items := items data;
     totalAmount := totalAmount data;
     status := status data;
     bookingDate := bookingDate data;
     customerNotes := customerNotes data;
     serviceType := serviceType data;
     paymentStatus := paymentStatus data;
     deliveryAddress := Some (defaultAddress (deliveryAddress data)) |}.

(** The [orderNumber] hook on create: [`ORD-${timestamp}`]. *)
Definition generateOrderNumber (timestamp : Z) : string :=
  ("ORD-" ++ DecimalString.NilZero.string_of_int (Z.to_int timestamp))%string.

(** The [validate] function of [bookingDate], at clock reading [now]. *)
Definition validateBookingDate (now : Z) (value : Z) : bool :=
  let timeDiff := (value - now)%Z in
  let hoursDiff := inject_Z timeDiff / (1000 * 3600) in
  if Js.Qlt_bool hoursDiff 24 then false else true.

(** The [validate] functions of [deliveryAddress.street], [.area],
    [.city] and [.phone]: required when [serviceType] is
    ['delivery']. *)
Definition validateAddressField (serviceType : string)
    (value : option string) : bool :=
  if String.eqb serviceType "delivery" && negb (Js.truthy_str value)
  then false else true.

Definition addressField (f : Addr.Address -> option string)
    (a : option Addr.Address) : option string :=
  match a with
  | Some a => f a
  | None => None
  end.

(** What the collection configuration demands of the data the checkout
    route supplies, once the defaults are filled in: [items] has
    [minRows: 1], [quantity] has [min: 1], [serviceType] is one of the
    two options, and the [validate] functions above. *)
Definition validate (now : Z) (data : Order) : bool :=
  negb (Nat.eqb (List.length (items data)) 0)
  && forallb (fun row => Qle_bool 1 (quantity row)) (items data)
  && (String.eqb (serviceType data) "delivery"
      || String.eqb (serviceType data) "pickup")
  && validateBookingDate now (bookingDate data)
  && validateAddressField (serviceType data)
       (addressField Addr.street (deliveryAddress data))
  && validateAddressField (serviceType data)
       (addressField Addr.area (deliveryAddress data))
  && validateAddressField (serviceType data)
       (addressField Addr.city (deliveryAddress data))
  && validateAddressField (serviceType data)
       (addressField Addr.phone (deliveryAddress data)).

(** [where: { and: [{ orderNumber: equals }, { customer: equals }] }]. *)
Definition matches (number : string) (customerId : nat) (o : Order)
  : bool :=
  String.eqb (orderNumber o) number && Nat.eqb (customer o) customerId.

Definition find (number : string) (customerId : nat)
    (docs : list Order) : list Order :=
  filter (matches number customerId) docs.

Definition update (i : nat) (data : Order -> Order)
    (docs : list Order) : list Order :=
  map (fun o => if Nat.eqb (id o) i then data o else o) docs.

End Orders.

(** The collections the two routes read and write, and the next free
    document id. *)
Record Store := mkStore {
  customers : list Customers.Customer;
  orders : list Orders.Order;
  nextId : nat
}.

(** ** Checkout workflow ([app/api/checkout/route.ts]) *)

Module Checkout.

(** A cart line as the client sends it.  [price] is the client's
    claimed unit price. *)
Record CartItem := mkCartItem {
  id : option string;
  name : option string;
  quantity : Q;
  price : option Q
}.

Record CustomerInfo := mkCustomerInfo {
  email : option string;
  password : option string;
  firstName : option string;
  lastName : option string;
  phone : option string
}.

(** The request body.  [bookingDate] is [None] when the key is
    missing or empty, otherwise what [new Date(bookingDate)] yields. *)
Record Request := mkRequest {
  items : option (list CartItem);
  customerInfo : option CustomerInfo;
  deliveryAddress : option Addr.Address;
  serviceType : option string;
  bookingDate : option Js.JsDate;
  customerNotes : option string;
  totalAmount : option Q
}.

(** The outcome of [payload.findByID] on the Products collection. *)
Inductive FindResult :=
| Found (foodItem : Offer.FoodItem)
| Null
| Throws.

(** What the request handler takes from its surroundings: the Products
    collection, the clock, and whether each data operation throws. *)
Record Env := mkEnv {
  products : string -> FindResult;
  now : Z;                      (* [new Date()] of the lead-time check *)
  createClock : Z;              (* the clock while the order is created *)
  statsClock : Z;               (* [new Date()] of the statistics update *)
  customerFindThrows : bool;
  customerWriteThrows : bool;
  orderCreateThrows : bool;
  statsUpdateThrows : bool;
  loginToken : option string    (* [None]: [payload.login] threw *)
}.

Record OrderSummary := mkOrderSummary {
  sum_id : nat;
  sum_orderNumber : string;
  sum_totalAmount : Q;
  sum_status : Orders.OrderStatus;
  sum_bookingDate : Z
}.

Record CustomerSummary := mkCustomerSummary {
  cust_id : nat;
  cust_email : option string;
  cust_firstName : option string;
  cust_lastName : option string;
  cust_phone : option string;
  cust_defaultAddress : option Addr.Address;
  isNewCustomer : bool
}.

(** The responses of the handler, one constructor per [return]. *)
Inductive Response :=
| MissingInformation                 (* 400 *)
| MissingDeliveryAddress             (* 400 *)
| PasswordRequired                   (* 400 *)
| CustomerFailed                     (* 500 *)
| ItemMissingId (name : option string)                    (* 400 *)
| ItemNotFound (id : string)                              (* 400 *)
| ItemFailed (name : option string) (id : option string)  (* 500 *)
| BookingTooSoon                     (* 400 *)
| OrderFailed                        (* 500 *)
| Success (order : OrderSummary) (customer : CustomerSummary)
          (authToken : option string).

Definition is_delivery (serviceType : option string) : bool :=
  match serviceType with
  | Some s => String.eqb s "delivery"
  | None => false
  end.

(** The address block written to a customer:
    [postalCode: deliveryAddress.postalCode || '']. *)
Definition customerAddress (a : Addr.Address) : Addr.Address :=
  {| Addr.street := Addr.street a;
     Addr.area := Addr.area a;
     Addr.city := Addr.city a;
     Addr.postalCode := Some (Js.str_or (Addr.postalCode a) "");
     Addr.phone := Addr.phone a |}.

(** The address block written to an order:
    [phone: deliveryAddress.phone || customerInfo.phone]. *)
Definition orderAddress (a : Addr.Address) (info : CustomerInfo)
  : Addr.Address :=
  {| Addr.street := Addr.street a;
     Addr.area := Addr.area a;
     Addr.city := Addr.city a;
     Addr.postalCode := Some (Js.str_or (Addr.postalCode a) "");
     Addr.phone :=
       if Js.truthy_str (Addr.phone a) then Addr.phone a else phone info |}.

(** [serviceType === 'delivery' && deliveryAddress] selects the
    address block; otherwise the key is left out. *)
Definition addressWhenDelivery {A} (req : Request)
    (block : Addr.Address -> A) : option A :=
  if is_delivery (serviceType req) then
    match deliveryAddress req with
    | Some a => Some (block a)
    | None => None
    end
  else None.

(** A key of [data] that is [undefined] leaves the stored value. *)
Definition assign {A} (new old : option A) : option A :=
  match new with
  | Some _ => new
  | None => old
  end.

(** [updateData] applied to the existing customer. *)
Definition updateData (req : Request) (info : CustomerInfo)
    (c : Customers.Customer) : Customers.Customer :=
  {| Customers.id := Customers.id c;
     Customers.email := Customers.email c;
     Customers.password := Customers.password c;
     Customers.firstName := assign (firstName info) (Customers.firstName c);
     Customers.lastName := assign (lastName info) (Customers.lastName c);
     Customers.phone := assign (phone info) (Customers.phone c);
     Customers.isActive := Customers.isActive c;
     Customers.defaultAddress :=
       assign (addressWhenDelivery req customerAddress)
              (Customers.defaultAddress c);
     Customers.totalOrders := Customers.totalOrders c;
     Customers.totalSpent := Customers.totalSpent c;
     Customers.lastOrderDate := Customers.lastOrderDate c;
     Customers.loyaltyPoints := Customers.loyaltyPoints c |}.

(** [customerData] as stored by [payload.create]: the aggregates take
    their declared default [0]. *)
Definition customerData (req : Request) (info : CustomerInfo)
    (newId : nat) : Customers.Customer :=
  {| Customers.id := newId;
     Customers.email := email info;
     Customers.password := password info;
     Customers.firstName := firstName info;
     Customers.lastName := lastName info;
     Customers.phone := phone info;
     Customers.isActive := true;
     Customers.defaultAddress := addressWhenDelivery req customerAddress;
     Customers.totalOrders := Some 0;
     Customers.totalSpent := Some 0;
     Customers.lastOrderDate := None;
     Customers.loyaltyPoints := Some 0 |}.

(** Step 2, "Create or find customer": the customer document and the
    [isNewCustomer] flag, or the error response. *)
Definition resolveCustomer (env : Env) (st : Store) (req : Request)
    (info : CustomerInfo)
  : (Response + Customers.Customer * bool) * Store :=
  if customerFindThrows env then (inl CustomerFailed, st)
  else
    match Customers.find (email info) (customers st) with
    | existing :: _ =>
        if customerWriteThrows env then (inl CustomerFailed, st)
        else
          let customer := updateData req info existing in
          (inr (customer, false),
           {| customers :=
                Customers.update (Customers.id existing)
                  (updateData req info) (customers st);
              orders := orders st;
              nextId := nextId st |})
    | [] =>
        if negb (Js.truthy_str (password info))
        then (inl PasswordRequired, st)
        else
          if customerWriteThrows env then (inl CustomerFailed, st)
          else
            let customer := customerData req info (nextId st) in
            (inr (customer, true),
             {| customers := customers st ++ [customer];
                orders := orders st;
                nextId := S (nextId st) |})
    end.

(** Step 3, the loop over [items]: [orderItems] and [calculatedTotal]
    are the loop's accumulators. *)
Fixpoint priceItems (products : string -> FindResult)
    (items : list CartItem) (orderItems : list Orders.OrderItem)
    (calculatedTotal : Q)
  : Response + list Orders.OrderItem * Q :=
  match items with
  | [] => inr (orderItems, calculatedTotal)
  | item :: rest =>
      match id item with
      | None => inl (ItemMissingId (name item))
      | Some itemId =>
          if String.eqb itemId "" then inl (ItemMissingId (name item))
          else
            match products itemId with
            | Throws => inl (ItemFailed (name item) (id item))
            | Null => inl (ItemNotFound itemId)
            | Found foodItem =>
                let itemSubtotal := Offer.price foodItem * quantity item in
                priceItems products rest
                  (orderItems ++
                     [{| Orders.foodItem := Offer.id foodItem;
                         Orders.quantity := quantity item;
                         Orders.price := Offer.price foodItem;
                         Orders.subtotal := itemSubtotal |}])
                  (calculatedTotal + itemSubtotal)
            end
      end
  end.

(** Step 4: [hoursDiff < 24].  An invalid date has a [NaN] difference,
    and the comparison is false. *)
Definition bookingTooSoon (now : Z) (bookingDateTime : Js.JsDate) : bool :=
  match bookingDateTime with
  | Js.ValidDate ms =>
      let timeDiff := (ms - now)%Z in
      let hoursDiff := inject_Z timeDiff / (1000 * 3600) in
      Js.Qlt_bool hoursDiff 24
  | Js.InvalidDate => false
  end.

(** The data of the statistics update. *)
Definition statsData (env : Env) (customer : Customers.Customer)
    (calculatedTotal : Q) (c : Customers.Customer) : Customers.Customer :=
  {| Customers.id := Customers.id c;
     Customers.email := Customers.email c;
     Customers.password := Customers.password c;
     Customers.firstName := Customers.firstName c;
     Customers.lastName := Customers.lastName c;
     Customers.phone := Customers.phone c;
     Customers.isActive := Customers.isActive c;
     Customers.defaultAddress := Customers.defaultAddress c;
     Customers.totalOrders :=
       Some (Js.num_or (Customers.totalOrders customer) 0 + 1);
     Customers.totalSpent :=
       Some (Js.num_or (Customers.totalSpent customer) 0 + calculatedTotal);
     Customers.lastOrderDate := Some (statsClock env);
     Customers.loyaltyPoints :=
       Some (Js.num_or (Customers.loyaltyPoints customer) 0
             + Js.floor calculatedTotal) |}.

(** Steps 5 to 7: create the order, update the statistics, log in. *)
Definition createOrder (env : Env) (st : Store) (req : Request)
    (info : CustomerInfo) (customer : Customers.Customer)
    (isNew : bool) (orderItems : list Orders.OrderItem)
    (calculatedTotal : Q) (bookingDateTime : Js.JsDate)
  : Response * Store :=
  match bookingDateTime with
  | Js.InvalidDate => (OrderFailed, st)      (* [toISOString] throws *)
  | Js.ValidDate ms =>
      let orderData :=
        {| Orders.id := nextId st;
           Orders.orderNumber :=
             Orders.generateOrderNumber (createClock env);
           Orders.customer := Customers.id customer;
           Orders.items := orderItems;
           Orders.totalAmount := calculatedTotal;
           Orders.status := Orders.Pending;
           Orders.bookingDate := ms;
           Orders.customerNotes := Some (Js.str_or (customerNotes req) "");
           Orders.serviceType := Js.str_or (serviceType req) "";
           Orders.paymentStatus := Orders.PayPending;
           Orders.deliveryAddress :=
             addressWhenDelivery req (fun a => orderAddress a info) |} in
      let order := Orders.withDefaults orderData in
      if orderCreateThrows env
         || negb (Orders.validate (createClock env) order)
      then (OrderFailed, st)
      else
        let st1 :=
          {| customers := customers st;
             orders := orders st ++ [order];
             nextId := S (nextId st) |} in
        if statsUpdateThrows env then (OrderFailed, st1)
        else
          let st2 :=
            {| customers :=
                 Customers.update (Customers.id customer)
                   (statsData env customer calculatedTotal)
                   (customers st1);
               orders := orders st1;
               nextId := nextId st1 |} in
          (Success
             {| sum_id := Orders.id order;
                sum_orderNumber := Orders.orderNumber order;
                sum_totalAmount := Orders.totalAmount order;
                sum_status := Orders.status order;
                sum_bookingDate := Orders.bookingDate order |}
             {| cust_id := Customers.id customer;
                cust_email := Customers.email customer;
                cust_firstName := Customers.firstName customer;
                cust_lastName := Customers.lastName customer;
                cust_phone := Customers.phone customer;
                cust_defaultAddress := Customers.defaultAddress customer;
                isNewCustomer := isNew |}
             (loginToken env),
           st2)
  end.

(** "Validate delivery address only if delivery service is selected". *)
Definition addressMissing (req : Request) : bool :=
  is_delivery (serviceType req)
  && match deliveryAddress req with
     | None => true
     | Some a =>
         negb (Js.truthy_str (Addr.street a))
         || negb (Js.truthy_str (Addr.area a))
     end.

(** Step 1, the two checks that open the handler: the error response,
    or the values the later steps read. *)
Definition validateRequest (req : Request)
  : Response + list CartItem * CustomerInfo * Js.JsDate :=
  match items req, customerInfo req, bookingDate req with
  | Some items, Some info, Some bookingDateTime =>
      if negb (Js.truthy_str (serviceType req))
      then inl MissingInformation
      else
        if addressMissing req then inl MissingDeliveryAddress
        else inr (items, info, bookingDateTime)
  | _, _, _ => inl MissingInformation
  end.

(** The [POST] handler. *)
Definition POST (env : Env) (st : Store) (req : Request)
  : Response * Store :=
  match validateRequest req with
  | inl err => (err, st)
  | inr (items, info, bookingDateTime) =>
      match resolveCustomer env st req info with
      | (inl err, st1) => (err, st1)
      | (inr (customer, isNew), st1) =>
          match priceItems (products env) items [] 0 with
          | inl err => (err, st1)
          | inr (orderItems, calculatedTotal) =>
              if bookingTooSoon (now env) bookingDateTime
              then (BookingTooSoon, st1)
              else
                createOrder env st1 req info customer isNew
                  orderItems calculatedTotal bookingDateTime
          end
      end
  end.

(** *** Vocabulary of the statements *)

(** The request with another client-supplied [totalAmount]. *)
Definition withTotalAmount (req : Request) (t : option Q) : Request :=
  {| items := items req;
     customerInfo := customerInfo req;
     deliveryAddress := deliveryAddress req;
     serviceType := serviceType req;
     bookingDate := bookingDate req;
     customerNotes := customerNotes req;
     totalAmount := t |}.

(** Two requests that differ at most in the client-supplied
    [totalAmount]. *)
Definition sameButTotal (a b : Request) : Prop :=
  items a = items b
  /\ customerInfo a = customerInfo b
  /\ deliveryAddress a = deliveryAddress b
  /\ serviceType a = serviceType b
  /\ bookingDate a = bookingDate b
  /\ customerNotes a = customerNotes b.

(** The request with other cart lines. *)
Definition withItems (req : Request) (l : list CartItem) : Request :=
  {| items := Some l;
     customerInfo := customerInfo req;
     deliveryAddress := deliveryAddress req;
     serviceType := serviceType req;
     bookingDate := bookingDate req;
     customerNotes := customerNotes req;
     totalAmount := totalAmount req |}.

(** A cart line with another claimed unit price. *)
Definition withPrice (item : CartItem) (p : option Q) : CartItem :=
  {| id := id item; name := name item; quantity := quantity item;
     price := p |}.

(** The cart line resolves to a product: its id is present and
    [findByID] finds a document. *)
Definition resolves (products : string -> FindResult) (item : CartItem)
  : bool :=
  match id item with
  | Some itemId =>
      negb (String.eqb itemId "")
      && match products itemId with Found _ => true | _ => false end
  | None => false
  end.

(** The order row [row] is the cart line [item] priced from the
    product record. *)
Definition pricedFrom (products : string -> FindResult)
    (item : CartItem) (row : Orders.OrderItem) : Prop :=
  exists itemId foodItem,
    id item = Some itemId
    /\ products itemId = Found foodItem
    /\ Orders.foodItem row = Offer.id foodItem
    /\ Orders.quantity row = quantity item
    /\ Orders.price row = Offer.price foodItem
    /\ Orders.subtotal row = Offer.price foodItem * quantity item.

Definition sumSubtotals (rows : list Orders.OrderItem) : Q :=
  fold_right (fun row acc => Orders.subtotal row + acc) 0 rows.

(** The response is an item error that names [item]. *)
Definition namesItem (resp : Response) (item : CartItem) : Prop :=
  resp = ItemMissingId (name item)
  \/ (exists itemId, id item = Some itemId /\ resp = ItemNotFound itemId)
  \/ resp = ItemFailed (name item) (id item).

Definition succeeded (resp : Response) : Prop :=
  match resp with
  | Success _ _ _ => True
  | _ => False
  end.

(** The two responses of step 1. *)
Definition validationError (resp : Response) : Prop :=
  resp = MissingInformation \/ resp = MissingDeliveryAddress.

(** What step 1 looks at: a required key is absent, or the service is
    delivery and the address is absent or lacks street or area. *)
Definition missingRequired (req : Request) : bool :=
  match items req, customerInfo req, bookingDate req with
  | Some _, Some _, Some _ =>
      negb (Js.truthy_str (serviceType req)) || addressMissing req
  | _, _, _ => true
  end.

(** A delivery address with every field of the stored block. *)
Definition addressComplete (a : option Addr.Address) : bool :=
  match a with
  | Some a =>
      Js.truthy_str (Addr.street a) && Js.truthy_str (Addr.area a)
      && Js.truthy_str (Addr.city a) && Js.truthy_str (Addr.phone a)
  | None => false
  end.

(** The request gets through steps 1 and 2 with cart [lines], and
    step 2 leaves the store [st1]. *)
Definition passesCustomerStep (env : Env) (st : Store) (req : Request)
    (lines : list CartItem) (st1 : Store) : Prop :=
  exists info bd customer isNew,
    validateRequest req = inr (lines, info, bd)
    /\ resolveCustomer env st req info = (inr (customer, isNew), st1).

(** The request gets through steps 1 to 3 with booking date [bd], and
    reaches the lead-time check with the store [st1]. *)
Definition passesRepricing (env : Env) (st : Store) (req : Request)
    (bd : Js.JsDate) (st1 : Store) : Prop :=
  exists lines info customer isNew rows total,
    validateRequest req = inr (lines, info, bd)
    /\ resolveCustomer env st req info = (inr (customer, isNew), st1)
    /\ priceItems (products env) lines [] 0 = inr (rows, total).

(** The aggregate fields of a customer. *)
Definition aggregates (c : Customers.Customer)
  : option Q * option Q * option Z * option Q :=
  (Customers.totalOrders c, Customers.totalSpent c,
   Customers.lastOrderDate c, Customers.loyaltyPoints c).

(** No aggregate of a stored customer differs between the two stores,
    and a customer added by the second has the declared defaults. *)
Definition aggregatesKept (st st' : Store) : Prop :=
  (forall k c, nth_error (customers st) k = Some c ->
     exists c', nth_error (customers st') k = Some c'
                /\ Customers.id c' = Customers.id c
                /\ aggregates c' = aggregates c)
  /\ (forall k c', nth_error (customers st') k = Some c' ->
       (List.length (customers st) <= k)%nat ->
       aggregates c' = (Some 0, Some 0, None, Some 0)).

(** The customer a checkout with this e-mail address works on. *)
Definition owner (e : string) (st : Store) : option Customers.Customer :=
  hd_error (Customers.find (Some e) (customers st)).

Definition ownerOrders (e : string) (st : Store) : Q :=
  match owner e st with
  | Some c => Js.num_or (Customers.totalOrders c) 0
  | None => 0
  end.

Definition ownerSpent (e : string) (st : Store) : Q :=
  match owner e st with
  | Some c => Js.num_or (Customers.totalSpent c) 0
  | None => 0
  end.

Definition ownerPoints (e : string) (st : Store) : Q :=
  match owner e st with
  | Some c => Js.num_or (Customers.loyaltyPoints c) 0
  | None => 0
  end.


Definition requestEmail (req : Request) : option string :=
  match customerInfo req with
  | Some info => email info
  | None => None
  end.

(** Every product document obeys the collection's [min: 0] on
    [price]. *)
Definition productsValid (env : Env) : Prop :=
  forall itemId foodItem,
    products env itemId = Found foodItem -> Offer.price_valid foodItem.

(** The total of the order a response reports. *)
Definition orderTotal (resp : Response) : Q :=
  match resp with
  | Success order _ _ => sum_totalAmount order
  | _ => 0
  end.



(** Requests handled one after the other. *)
Fixpoint runAll (runs : list (Env * Request)) (st : Store)
  : list Response * Store :=
  match runs with
  | [] => ([], st)
  | (env, req) :: rest =>
      let (resp, st1) := POST env st req in
      let (resps, st2) := runAll rest st1 in
      (resp :: resps, st2)
  end.

End Checkout.

(** ** Order cancellation (the [POST] handler of the cancel route) *)

Module Cancel.

Record Request := mkRequest {
  orderNumber : option string;
  customerId : option nat;
  reason : option string
}.

(** Whether [payload.find] and [payload.update] throw.  An update
    throws whenever Payload rejects it, for one when a validator of the
    collection rejects the document: the [bookingDate] check reads the
    clock, so it can reject the cancellation of an order whose booking
    is by then less than 24 hours ahead. *)
Record Env := mkEnv {
  orderFindThrows : bool;
  orderUpdateThrows : bool
}.

Record OrderSummary := mkOrderSummary {
  sum_id : nat;
  sum_orderNumber : string;
  sum_status : Orders.OrderStatus;
  sum_totalAmount : Q
}.

Inductive Response :=
| MissingFields                               (* 400 *)
| NotFound                                    (* 404 *)
| CannotCancel (status : Orders.OrderStatus)  (* 400 *)
| Failed                                      (* 500 *)
| Cancelled (order : OrderSummary).

(** [['pending', 'confirmed'].includes(order.status)]. *)
Definition cancellable (s : Orders.OrderStatus) : bool :=
  match s with
  | Orders.Pending | Orders.Confirmed => true
  | _ => false
  end.

(** The new [customerNotes]. *)
Definition cancelledNotes (notes reason : option string) : string :=
  (let prefix :=
     match notes with
     | Some n => if String.eqb n "" then "" else n ++ " | "
     | None => ""
     end in
   match reason with
   | Some r =>
       if String.eqb r "" then prefix ++ "CANCELLED by customer"
       else prefix ++ "CANCELLED: " ++ r
   | None => prefix ++ "CANCELLED by customer"
   end)%string.

(** The [data] of the update. *)
Definition cancelData (reason : option string) (o : Orders.Order)
  : Orders.Order :=
  {| Orders.id := Orders.id o;
     Orders.orderNumber := Orders.orderNumber o;
     Orders.customer := Orders.customer o;
     Orders.items := Orders.items o;
     Orders.totalAmount := Orders.totalAmount o;
     Orders.status := Orders.Cancelled;
     Orders.bookingDate := Orders.bookingDate o;
     Orders.customerNotes :=
       Some (cancelledNotes (Orders.customerNotes o) reason);
     Orders.serviceType := Orders.serviceType o;
     Orders.paymentStatus := Orders.paymentStatus o;
     Orders.deliveryAddress := Orders.deliveryAddress o |}.

(** The ids a request must carry: a missing key, [''] and [0] are
    falsy. *)
Definition requestKeys (req : Request) : option (string * nat) :=
  match orderNumber req, customerId req with
  | Some number, Some cid =>
      if String.eqb number "" || Nat.eqb cid 0 then None
      else Some (number, cid)
  | _, _ => None
  end.

(** The [POST] handler. *)
Definition POST (env : Env) (st : Store) (req : Request)
  : Response * Store :=
  match requestKeys req with
  | None => (MissingFields, st)
  | Some (number, cid) =>
      if orderFindThrows env then (Failed, st)
      else
        match Orders.find number cid (orders st) with
        | [] => (NotFound, st)
        | order :: _ =>
            if negb (cancellable (Orders.status order))
            then (CannotCancel (Orders.status order), st)
            else
              if orderUpdateThrows env then (Failed, st)
              else
                let updatedOrder := cancelData (reason req) order in
                (Cancelled
                   {| sum_id := Orders.id updatedOrder;
                      sum_orderNumber := Orders.orderNumber updatedOrder;
                      sum_status := Orders.status updatedOrder;
                      sum_totalAmount := Orders.totalAmount updatedOrder |},
                 {| customers := customers st;
                    orders :=
                      Orders.update (Orders.id order)
                        (cancelData (reason req)) (orders st);
                    nextId := nextId st |})
        end
  end.

End Cancel.

(** ** Sample data *)

Module Samples.

Local Open Scope string_scope.

(** A product on a percentage offer with no time window. *)
Definition onOffer (price percent : Q) : Offer.FoodItem :=
  {| Offer.id := "p1";
     Offer.name := "Shuwa";
     Offer.price := price;
     Offer.isOnOffer := Some true;
     Offer.discountType := Some Offer.Percentage;
     Offer.discountValue := Some percent;
     Offer.offerStartDate := None;
     Offer.offerEndDate := None |}.

(** A product with no offer. *)
Definition plain (price : Q) : Offer.FoodItem :=
  {| Offer.id := "p2";
     Offer.name := "Harees";
     Offer.price := price;
     Offer.isOnOffer := Some false;
     Offer.discountType := None;
     Offer.discountValue := None;
     Offer.offerStartDate := None;
     Offer.offerEndDate := None |}.

(** A store configuration with the given fee and free-delivery
    threshold, delivery enabled. *)
Definition feeConfig (fee threshold : Q) : StoreConfig.Config :=
  {| StoreConfig.taxRate := Some 0;
     StoreConfig.minOrderAmount := 5;
     StoreConfig.serviceOptions :=
       Some {| StoreConfig.enableDelivery := Some true;
               StoreConfig.deliveryFee := Some fee;
               StoreConfig.freeDeliveryThreshold := Some threshold |} |}.

(** A two-product catalogue: ["p1"] is on offer (10, 20 percent off),
    ["p2"] costs 3; no other id resolves. *)
Definition catalogue (itemId : string) : Checkout.FindResult :=
  if String.eqb itemId "p1" then Checkout.Found (onOffer 10 20)
  else if String.eqb itemId "p2" then Checkout.Found (plain 3)
  else Checkout.Null.

Definition hours (h : Z) : Z := (h * 3600000)%Z.

(** No data operation throws; the clock reads 0 at the lead-time
    check. *)
Definition calm : Checkout.Env :=
  {| Checkout.products := catalogue;
     Checkout.now := 0;
     Checkout.createClock := 5;
     Checkout.statsClock := 9;
     Checkout.customerFindThrows := false;
     Checkout.customerWriteThrows := false;
     Checkout.orderCreateThrows := false;
     Checkout.statsUpdateThrows := false;
     Checkout.loginToken := Some "token" |}.

(** The same surroundings one second later. *)
Definition later : Checkout.Env :=
  {| Checkout.products := catalogue;
     Checkout.now := 1000;
     Checkout.createClock := 1005;
     Checkout.statsClock := 1009;
     Checkout.customerFindThrows := false;
     Checkout.customerWriteThrows := false;
     Checkout.orderCreateThrows := false;
     Checkout.statsUpdateThrows := false;
     Checkout.loginToken := Some "token" |}.

Definition emptyStore : Store :=
  {| customers := []; orders := []; nextId := 1 |}.

Definition alice : Checkout.CustomerInfo :=
  {| Checkout.email := Some "alice@example.om";
     Checkout.password := Some "secret1";
     Checkout.firstName := Some "Alice";
     Checkout.lastName := Some "Said";
     Checkout.phone := Some "91234567" |}.

Definition line (itemId : string) (quantity claimed : Q)
  : Checkout.CartItem :=
  {| Checkout.id := Some itemId;
     Checkout.name := Some "dish";
     Checkout.quantity := quantity;
     Checkout.price := Some claimed |}.

(** A pickup order by [alice], booked [h] hours after clock reading 0. *)
Definition pickupRequest (lines : list Checkout.CartItem) (h : Z)
  : Checkout.Request :=
  {| Checkout.items := Some lines;
     Checkout.customerInfo := Some alice;
     Checkout.deliveryAddress := None;
     Checkout.serviceType := Some "pickup";
     Checkout.bookingDate := Some (Js.ValidDate (hours h));
     Checkout.customerNotes := None;
     Checkout.totalAmount := Some 1 |}.

(** Two orders by [alice]: two of ["p2"], then one of ["p1"]. *)
Definition twoOrders : list (Checkout.Env * Checkout.Request) :=
  [(calm, pickupRequest [line "p2" 2 3] 25);
   (later, pickupRequest [line "p1" 1 1] 48)].

(** A pickup order by [alice] with no booking date. *)
Definition undatedRequest : Checkout.Request :=
  {| Checkout.items := Some [line "p2" 2 3];
     Checkout.customerInfo := Some alice;
     Checkout.deliveryAddress := None;
     Checkout.serviceType := Some "pickup";
     Checkout.bookingDate := None;
     Checkout.customerNotes := None;
     Checkout.totalAmount := Some 6 |}.

(** A delivery order whose address has street and area only. *)
Definition shortAddressRequest : Checkout.Request :=
  {| Checkout.items := Some [line "p2" 2 3];
     Checkout.customerInfo := Some alice;
     Checkout.deliveryAddress :=
       Some {| Addr.street := Some "Way 12";
               Addr.area := Some "Qurum";
               Addr.city := None;
               Addr.postalCode := None;
               Addr.phone := None |};
     Checkout.serviceType := Some "delivery";
     Checkout.bookingDate := Some (Js.ValidDate (hours 48));
     Checkout.customerNotes := None;
     Checkout.totalAmount := Some 6 |}.

(** A stored order of customer 1 in the given status. *)
Definition storedOrder (status : Orders.OrderStatus) : Orders.Order :=
  {| Orders.id := 7;
     Orders.orderNumber := "ORD-1700000000000";
     Orders.customer := 1;
     Orders.items :=
       [{| Orders.foodItem := "p2"; Orders.quantity := 2;
           Orders.price := 3; Orders.subtotal := 6 |}];
     Orders.totalAmount := 6;
     Orders.status := status;
     Orders.bookingDate := hours 48;
     Orders.customerNotes := Some "no onions";
     Orders.serviceType := "pickup";
     Orders.paymentStatus := Orders.PayPending;
     Orders.deliveryAddress := None |}.

Definition orderStore (status : Orders.OrderStatus) : Store :=
  {| customers := []; orders := [storedOrder status]; nextId := 8 |}.

Definition cancelRequest : Cancel.Request :=
  {| Cancel.orderNumber := Some "ORD-1700000000000";
     Cancel.customerId := Some 1%nat;
     Cancel.reason := Some "changed plans" |}.

Definition cancelEnv : Cancel.Env :=
  {| Cancel.orderFindThrows := false;
     Cancel.orderUpdateThrows := false |}.

(** The order is found, and the update is rejected. *)
Definition rejectingEnv : Cancel.Env :=
  {| Cancel.orderFindThrows := false;
     Cancel.orderUpdateThrows := true |}.

End Samples.

(** ** Product display helpers ([lib/api]) and the discount check of
       the Products collection *)

Module Catalog.

(** The [validate] function of the [discountValue] field of the
    Products collection, on the document being written. *)
Definition validateDiscountValue (data : Offer.FoodItem) : bool :=
  if negb (Js.truthy_bool (Offer.isOnOffer data)) then true
  else
    if negb (Js.truthy_num (Offer.discountValue data))
       || Js.num_le (Offer.discountValue data) 0
    then false
    else
      if Offer.is_percentage (Offer.discountType data)
         && Js.Qlt_bool 100 (Js.num_value (Offer.discountValue data))
      then false
      else
        if Offer.is_fixed (Offer.discountType data)
           && Qle_bool (Offer.price data)
                (Js.num_value (Offer.discountValue data))
        then false
        else true.

(** The object [getPriceInfo] returns. *)
Record PriceInfo := mkPriceInfo {
  isOnSale : bool;
  originalPrice : Q;
  effectivePrice : Q;
  savings : Q;
  savingsPercentage : Js.JsNumber;
  displayPrice : Q;
  hasDiscount : bool
}.

(** [getPriceInfo]. *)
Definition getPriceInfo (now : Z) (item : Offer.FoodItem) : PriceInfo :=
  let isOnSale := Offer.isOfferActive now item in
  let originalPrice := Offer.price item in
  let effectivePrice := Offer.getEffectivePrice now item in
  let savings := Offer.getSavingsAmount now item in
  let savingsPercentage := Offer.getSavingsPercentage now item in
  {| isOnSale := isOnSale;
     originalPrice := originalPrice;
     effectivePrice := effectivePrice;
     savings := savings;
     savingsPercentage := savingsPercentage;
     displayPrice := effectivePrice;
     hasDiscount := isOnSale && Js.Qlt_bool 0 savings |}.

(** The [sizes] of an uploaded image, each seen through [?.url]: [None]
    when the entry or its url is missing. *)
Record Sizes := mkSizes {
  thumbnail : option string;
  card : option string;
  tablet : option string
}.

Record MediaFile := mkMediaFile {
  url : option string;
  sizes : option Sizes
}.

(** [image?: MediaFile | string]: a populated document or just an id. *)
Inductive Image :=
| ImageId (id : string)
| ImageDoc (file : MediaFile).

(** The fields of [FoodItem] the image helpers read. *)
Record Pictured := mkPictured {
  image : option Image;
  imageUrl : option string
}.

(** [getFoodItemImageUrl]. *)
Definition getFoodItemImageUrl (item : Pictured) : string :=
  match image item with
  | Some (ImageDoc file) =>
      if Js.truthy_str (url file) then Js.str_or (url file) ""
      else
        if Js.truthy_str (imageUrl item) then Js.str_or (imageUrl item) ""
        else "/placeholder-food.svg"
  | _ =>
      if Js.truthy_str (imageUrl item) then Js.str_or (imageUrl item) ""
      else "/placeholder-food.svg"
  end.

Record ImageSizes := mkImageSizes {
  size_thumbnail : string;
  size_card : string;
  size_tablet : string;
  size_full : string
}.

(** [getFoodItemImageSizes]. *)
Definition getFoodItemImageSizes (item : Pictured) : ImageSizes :=
  let baseUrl := getFoodItemImageUrl item in
  match image item with
  | Some (ImageDoc {| url := _; sizes := Some s |}) =>
      {| size_thumbnail := Js.str_or (thumbnail s) baseUrl;
         size_card := Js.str_or (card s) baseUrl;
         size_tablet := Js.str_or (tablet s) baseUrl;
         size_full := baseUrl |}
  | _ =>
      {| size_thumbnail := baseUrl;
         size_card := baseUrl;
         size_tablet := baseUrl;
         size_full := baseUrl |}
  end.

End Catalog.

(** ** The remaining store policy functions ([lib/store-config.ts]) *)

Module StoreSettings.

Local Open Scope string_scope.

(** [serviceOptions], [contactInfo] and [operatingHours] with the fields
    the functions below read; as in [StoreConfig], every level may be
    missing. *)
Record ServiceOptions := mkServiceOptions {
  enableDelivery : option bool;
  enablePickup : option bool;
  deliveryMessage : option string;
  pickupMessage : option string;
  pickupAddress : option string;
  estimatedDeliveryTime : option string;
  estimatedPickupTime : option string;
  deliveryFee : option Q;
  freeDeliveryThreshold : option Q
}.

Record ContactInfo := mkContactInfo {
  address : option string;
  googleMapsLink : option string
}.

Record OperatingHours := mkOperatingHours {
  openTime : option string;
  closeTime : option string;
  closedDays : option (list string)
}.

Record Settings := mkSettings {
  taxRate : option Q;
  minOrderAmount : option Q;
  serviceOptions : option ServiceOptions;
  contactInfo : option ContactInfo;
  operatingHours : option OperatingHours
}.

Definition defaultConfig : Settings :=
  {| taxRate := Some 0;
     minOrderAmount := Some 5;
     serviceOptions :=
       Some {| enableDelivery := Some true;
               enablePickup := Some true;
               deliveryMessage := Some "We deliver to your doorstep";
               pickupMessage := Some "Ready for pickup in 30 minutes";
               pickupAddress := Some "";
               estimatedDeliveryTime := Some "45-60 minutes";
               estimatedPickupTime := Some "30 minutes";
               deliveryFee := Some 1;
               freeDeliveryThreshold := Some 50 |};
     contactInfo := Some {| address := Some ""; googleMapsLink := Some "" |};
     operatingHours :=
       Some {| openTime := Some "09:00";
               closeTime := Some "22:00";
               closedDays := Some [] |} |}.

(** [config || defaultConfig]. *)
Definition orDefault (config : option Settings) : Settings :=
  match config with
  | Some c => c
  | None => defaultConfig
  end.

(** The part of the settings [StoreConfig.calculateDeliveryFee] and
    [StoreConfig.isDeliveryEnabled] read. *)
Definition feeView (s : Settings) : StoreConfig.Config :=
  {| StoreConfig.taxRate := taxRate s;
     StoreConfig.minOrderAmount := Js.num_value (minOrderAmount s);
     StoreConfig.serviceOptions :=
       match serviceOptions s with
       | Some so =>
           Some {| StoreConfig.enableDelivery := enableDelivery so;
                   StoreConfig.deliveryFee := deliveryFee so;
                   StoreConfig.freeDeliveryThreshold :=
                     freeDeliveryThreshold so |}
       | None => None
       end |}.

(** [calculateTax]. *)
Definition calculateTax (amount : Q) (config : option Settings) : Q :=
  let storeConfig := orDefault config in
  let taxRate := match taxRate storeConfig with Some r => r | None => 0 end in
  (amount * taxRate) / 100.

(** [isDeliveryEnabled], on the full settings. *)
Definition isDeliveryEnabled (config : option Settings) : bool :=
  StoreConfig.isDeliveryEnabled (Some (feeView (orDefault config))).

(** [isPickupEnabled]. *)
Definition isPickupEnabled (config : option Settings) : bool :=
  let storeConfig := orDefault config in
  match serviceOptions storeConfig with
  | Some so =>
      match enablePickup so with
      | Some b => b
      | None => true
      end
  | None => true
  end.

(** [getAvailableServices]. *)
Definition getAvailableServices (config : option Settings)
  : list StoreConfig.ServiceType :=
  let storeConfig := orDefault config in
  let services := [] in
  let services :=
    if isDeliveryEnabled (Some storeConfig)
    then (services ++ [StoreConfig.Delivery])%list else services in
  let services :=
    if isPickupEnabled (Some storeConfig)
    then (services ++ [StoreConfig.Pickup])%list else services in
  services.

(** [serviceOptions?.field]. *)
Definition option_field {A} (f : ServiceOptions -> option A)
    (storeConfig : Settings) : option A :=
  match serviceOptions storeConfig with
  | Some so => f so
  | None => None
  end.

(** [getServiceMessage]. *)
Definition getServiceMessage (serviceType : StoreConfig.ServiceType)
    (config : option Settings) : string :=
  let storeConfig := orDefault config in
  match serviceType with
  | StoreConfig.Delivery =>
      Js.str_or (option_field deliveryMessage storeConfig)
        "We deliver to your doorstep"
  | StoreConfig.Pickup =>
      Js.str_or (option_field pickupMessage storeConfig)
        "Ready for pickup in 30 minutes"
  end.

(** [getEstimatedServiceTime]. *)
Definition getEstimatedServiceTime (serviceType : StoreConfig.ServiceType)
    (config : option Settings) : string :=
  let storeConfig := orDefault config in
  match serviceType with
  | StoreConfig.Delivery =>
      Js.str_or (option_field estimatedDeliveryTime storeConfig)
        "45-60 minutes"
  | StoreConfig.Pickup =>
      Js.str_or (option_field estimatedPickupTime storeConfig) "30 minutes"
  end.

(** [getPickupAddress]. *)
Definition getPickupAddress (config : option Settings) : string :=
  let storeConfig := orDefault config in
  Js.str_or (option_field pickupAddress storeConfig)
    (Js.str_or
       match contactInfo storeConfig with
       | Some ci => address ci
       | None => None
       end
       "Please contact store for pickup address").

(** [getGoogleMapsLink]. *)
Definition getGoogleMapsLink (config : option Settings) : string :=
  let storeConfig := orDefault config in
  Js.str_or
    match contactInfo storeConfig with
    | Some ci => googleMapsLink ci
    | None => None
    end
    "".

(** [isStoreOpen].  [currentDay] is the lower-cased weekday name and
    [currentTime] the [HH:MM] prefix of [toTimeString()], both taken
    from [new Date()]; [>=] and [<=] on strings compare them
    lexically. *)
Definition isStoreOpen (currentDay currentTime : string)
    (config : option Settings) : bool :=
  let storeConfig := orDefault config in
  match operatingHours storeConfig with
  | None => true
  | Some operatingHours =>
      if match closedDays operatingHours with
         | Some days => existsb (String.eqb currentDay) days
         | None => false
         end
      then false
      else
        let openTime :=
          match openTime operatingHours with
          | Some t => t
          | None => "00:00"
          end in
        let closeTime :=
          match closeTime operatingHours with
          | Some t => t
          | None => "23:59"
          end in
        String.leb openTime currentTime && String.leb currentTime closeTime
  end.

(** Two decimal digits, zero-padded. *)
Definition twoDigits (n : nat) : string :=
  String (Ascii.ascii_of_nat (48 + n / 10))
    (String (Ascii.ascii_of_nat (48 + n mod 10)) EmptyString).

(** The [HH:MM] prefix of [toTimeString()] at [h] hours and [m]
    minutes local time. *)
Definition timeString (h m : nat) : string :=
  twoDigits h ++ ":" ++ twoDigits m.

End StoreSettings.

(** ** The store configuration hook ([hooks/useStoreConfig]) *)

Module Hook.

(** What a call in the page can come to: a number, [undefined], or a
    [TypeError] from reading a property of [undefined]. *)
Inductive Outcome :=
| Returns (q : Q)
| ReturnsUndefined
| ThrowsTypeError.

(** [isDeliveryEnabled] and [isPickupEnabled] of the hook, on its
    [config] state. *)
Definition isDeliveryEnabled (config : StoreSettings.Settings) : bool :=
  match StoreSettings.serviceOptions config with
  | Some so =>
      match StoreSettings.enableDelivery so with
      | Some b => b
      | None => true
      end
  | None => true
  end.

Definition isPickupEnabled (config : StoreSettings.Settings) : bool :=
  match StoreSettings.serviceOptions config with
  | Some so =>
      match StoreSettings.enablePickup so with
      | Some b => b
      | None => true
      end
  | None => true
  end.

(** [calculateDeliveryFee] of the hook. *)
Definition calculateDeliveryFee (config : StoreSettings.Settings)
    (orderAmount : Q) (serviceType : StoreConfig.ServiceType) : Outcome :=
  if StoreConfig.is_pickup serviceType || negb (isDeliveryEnabled config)
  then Returns 0
  else
    match StoreSettings.serviceOptions config with
    | None => ThrowsTypeError
    | Some so =>
        if match StoreSettings.freeDeliveryThreshold so with
           | Some t => Js.Qlt_bool 0 t && Qle_bool t orderAmount
           | None => false
           end
        then Returns 0
        else
          match StoreSettings.deliveryFee so with
          | Some fee => Returns fee
          | None => ReturnsUndefined
          end
    end.

(** [meetsMinimumOrder]: a comparison with [undefined] is false. *)
Definition meetsMinimumOrder (config : StoreSettings.Settings)
    (amount : Q) : bool :=
  match StoreSettings.minOrderAmount config with
  | Some m => Qle_bool m amount
  | None => false
  end.

(** [getAvailableServices] of the hook. *)
Definition getAvailableServices (config : StoreSettings.Settings)
  : list StoreConfig.ServiceType :=
  let services := [] in
  let services :=
    if isDeliveryEnabled config
    then services ++ [StoreConfig.Delivery] else services in
  let services :=
    if isPickupEnabled config
    then services ++ [StoreConfig.Pickup] else services in
  services.

(** The initial [selectedService] of the cart page: the first available
    service, or pickup if enabled, else delivery. *)
Definition initialService (config : StoreSettings.Settings)
  : StoreConfig.ServiceType :=
  match getAvailableServices config with
  | first :: _ => first
  | [] =>
      if isPickupEnabled config then StoreConfig.Pickup
      else StoreConfig.Delivery
  end.

End Hook.

(** ** The configuration cache ([getStoreConfig], [clearConfigCache] and
       the refresh route) *)

Module ConfigCache.

Definition CACHE_DURATION : Z := 5 * 60 * 1000.

(** The outcome of [payload.findGlobal]. *)
Inductive FindGlobal (Stored : Type) :=
| GlobalFound (config : Stored)
| GlobalNull
| GlobalThrows.

Arguments GlobalFound {Stored} config.
Arguments GlobalNull {Stored}.
Arguments GlobalThrows {Stored}.

(** The two module-level variables. *)
Record State (Cfg : Type) := mkState {
  configCache : option Cfg;
  cacheTimestamp : Z
}.

Arguments mkState {Cfg} configCache cacheTimestamp.
Arguments configCache {Cfg} s.
Arguments cacheTimestamp {Cfg} s.

Section Cache.

(** The configuration type, the stored global, the defaults, and the
    spread [{ ...defaultConfig, ...config }]. *)
Variable Cfg Stored : Type.
Variable defaultConfig : Cfg.
Variable merge : Stored -> Cfg.

Definition initial : State Cfg :=
  {| configCache := None; cacheTimestamp := 0 |}.

(** The part of [getStoreConfig] after the freshness test. *)
Definition fetch (now : Z) (db : FindGlobal Stored) (st : State Cfg)
  : Cfg * State Cfg :=
  match db with
  | GlobalThrows => (defaultConfig, st)
  | GlobalFound config =>
      let merged := merge config in
      (merged, {| configCache := Some merged; cacheTimestamp := now |})
  | GlobalNull =>
      (defaultConfig,
       {| configCache := Some defaultConfig; cacheTimestamp := now |})
  end.

(** [getStoreConfig], at clock reading [now] ([Date.now()]). *)
Definition getStoreConfig (now : Z) (db : FindGlobal Stored)
    (st : State Cfg) : Cfg * State Cfg :=
  match configCache st with
  | Some cached =>
      if (now - cacheTimestamp st <? CACHE_DURATION)%Z then (cached, st)
      else fetch now db st
  | None => fetch now db st
  end.

(** [clearConfigCache]. *)
Definition clearConfigCache (st : State Cfg) : State Cfg :=
  {| configCache := None; cacheTimestamp := 0 |}.

(** The [POST] handler of the store-config route: the stored global as
    it is, or the 500 response. *)
Definition refresh (db : FindGlobal Stored) (st : State Cfg)
  : option (option Stored) * State Cfg :=
  match db with
  | GlobalThrows => (None, st)
  | GlobalFound config => (Some (Some config), clearConfigCache st)
  | GlobalNull => (Some None, clearConfigCache st)
  end.

End Cache.

End ConfigCache.

(** ** The cart ([hooks/useCartSimple]) and the cart page *)

Module Cart.

(** [Omit<CartItem, 'quantity'>]. *)
Record Details := mkDetails {
  id : string;
  name : string;
  price : Q;
  category : string;
  image : option string;
  minOrderQuantity : option Q
}.

(** [CartItem]. *)
Record Item := mkItem {
  details : Details;
  quantity : Q
}.

(** [{ ...item, quantity }]. *)
Definition withQuantity (item : Item) (quantity : Q) : Item :=
  {| details := details item; quantity := quantity |}.

Definition hasId (i : string) (item : Item) : bool :=
  String.eqb (id (details item)) i.

(** [item.id === id ? { ...item, quantity } : item], the function
    [addItem] and [updateQuantity] map over the cart. *)
Definition setQuantity (i : string) (quantity : Q) (item : Item) : Item :=
  if hasId i item then withQuantity item quantity else item.

(** The state update of [addItem]. *)
Definition addItem (newItem : Details) (quantityToAdd : Q)
    (prev : list Item) : list Item :=
  match List.find (hasId (id newItem)) prev with
  | Some existing =>
      let newQuantity := quantity existing + quantityToAdd in
      map (setQuantity (id newItem) newQuantity) prev
  | None => prev ++ [{| details := newItem; quantity := quantityToAdd |}]
  end.

(** The state update of [removeItem]. *)
Definition removeItem (i : string) (prev : list Item) : list Item :=
  filter (fun item => negb (hasId i item)) prev.

(** The state update of [updateQuantity]. *)
Definition updateQuantity (i : string) (quantity : Q) (prev : list Item)
  : list Item :=
  if Qle_bool quantity 0 then removeItem i prev
  else map (setQuantity i quantity) prev.

(** [clearCart]. *)
Definition clearCart (prev : list Item) : list Item := [].

(** [getTotalItems]. *)
Definition getTotalItems (items : list Item) : Q :=
  fold_left (fun total item => total + quantity item) items 0.

(** [getTotalPrice]; the pages compute [subtotal] by the same fold. *)
Definition getTotalPrice (items : list Item) : Q :=
  fold_left (fun total item => total + price (details item) * quantity item)
    items 0.

(** [item.minOrderQuantity || 1]. *)
Definition minQty (item : Item) : Q :=
  Js.num_or (minOrderQuantity (details item)) 1.

(** The state update of [fixMinimumQuantities]. *)
Definition fixMinimumQuantities (prev : list Item) : list Item :=
  map (fun item =>
         if Js.Qlt_bool (quantity item) (minQty item)
         then withQuantity item (minQty item)
         else item)
      prev.

(** [itemsWithMinQtyIssues] of the cart page. *)
Definition itemsWithMinQtyIssues (items : list Item) : list Item :=
  filter (fun item => Js.Qlt_bool (quantity item) (minQty item)) items.

(** [canProceedToCheckout] of the cart page. *)
Definition canProceedToCheckout (config : StoreSettings.Settings)
    (items : list Item) : bool :=
  let subtotal := getTotalPrice items in
  let hasMinQtyIssues :=
    negb (Nat.eqb (List.length (itemsWithMinQtyIssues items)) 0) in
  Hook.meetsMinimumOrder config subtotal && negb hasMinQtyIssues.

Definition ids (items : list Item) : list string :=
  map (fun item => id (details item)) items.

(** The quantity of the cart line with this id, 0 when there is none. *)
Definition quantityOf (i : string) (items : list Item) : Q :=
  match List.find (hasId i) items with
  | Some item => quantity item
  | None => 0
  end.

End Cart.

(** ** The checkout page ([handleCheckout]) *)

Module CheckoutPage.

Local Open Scope string_scope.

Record CustomerForm := mkCustomerForm {
  firstName : string;
  lastName : string;
  email : string;
  phone : string;
  password : string;
  confirmPassword : string
}.

Record AddressForm := mkAddressForm {
  street : string;
  area : string;
  city : string;
  postalCode : string;
  addressPhone : string
}.

(** The state [handleCheckout] reads.  [deliveryDateTime] is what
    [new Date(`${bookingDate}T${bookingTime}:00`)] yields, and
    [totalAmount] the total the page displays. *)
Record Page := mkPage {
  mounted : bool;
  configLoading : bool;
  items : list Cart.Item;
  customerInfo : CustomerForm;
  isAuthenticated : bool;
  selectedService : StoreConfig.ServiceType;
  config : StoreSettings.Settings;
  deliveryAddress : AddressForm;
  bookingDate : string;
  bookingTime : string;
  deliveryDateTime : Js.JsDate;
  customerNotes : string;
  totalAmount : option Q
}.

(** What [handleCheckout] does: one of its alerts, or the body it
    posts to the checkout route. *)
Inductive Outcome :=
| AlertEmptyCart
| AlertCustomerInformation
| AlertPasswordLength
| AlertPasswordMismatch
| AlertDeliveryAddress
| AlertDateAndTime
| AlertError                 (* [toISOString] threw *)
| Posts (body : Checkout.Request).

Definition empty (s : string) : bool := String.eqb s "".

Definition serviceName (s : StoreConfig.ServiceType) : string :=
  match s with
  | StoreConfig.Delivery => "delivery"
  | StoreConfig.Pickup => "pickup"
  end.

Definition isDelivery (s : StoreConfig.ServiceType) : bool :=
  negb (StoreConfig.is_pickup s).

(** One element of [items.map(...)]. *)
Definition line (item : Cart.Item) : Checkout.CartItem :=
  {| Checkout.id := Some (Cart.id (Cart.details item));
     Checkout.name := Some (Cart.name (Cart.details item));
     Checkout.quantity := Cart.quantity item;
     Checkout.price := Some (Cart.price (Cart.details item)) |}.

(** The [customerInfo] and [deliveryAddress] states as the JSON body
    carries them. *)
Definition customerBody (f : CustomerForm) : Checkout.CustomerInfo :=
  {| Checkout.email := Some (email f);
     Checkout.password := Some (password f);
     Checkout.firstName := Some (firstName f);
     Checkout.lastName := Some (lastName f);
     Checkout.phone := Some (phone f) |}.

Definition addressBody (a : AddressForm) : Addr.Address :=
  {| Addr.street := Some (street a);
     Addr.area := Some (area a);
     Addr.city := Some (city a);
     Addr.postalCode := Some (postalCode a);
     Addr.phone := Some (addressPhone a) |}.

(** [handleCheckout]. *)
Definition handleCheckout (p : Page) : Outcome :=
  if negb (mounted p) || configLoading p
     || Nat.eqb (List.length (items p)) 0
  then AlertEmptyCart
  else
    if empty (firstName (customerInfo p))
       || empty (lastName (customerInfo p))
       || empty (email (customerInfo p))
       || empty (phone (customerInfo p))
    then AlertCustomerInformation
    else
      if negb (isAuthenticated p)
         && (empty (password (customerInfo p))
             || Nat.ltb (String.length (password (customerInfo p))) 6)
      then AlertPasswordLength
      else
        if negb (isAuthenticated p)
           && negb (String.eqb (password (customerInfo p))
                      (confirmPassword (customerInfo p)))
        then AlertPasswordMismatch
        else
          if isDelivery (selectedService p)
             && Hook.isDeliveryEnabled (config p)
             && (empty (street (deliveryAddress p))
                 || empty (area (deliveryAddress p))
                 || empty (addressPhone (deliveryAddress p)))
          then AlertDeliveryAddress
          else
            if empty (bookingDate p) || empty (bookingTime p)
            then AlertDateAndTime
            else
              match deliveryDateTime p with
              | Js.InvalidDate => AlertError
              | Js.ValidDate ms =>
                  Posts
                    {| Checkout.items := Some (map line (items p));
                       Checkout.customerInfo :=
                         Some (customerBody (customerInfo p));
                       Checkout.deliveryAddress :=
                         if isDelivery (selectedService p)
                            && Hook.isDeliveryEnabled (config p)
                         then Some (addressBody (deliveryAddress p))
                         else None;
                       Checkout.serviceType :=
                         Some (serviceName (selectedService p));
                       Checkout.bookingDate := Some (Js.ValidDate ms);
                       Checkout.customerNotes := Some (customerNotes p);
                       Checkout.totalAmount := totalAmount p |}
              end.

End CheckoutPage.

(** ** Look-ups: cancellation eligibility, customer by e-mail, order by
       number *)

Module Lookup.

(** The [GET] handler of the cancel route.  Its two keys come from the
    query string, where only a missing or empty value is falsy. *)
Inductive Eligibility :=
| EligibilityMissingFields                       (* 400 *)
| EligibilityNotFound                            (* 404 *)
| EligibilityFailed                              (* 500 *)
| Eligible (canCancel : bool) (currentStatus : Orders.OrderStatus).

Definition canCancel (env : Cancel.Env) (st : Store)
    (orderNumber : option string) (customerId : option nat)
  : Eligibility :=
  match orderNumber, customerId with
  | Some number, Some cid =>
      if String.eqb number "" then EligibilityMissingFields
      else
        if Cancel.orderFindThrows env then EligibilityFailed
        else
          match Orders.find number cid (orders st) with
          | [] => EligibilityNotFound
          | order :: _ =>
              Eligible (Cancel.cancellable (Orders.status order))
                (Orders.status order)
          end
  | _, _ => EligibilityMissingFields
  end.

(** The [GET] handler of the customers route. *)
Record CustomerCard := mkCustomerCard {
  card_id : nat;
  card_email : option string;
  card_firstName : option string;
  card_lastName : option string;
  card_phone : option string;
  card_defaultAddress : option Addr.Address
}.

Inductive CustomerLookup :=
| EmailRequired                       (* 400 *)
| LookupFailed                        (* 500 *)
| NotRegistered                       (* [{ exists: false }] *)
| Registered (customer : CustomerCard).

(** An e-mail address in the form the Customers collection stores: the
    register route writes [email.toLowerCase().trim()], and so does
    the authentication layer of the collection.  A string of printable
    ASCII characters with no upper-case letter and no blank is left as
    it is by both operations. *)
Definition normalizedChar (c : Ascii.ascii) : bool :=
  let n := Ascii.nat_of_ascii c in
  (33 <=? n)%nat && (n <=? 126)%nat
  && negb ((65 <=? n)%nat && (n <=? 90)%nat).

Fixpoint normalized (e : string) : bool :=
  match e with
  | EmptyString => true
  | String c rest => normalizedChar c && normalized rest
  end.

Definition customerByEmail (findThrows : bool) (st : Store)
    (email : option string) : CustomerLookup :=
  if negb (Js.truthy_str email) then EmailRequired
  else
    if findThrows then LookupFailed
    else
      match Customers.find email (customers st) with
      | [] => NotRegistered
      | customer :: _ =>
          Registered
            {| card_id := Customers.id customer;
               card_email := Customers.email customer;
               card_firstName := Customers.firstName customer;
               card_lastName := Customers.lastName customer;
               card_phone := Customers.phone customer;
               card_defaultAddress := Customers.defaultAddress customer |}
      end.

(** The [GET] handler of the admin statistics route: the three figures
    of [summary].  Each [payload.find] has [limit: 100] and no [sort],
    so it yields at most 100 documents, the newest first; the store
    lists documents oldest first. *)
Record Summary := mkSummary {
  totalCustomers : nat;
  totalOrders : nat;
  totalRevenue : Q
}.

Definition summary (st : Store) : Summary :=
  let customerDocs := firstn 100 (rev (customers st)) in
  let orderDocs := firstn 100 (rev (orders st)) in
  {| totalCustomers := List.length customerDocs;
     totalOrders := List.length orderDocs;
     totalRevenue :=
       fold_left (fun sum order => sum + Orders.totalAmount order)
         orderDocs 0 |}.

End Lookup.

(** ** More sample data *)

Module Fixtures.

Local Open Scope string_scope.

(** 20 percent off 10, from clock reading 100 to 200. *)
Definition windowed : Offer.FoodItem :=
  {| Offer.id := "p3";
     Offer.name := "Mishkak";
     Offer.price := 10;
     Offer.isOnOffer := Some true;
     Offer.discountType := Some Offer.Percentage;
     Offer.discountValue := Some 20;
     Offer.offerStartDate := Some (Js.ValidDate 100);
     Offer.offerEndDate := Some (Js.ValidDate 200) |}.

(** 3 off 10, no window. *)
Definition fixedOff : Offer.FoodItem :=
  {| Offer.id := "p4";
     Offer.name := "Halwa";
     Offer.price := 10;
     Offer.isOnOffer := Some true;
     Offer.discountType := Some Offer.Fixed;
     Offer.discountValue := Some 3;
     Offer.offerStartDate := None;
     Offer.offerEndDate := None |}.

(** An uploaded picture with a thumbnail only. *)
Definition pictured : Catalog.Pictured :=
  {| Catalog.image :=
       Some (Catalog.ImageDoc
               {| Catalog.url := Some "/media/shuwa.jpg";
                  Catalog.sizes :=
                    Some {| Catalog.thumbnail := Some "/media/shuwa-400.jpg";
                            Catalog.card := None;
                            Catalog.tablet := None |} |});
     Catalog.imageUrl := Some "https://example.om/shuwa.jpg" |}.

(** Settings with pickup only. *)
Definition pickupOnly : StoreSettings.Settings :=
  {| StoreSettings.taxRate := Some 5;
     StoreSettings.minOrderAmount := Some 5;
     StoreSettings.serviceOptions :=
       Some {| StoreSettings.enableDelivery := Some false;
               StoreSettings.enablePickup := Some true;
               StoreSettings.deliveryMessage := None;
               StoreSettings.pickupMessage := Some "";
               StoreSettings.pickupAddress := Some "";
               StoreSettings.estimatedDeliveryTime := None;
               StoreSettings.estimatedPickupTime := None;
               StoreSettings.deliveryFee := Some 1;
               StoreSettings.freeDeliveryThreshold := Some 50 |};
     StoreSettings.contactInfo :=
       Some {| StoreSettings.address := Some "Way 12, Qurum";
               StoreSettings.googleMapsLink := None |};
     StoreSettings.operatingHours :=
       Some {| StoreSettings.openTime := Some "09:00";
               StoreSettings.closeTime := Some "22:00";
               StoreSettings.closedDays := Some ["friday"] |} |}.

Definition dish (i : string) (price : Q) (minimum : option Q)
  : Cart.Details :=
  {| Cart.id := i;
     Cart.name := "dish";
     Cart.price := price;
     Cart.category := "mains";
     Cart.image := None;
     Cart.minOrderQuantity := minimum |}.

(** A cart with two of ["p2"] and one of a dish sold by threes. *)
Definition cart : list Cart.Item :=
  [{| Cart.details := dish "p2" 3 None; Cart.quantity := 2 |};
   {| Cart.details := dish "p1" 8 (Some 3); Cart.quantity := 1 |}].

Definition form : CheckoutPage.CustomerForm :=
  {| CheckoutPage.firstName := "Alice";
     CheckoutPage.lastName := "Said";
     CheckoutPage.email := "alice@example.om";
     CheckoutPage.phone := "91234567";
     CheckoutPage.password := "secret1";
     CheckoutPage.confirmPassword := "secret1" |}.

(** The checkout page of a visitor who picks up the cart 48 hours
    after clock reading 0. *)
Definition page : CheckoutPage.Page :=
  {| CheckoutPage.mounted := true;
     CheckoutPage.configLoading := false;
     CheckoutPage.items := cart;
     CheckoutPage.customerInfo := form;
     CheckoutPage.isAuthenticated := false;
     CheckoutPage.selectedService := StoreConfig.Pickup;
     CheckoutPage.config := StoreSettings.defaultConfig;
     CheckoutPage.deliveryAddress :=
       {| CheckoutPage.street := "";
          CheckoutPage.area := "";
          CheckoutPage.city := "Muscat";
          CheckoutPage.postalCode := "";
          CheckoutPage.addressPhone := "" |};
     CheckoutPage.bookingDate := "2026-01-03";
     CheckoutPage.bookingTime := "12:00";
     CheckoutPage.deliveryDateTime := Js.ValidDate (Samples.hours 48);
     CheckoutPage.customerNotes := "";
     CheckoutPage.totalAmount := Some 14 |}.

End Fixtures.

(** * Properties *)

(** ** Offer evaluator *)

Lemma Qlt_bool_iff (a b : Q) : Js.Qlt_bool a b = true <-> a < b.
Proof.
  unfold Js.Qlt_bool. rewrite negb_true_iff.
  split; intro H.
  - apply Qnot_le_lt. intro Hle. apply Qle_bool_iff in Hle. congruence.
  - destruct (Qle_bool b a) eqn:E; [ | reflexivity ].
    apply Qle_bool_iff in E. exfalso. exact (Qlt_not_le _ _ H E).
Qed.

Lemma Qmax_0_bounds (p d : Q) : 0 <= p -> 0 <= d -> 0 <= Qmax 0 (p - d) <= p.
Proof.
  intros Hp Hd. split.
  - apply Q.le_max_l.
  - apply Q.max_lub; [ exact Hp | lra ].
Qed.

Section OfferFacts.

Import Offer.

Variable now : Z.
Variable item : FoodItem.

(** An active offer has a strictly positive discount value. *)
Lemma active_discount :
  isOfferActive now item = true ->
  exists dv, discountValue item = Some dv /\ 0 < dv
             /\ Js.truthy_num (discountValue item) = true.
Proof.
  unfold isOfferActive.
  destruct (discountValue item) as [dv | ]; cbn.
  - destruct (Js.truthy_bool (isOnOffer item)); cbn; [ | discriminate ].
    destruct (Qeq_bool dv 0) eqn:E0; cbn; [ discriminate | ].
    destruct (Qle_bool dv 0) eqn:E1; [ discriminate | ].
    intros _. exists dv. repeat split.
    apply Qnot_le_lt. intro Hle. apply Qle_bool_iff in Hle. congruence.
  - rewrite orb_true_r. discriminate.
Qed.

(** The two discounted prices, read off the code. *)
Lemma effective_price_active (dv : Q) :
  isOfferActive now item = true ->
  discountValue item = Some dv ->
  getEffectivePrice now item
  = match discountType item with
    | Some Percentage => Qmax 0 (price item - price item * dv / 100)
    | Some Fixed => Qmax 0 (price item - dv)
    | None => price item
    end.
Proof.
  intros Hon Hdv.
  destruct (active_discount Hon) as (dv' & Hdv' & _ & Htr).
  unfold getEffectivePrice. rewrite Hon, Htr, Hdv. cbn.
  destruct (discountType item) as [[ | ] | ]; reflexivity.
Qed.

(** For a price that is not negative the effective price stays between
    0 and the price. *)
Lemma effective_price_bounds :
  price_valid item -> 0 <= getEffectivePrice now item <= price item.
Proof.
  unfold price_valid. intro Hprice.
  destruct (isOfferActive now item) eqn:Hon.
  - destruct (active_discount Hon) as (dv & Hdv & Hpos & _).
    rewrite (effective_price_active dv Hon Hdv).
    destruct (discountType item) as [[ | ] | ].
    + apply Qmax_0_bounds; [ exact Hprice | ].
      apply Qle_shift_div_l; [ reflexivity | ].
      rewrite Qmult_0_l. apply Qmult_le_0_compat; lra.
    + apply Qmax_0_bounds; lra.
    + lra.
  - unfold getEffectivePrice. rewrite Hon. cbn. lra.
Qed.

End OfferFacts.

(** C2. The effective price is the raw price when no offer is active;
    with an active offer it is [price - price * discountValue / 100] for
    a percentage discount and [price - discountValue] for a fixed one,
    each clamped at [0] from below; and for a product whose price obeys
    the collection's [min: 0], it lies between [0] and the price. *)
Theorem effective_price_spec (now : Z) (item : Offer.FoodItem) :
  (Offer.isOfferActive now item = false ->
   Offer.getEffectivePrice now item = Offer.price item)
  /\ (Offer.isOfferActive now item = true ->
      Offer.discountType item = Some Offer.Percentage ->
      exists dv, Offer.discountValue item = Some dv
        /\ Offer.getEffectivePrice now item
           = Qmax 0 (Offer.price item - Offer.price item * dv / 100))
  /\ (Offer.isOfferActive now item = true ->
      Offer.discountType item = Some Offer.Fixed ->
      exists dv, Offer.discountValue item = Some dv
        /\ Offer.getEffectivePrice now item
           = Qmax 0 (Offer.price item - dv))
  /\ (Offer.price_valid item ->
      0 <= Offer.getEffectivePrice now item <= Offer.price item).
Proof.
  split; [ | split; [ | split ] ].
  - intro Hoff. unfold Offer.getEffectivePrice. now rewrite Hoff.
  - intros Hon Hty.
    destruct (active_discount now item Hon) as (dv & Hdv & _).
    exists dv. split; [ exact Hdv | ].
    rewrite (effective_price_active now item dv Hon Hdv). now rewrite Hty.
  - intros Hon Hty.
    destruct (active_discount now item Hon) as (dv & Hdv & _).
    exists dv. split; [ exact Hdv | ].
    rewrite (effective_price_active now item dv Hon Hdv). now rewrite Hty.
  - apply effective_price_bounds.
Qed.

Lemma effective_price_spec_witness :
  Offer.price_valid (Samples.onOffer 10 20)
  /\ 0 <= Offer.getEffectivePrice 0 (Samples.onOffer 10 20) <= 10.
Proof.
  assert (H : Offer.price_valid (Samples.onOffer 10 20))
    by (unfold Offer.price_valid; cbn; lra).
  split; [ exact H | ].
  exact (proj2 (proj2 (proj2
           (effective_price_spec 0 (Samples.onOffer 10 20)))) H).
Defined.

(** The worked figures: 20 percent off 10 is 8, and 3 off 10 is 7. *)
Example effective_price_percentage :
  Offer.getEffectivePrice 0 (Samples.onOffer 10 20) == 8.
Proof. vm_compute. reflexivity. Qed.

Example effective_price_plain :
  Offer.getEffectivePrice 0 (Samples.plain 10) = 10.
Proof. reflexivity. Qed.

Lemma round_half_up_bounds (x : Q) (lo hi : Z) :
  inject_Z lo <= x -> x <= inject_Z hi ->
  (lo <= Js.round_half_up x <= hi)%Z.
Proof.
  intros Hlo Hhi. unfold Js.round_half_up. split.
  - rewrite <- (Qfloor_Z lo). apply Qfloor_resp_le. lra.
  - apply Z.lt_succ_r. rewrite Zlt_Qlt.
    apply Qle_lt_trans with (x + (1 # 2)); [ apply Qfloor_le | ].
    unfold Z.succ. rewrite inject_Z_plus.
    change (inject_Z 1) with 1. lra.
Qed.




Example savings_percentage_twenty :
  Offer.getSavingsPercentage 0 (Samples.onOffer 10 20) = Js.Fin 20.
Proof. vm_compute. reflexivity. Qed.


(** ** Store pricing policy *)

(** C8. The delivery fee is 0 for pickup or when delivery is disabled,
    0 when the free-delivery threshold is positive and reached, and the
    configured fee otherwise; with threshold 50 and fee 1, a subtotal of
    60 costs 0, one of 40 costs 1, and pickup costs 0. *)
Theorem delivery_fee_spec (orderAmount : Q)
    (serviceType : StoreConfig.ServiceType)
    (config : option StoreConfig.Config) :
  let storeConfig := StoreConfig.orDefault config in
  let fee := StoreConfig.calculateDeliveryFee orderAmount serviceType config in
  (serviceType = StoreConfig.Pickup
   \/ StoreConfig.isDeliveryEnabled config = false -> fee = 0)
  /\ (0 < StoreConfig.configuredThreshold storeConfig ->
      StoreConfig.configuredThreshold storeConfig <= orderAmount ->
      fee = 0)
  /\ (serviceType = StoreConfig.Delivery ->
      StoreConfig.isDeliveryEnabled config = true ->
      ~ (0 < StoreConfig.configuredThreshold storeConfig
         /\ StoreConfig.configuredThreshold storeConfig <= orderAmount) ->
      fee = StoreConfig.configuredDeliveryFee storeConfig)
  /\ StoreConfig.calculateDeliveryFee 60 StoreConfig.Delivery
       (Some (Samples.feeConfig 1 50)) = 0
  /\ StoreConfig.calculateDeliveryFee 40 StoreConfig.Delivery
       (Some (Samples.feeConfig 1 50)) = 1
  /\ StoreConfig.calculateDeliveryFee orderAmount StoreConfig.Pickup
       config = 0.
Proof.
  cbv zeta. unfold StoreConfig.calculateDeliveryFee.
  assert (Hen : StoreConfig.isDeliveryEnabled
                  (Some (StoreConfig.orDefault config))
                = StoreConfig.isDeliveryEnabled config) by reflexivity.
  rewrite Hen.
  repeat apply conj; try reflexivity.
  - intros [-> | ->]; [ reflexivity | ].
    now rewrite orb_true_r.
  - intros Hpos Hreach.
    destruct (StoreConfig.is_pickup serviceType
              || negb (StoreConfig.isDeliveryEnabled config)); [ reflexivity | ].
    apply Qlt_bool_iff in Hpos. apply Qle_bool_iff in Hreach.
    now rewrite Hpos, Hreach.
  - intros -> -> Hnot. cbn [StoreConfig.is_pickup negb orb].
    destruct (Js.Qlt_bool 0 _) eqn:E1; [ | reflexivity ].
    destruct (Qle_bool _ orderAmount) eqn:E2; [ | reflexivity ].
    exfalso. apply Hnot. split.
    + now apply Qlt_bool_iff.
    + now apply Qle_bool_iff.
Qed.

Lemma delivery_fee_spec_witness :
  StoreConfig.calculateDeliveryFee 40 StoreConfig.Delivery
    (Some (Samples.feeConfig 3 50)) = 3.
Proof.
  apply (proj1 (proj2 (proj2
    (delivery_fee_spec 40 StoreConfig.Delivery
       (Some (Samples.feeConfig 3 50)))))).
  - reflexivity.
  - reflexivity.
  - cbn. intros [_ H]. revert H. unfold Qle. cbn. lia.
Defined.

(** ** Checkout workflow *)

Section CheckoutFacts.

Import Checkout.

Variable env : Env.

(** The loop appends one row per cart line, priced from the product
    record, and adds the row's subtotal to the running total. *)
Lemma priceItems_rows (items : list CartItem) :
  forall acc tot rows total,
    priceItems (products env) items acc tot = inr (rows, total) ->
    exists new,
      rows = acc ++ new
      /\ Forall2 (pricedFrom (products env)) items new
      /\ total == tot + sumSubtotals new.
Proof.
  induction items as [ | item rest IH]; intros acc tot rows total H.
  - cbn in H. injection H as <- <-. exists []. rewrite app_nil_r.
    repeat split; [ constructor | cbn [sumSubtotals fold_right]; ring ].
  - cbn in H.
    destruct (id item) as [itemId | ] eqn:Hid; [ | discriminate ].
    destruct (String.eqb itemId "") eqn:Hempty; [ discriminate | ].
    destruct (products env itemId) as [foodItem | | ] eqn:Hfind;
      try discriminate.
    apply IH in H. destruct H as (new & -> & Hrows & Htotal).
    eexists (_ :: new). rewrite <- app_assoc. cbn [app].
    repeat split.
    + constructor; [ | exact Hrows ].
      exists itemId, foodItem. cbn. repeat split; assumption.
    + unfold sumSubtotals in *. cbn [fold_right Orders.subtotal].
      rewrite Htotal. ring.
Qed.

(** An error of the loop names a cart line that does not resolve. *)
Lemma priceItems_error (items : list CartItem) :
  forall acc tot err,
    priceItems (products env) items acc tot = inl err ->
    exists item,
      In item items /\ resolves (products env) item = false
      /\ namesItem err item.
Proof.
  induction items as [ | item rest IH]; intros acc tot err H.
  - discriminate.
  - cbn in H.
    destruct (id item) as [itemId | ] eqn:Hid.
    + destruct (String.eqb itemId "") eqn:Hempty.
      * injection H as <-. exists item. unfold resolves, namesItem.
        rewrite Hid, Hempty. repeat split; now left.
      * destruct (products env itemId) as [foodItem | | ] eqn:Hfind.
        -- apply IH in H. destruct H as (it & Hin & Hres & Hname).
           exists it. repeat split; [ now right | exact Hres | exact Hname ].
        -- injection H as <-. exists item. unfold resolves, namesItem.
           rewrite Hid, Hempty, Hfind.
           repeat split; [ now left | ].
           right; left. now exists itemId.
        -- injection H as <-. exists item. unfold resolves, namesItem.
           rewrite Hid, Hempty, Hfind.
           repeat split; [ now left | ].
           now right; right.
    + injection H as <-. exists item. unfold resolves, namesItem.
      rewrite Hid. repeat split; now left.
Qed.

(** A cart with a line that does not resolve never gets through the
    loop. *)
Lemma priceItems_unresolved (items : list CartItem) :
  Exists (fun item => resolves (products env) item = false) items ->
  forall acc tot, exists err,
    priceItems (products env) items acc tot = inl err.
Proof.
  induction 1 as [item rest Hbad | item rest _ IH]; intros acc tot; cbn.
  - unfold resolves in Hbad.
    destruct (id item) as [itemId | ]; [ | eauto ].
    destruct (String.eqb itemId ""); [ eauto | ].
    destruct (products env itemId); [ discriminate | eauto | eauto ].
  - destruct (id item) as [itemId | ]; [ | eauto ].
    destruct (String.eqb itemId ""); [ eauto | ].
    destruct (products env itemId); eauto.
Qed.

Lemma aggregatesKept_refl (st : Store) : aggregatesKept st st.
Proof.
  split.
  - intros k c H. now exists c.
  - intros k c' H Hk. apply nth_error_None in Hk. congruence.
Qed.

Lemma aggregatesKept_trans (st1 st2 st3 : Store) :
  (List.length (customers st1) <= List.length (customers st2))%nat ->
  aggregatesKept st1 st2 -> aggregatesKept st2 st3 ->
  aggregatesKept st1 st3.
Proof.
  intros Hlen [H12 N12] [H23 N23]. split.
  - intros k c Hk.
    destruct (H12 k c Hk) as (c2 & Hk2 & Hid2 & Hag2).
    destruct (H23 k c2 Hk2) as (c3 & Hk3 & Hid3 & Hag3).
    exists c3. repeat split; congruence.
  - intros k c3 Hk3 Hk.
    destruct (nth_error (customers st2) k) as [c2 | ] eqn:Hk2.
    + destruct (H23 k c2 Hk2) as (c3' & Hk3' & _ & Hag).
      assert (c3' = c3) by congruence. subst c3'.
      rewrite Hag. now apply (N12 k).
    + apply (N23 k c3 Hk3). now apply nth_error_None.
Qed.

(** A by-id update that keeps ids and aggregates keeps every
    customer's aggregates. *)
Lemma update_keeps (st : Store) (i : nat)
    (data : Customers.Customer -> Customers.Customer) os n :
  (forall c, Customers.id (data c) = Customers.id c
             /\ aggregates (data c) = aggregates c) ->
  aggregatesKept st
    {| customers := Customers.update i data (customers st);
       orders := os; nextId := n |}.
Proof.
  intro Hdata. split; cbn [customers]; unfold Customers.update.
  - intros k c Hk. rewrite nth_error_map, Hk. cbn.
    eexists. split; [ reflexivity | ].
    destruct (Nat.eqb (Customers.id c) i); [ apply Hdata | now split ].
  - intros k c' Hk Hlen. rewrite nth_error_map in Hk.
    apply nth_error_None in Hlen. rewrite Hlen in Hk. discriminate.
Qed.

(** Step 2 writes no order and no aggregate. *)
Lemma resolveCustomer_keeps st req info res st1 :
  resolveCustomer env st req info = (res, st1) ->
  orders st1 = orders st
  /\ aggregatesKept st st1
  /\ (List.length (customers st) <= List.length (customers st1))%nat.
Proof.
  unfold resolveCustomer. intro H.
  destruct (customerFindThrows env).
  { injection H as <- <-. auto using aggregatesKept_refl. }
  destruct (Customers.find (email info) (customers st))
    as [ | existing others].
  - destruct (negb (Js.truthy_str (password info))).
    { injection H as <- <-. auto using aggregatesKept_refl. }
    destruct (customerWriteThrows env).
    { injection H as <- <-. auto using aggregatesKept_refl. }
    injection H as <- <-. cbn [orders customers].
    repeat split.
    + intros k c Hk. exists c. cbn [customers]. repeat split.
      rewrite nth_error_app1; [ exact Hk | ].
      apply nth_error_Some. congruence.
    + intros k c' Hk Hlen. cbn [customers] in Hk.
      rewrite nth_error_app2 in Hk by exact Hlen.
      destruct (k - List.length (customers st))%nat as [ | m].
      * cbn in Hk. injection Hk as <-. reflexivity.
      * destruct m; discriminate.
    + rewrite length_app. lia.
  - destruct (customerWriteThrows env).
    { injection H as <- <-. auto using aggregatesKept_refl. }
    injection H as <- <-. cbn [orders customers].
    repeat split.
    + apply update_keeps. intro c. now split.
    + apply update_keeps. intro c. now split.
    + unfold Customers.update. rewrite length_map. lia.
Qed.

(** Step 2 fails with one of two responses. *)
Lemma resolveCustomer_error st req info err st1 :
  resolveCustomer env st req info = (inl err, st1) ->
  (err = CustomerFailed \/ err = PasswordRequired) /\ st1 = st.
Proof.
  unfold resolveCustomer. intro H.
  destruct (customerFindThrows env).
  { injection H as <- <-. auto. }
  destruct (Customers.find (email info) (customers st)).
  - destruct (negb (Js.truthy_str (password info))).
    { injection H as <- <-. auto. }
    destruct (customerWriteThrows env); [ | discriminate ].
    injection H as <- <-. auto.
  - destruct (customerWriteThrows env); [ | discriminate ].
    injection H as <- <-. auto.
Qed.

(** Steps 5 to 7 either fail with the 500 response, leaving every
    customer as it was, or store exactly one order and update the
    statistics once. *)
Lemma createOrder_cases st req info customer isNew rows total bd resp st' :
  createOrder env st req info customer isNew rows total bd = (resp, st') ->
  (resp = OrderFailed /\ customers st' = customers st
   /\ (statsUpdateThrows env = false -> orders st' = orders st))
  \/ (exists ms o order cust,
        bd = Js.ValidDate ms
        /\ resp = Success order cust (loginToken env)
        /\ orders st' = orders st ++ [o]
        /\ Orders.items o = rows
        /\ Orders.totalAmount o = total
        /\ Orders.bookingDate o = ms
        /\ Orders.status o = Orders.Pending
        /\ Orders.customer o = Customers.id customer
        /\ sum_totalAmount order = total
        /\ Orders.validate (createClock env) o = true
        /\ customers st'
           = Customers.update (Customers.id customer)
               (statsData env customer total) (customers st)).
Proof.
  unfold createOrder. intro H.
  destruct bd as [ms | ].
  2:{ injection H as <- <-. left. auto. }
  destruct (orderCreateThrows env || negb (Orders.validate _ _)) eqn:Hc.
  { injection H as <- <-. left. auto. }
  apply orb_false_iff in Hc. destruct Hc as [_ Hvalid].
  apply negb_false_iff in Hvalid.
  destruct (statsUpdateThrows env).
  { injection H as <- <-. left. repeat split. discriminate. }
  injection H as <- <-. right.
  eexists ms, _, _, _.
  repeat split; try reflexivity. exact Hvalid.
Qed.

End CheckoutFacts.

(** The case analysis of the handler's early returns. *)
Ltac checkout_cases H :=
  unfold Checkout.POST in H;
  let err := fresh "err" in
  let items := fresh "items" in
  let info := fresh "info" in
  let bd := fresh "bd" in
  let customer := fresh "customer" in
  let isNew := fresh "isNew" in
  let st1 := fresh "st1" in
  let rows := fresh "rows" in
  let total := fresh "total" in
  let Hvalidate := fresh "Hvalidate" in
  let Hresolve := fresh "Hresolve" in
  let Hprice := fresh "Hprice" in
  let Hsoon := fresh "Hsoon" in
  destruct (Checkout.validateRequest _)
    as [err | [[items info] bd]] eqn:Hvalidate;
  [ | destruct (Checkout.resolveCustomer _ _ _ _)
        as [[err | [customer isNew]] st1] eqn:Hresolve;
      [ | destruct (Checkout.priceItems _ _ _ _)
            as [err | [rows total]] eqn:Hprice;
          [ | destruct (Checkout.bookingTooSoon _ _) eqn:Hsoon ] ] ].

Section CheckoutClaims.

Import Checkout.

Variable env : Env.
Variable st : Store.
Variable req : Request.

Lemma validateRequest_ok lines info bd :
  validateRequest req = inr (lines, info, bd) ->
  items req = Some lines /\ customerInfo req = Some info
  /\ bookingDate req = Some bd /\ missingRequired req = false.
Proof.
  unfold validateRequest, missingRequired.
  destruct (items req), (customerInfo req), (bookingDate req);
    try discriminate.
  destruct (negb (Js.truthy_str (serviceType req))); [ discriminate | ].
  destruct (addressMissing req); [ discriminate | ].
  intro H. injection H as <- <- <-. auto.
Qed.

Lemma validateRequest_error err :
  validateRequest req = inl err ->
  validationError err /\ missingRequired req = true.
Proof.
  unfold validateRequest, missingRequired, validationError.
  destruct (items req), (customerInfo req), (bookingDate req);
    try (intro H; injection H as <-; now auto).
  destruct (negb (Js.truthy_str (serviceType req))).
  { intro H; injection H as <-; auto. }
  destruct (addressMissing req); [ | discriminate ].
  intro H; injection H as <-; auto.
Qed.

(** The lead-time test in whole milliseconds. *)
Lemma bookingTooSoon_iff now ms :
  bookingTooSoon now (Js.ValidDate ms) = true
  <-> (ms - now < 24 * 3600000)%Z.
Proof.
  unfold bookingTooSoon. rewrite Qlt_bool_iff.
  unfold Qlt, Qdiv. cbn. lia.
Qed.

End CheckoutClaims.




(** The cart claims 1 for a dish on a 20 percent offer whose raw price
    is 10 and whose effective price is 8: two of them are charged 20. *)
Example checkout_charges_raw_price :
  Checkout.orderTotal
    (fst (Checkout.POST Samples.calm Samples.emptyStore
            (Samples.pickupRequest [Samples.line "p1" 2 1] 25))) == 20
  /\ Offer.getEffectivePrice 0 (Samples.onOffer 10 20) == 8.
Proof. split; vm_compute; reflexivity. Qed.

(** The client's line prices do not reach the loop. *)
Lemma priceItems_ignores_claimed_price
    (products : string -> Checkout.FindResult) (p : option Q)
    (lines : list Checkout.CartItem) :
  forall acc tot,
    Checkout.priceItems products
      (map (fun item => Checkout.withPrice item p) lines) acc tot
    = Checkout.priceItems products lines acc tot.
Proof.
  induction lines as [ | item rest IH]; intros acc tot; cbn; [ reflexivity | ].
  destruct (Checkout.id item) as [itemId | ]; [ | reflexivity ].
  destruct (String.eqb itemId ""); [ reflexivity | ].
  destruct (products itemId); auto.
Qed.

(** The client's line prices reach neither the response nor the
    store. *)
Lemma claimed_price_ignored
    (env : Checkout.Env) (st : Store) (req : Checkout.Request)
    (lines : list Checkout.CartItem) (p : option Q) :
  Checkout.items req = Some lines ->
  Checkout.POST env st
    (Checkout.withItems req
       (map (fun item => Checkout.withPrice item p) lines))
  = Checkout.POST env st req.
Proof.
  intro Hitems. destruct req as [its info addr svc bd notes total].
  cbn in Hitems. subst its.
  unfold Checkout.POST, Checkout.validateRequest, Checkout.withItems.
  cbn [Checkout.items Checkout.customerInfo Checkout.bookingDate
       Checkout.deliveryAddress Checkout.serviceType
       Checkout.customerNotes Checkout.totalAmount].
  destruct info as [info | ]; [ | reflexivity ].
  destruct bd as [bd | ]; [ | reflexivity ].
  destruct (negb (Js.truthy_str svc)); [ reflexivity | ].
  match goal with
  | |- context [Checkout.addressMissing ?r] =>
      change (Checkout.addressMissing r)
        with (Checkout.addressMissing
                (Checkout.mkRequest (Some lines) (Some info) addr svc
                   (Some bd) notes total))
  end.
  destruct (Checkout.addressMissing _); [ reflexivity | ].
  match goal with
  | |- context [Checkout.resolveCustomer env st ?r info] =>
      change (Checkout.resolveCustomer env st r info)
        with (Checkout.resolveCustomer env st
                (Checkout.mkRequest (Some lines) (Some info) addr svc
                   (Some bd) notes total) info)
  end.
  destruct (Checkout.resolveCustomer env st _ info)
    as [[err | [customer isNew]] st1]; [ reflexivity | ].
  rewrite priceItems_ignores_claimed_price.
  destruct (Checkout.priceItems _ lines [] 0) as [err | [rows sum]];
    reflexivity.
Qed.

(** C10. The client-supplied [totalAmount] is never read: two requests
    that differ only in it get the same response and leave the same
    store. *)
Theorem submitted_total_ignored
    (env : Checkout.Env) (st : Store) (a b : Checkout.Request) :
  Checkout.sameButTotal a b ->
  Checkout.POST env st a = Checkout.POST env st b.
Proof.
  destruct a as [its info addr svc bd notes total].
  destruct b as [its' info' addr' svc' bd' notes' total'].
  unfold Checkout.sameButTotal. cbn.
  intros (<- & <- & <- & <- & <- & <-).
  reflexivity.
Qed.

Lemma submitted_total_ignored_witness :
  Checkout.POST Samples.calm Samples.emptyStore
    (Checkout.withTotalAmount
       (Samples.pickupRequest [Samples.line "p1" 2 1] 25) (Some 999))
  = Checkout.POST Samples.calm Samples.emptyStore
      (Samples.pickupRequest [Samples.line "p1" 2 1] 25).
Proof.
  apply submitted_total_ignored.
  unfold Checkout.sameButTotal. cbn. repeat split.
Defined.

(** C4. A cart with a line whose id is missing or does not resolve to a
    product never yields a success: no order is stored and no customer
    aggregate changes; and once the request is past the customer step,
    the response is an item error naming such a line. *)
Theorem unknown_item_aborts
    (env : Checkout.Env) (st : Store) (req : Checkout.Request)
    (lines : list Checkout.CartItem) :
  Checkout.items req = Some lines ->
  Exists (fun item => Checkout.resolves (Checkout.products env) item = false)
    lines ->
  ~ Checkout.succeeded (fst (Checkout.POST env st req))
  /\ orders (snd (Checkout.POST env st req)) = orders st
  /\ Checkout.aggregatesKept st (snd (Checkout.POST env st req))
  /\ (forall st1, Checkout.passesCustomerStep env st req lines st1 ->
      exists item,
        In item lines
        /\ Checkout.resolves (Checkout.products env) item = false
        /\ Checkout.namesItem (fst (Checkout.POST env st req)) item).
Proof.
  intros Hitems Hbad.
  destruct (Checkout.POST env st req) as [resp st'] eqn:H. cbn [fst snd].
  checkout_cases H.
  - injection H as <- <-.
    destruct (validateRequest_error _ _ Hvalidate) as [Herr _].
    split; [ | split; [ | split ] ].
    + destruct Herr as [-> | ->]; exact (fun F => F).
    + reflexivity.
    + apply aggregatesKept_refl.
    + intros st1 (info & bd & c & n & Hv & _). congruence.
  - injection H as <- <-.
    destruct (resolveCustomer_error _ _ _ _ _ _ Hresolve) as [Herr ->].
    split; [ | split; [ | split ] ].
    + destruct Herr as [-> | ->]; exact (fun F => F).
    + reflexivity.
    + apply aggregatesKept_refl.
    + intros st2 (info' & bd' & c & n & Hv & Hr).
      assert (info' = info) by congruence. subst info'. congruence.
  - injection H as <- <-.
    apply resolveCustomer_keeps in Hresolve.
    destruct Hresolve as (Horders & Hkept & _).
    pose proof (priceItems_error _ _ _ _ _ Hprice)
      as (item & Hin & Hres & Hname).
    apply validateRequest_ok in Hvalidate.
    destruct Hvalidate as (Hitems' & _).
    assert (items = lines) by congruence. subst items.
    split; [ | split; [ | split ] ].
    + destruct Hname as [-> | [(i & _ & ->) | ->]]; exact (fun F => F).
    + exact Horders.
    + exact Hkept.
    + intros _ _. now exists item.
  - exfalso.
    apply validateRequest_ok in Hvalidate. destruct Hvalidate as (Hitems' & _).
    assert (items = lines) by congruence. subst items.
    destruct (priceItems_unresolved env lines Hbad [] 0) as (e & He).
    congruence.
  - exfalso.
    apply validateRequest_ok in Hvalidate. destruct Hvalidate as (Hitems' & _).
    assert (items = lines) by congruence. subst items.
    destruct (priceItems_unresolved env lines Hbad [] 0) as (e & He).
    congruence.
Qed.

Lemma unknown_item_aborts_witness :
  ~ Checkout.succeeded
      (fst (Checkout.POST Samples.calm Samples.emptyStore
              (Samples.pickupRequest [Samples.line "p9" 1 1] 48)))
  /\ orders (snd (Checkout.POST Samples.calm Samples.emptyStore
                    (Samples.pickupRequest [Samples.line "p9" 1 1] 48)))
     = orders Samples.emptyStore.
Proof.
  assert (Hbad : Exists
            (fun item =>
               Checkout.resolves (Checkout.products Samples.calm) item = false)
            [Samples.line "p9" 1 1])
    by (constructor; reflexivity).
  destruct (unknown_item_aborts Samples.calm Samples.emptyStore
              (Samples.pickupRequest [Samples.line "p9" 1 1] 48)
              [Samples.line "p9" 1 1] eq_refl Hbad) as (H1 & H2 & _).
  split; assumption.
Defined.

Example unknown_item_response :
  fst (Checkout.POST Samples.calm Samples.emptyStore
         (Samples.pickupRequest [Samples.line "p9" 1 1] 48))
  = Checkout.ItemNotFound "p9".
Proof. reflexivity. Qed.

(** C5, as the code has it. A request in which [items], [customerInfo],
    [bookingDate] or [serviceType] is absent, or whose service is
    delivery while the address is absent or lacks street or area, is
    rejected with a validation error, and the store is left as it
    was. *)
Theorem missing_fields_rejected
    (env : Checkout.Env) (st : Store) (req : Checkout.Request) :
  Checkout.missingRequired req = true ->
  Checkout.validationError (fst (Checkout.POST env st req))
  /\ snd (Checkout.POST env st req) = st.
Proof.
  intro Hmiss. unfold Checkout.POST.
  destruct (Checkout.validateRequest req) as [err | [[lines info] bd]] eqn:Hv.
  - cbn. split; [ | reflexivity ].
    now apply (validateRequest_error req err).
  - apply validateRequest_ok in Hv. destruct Hv as (_ & _ & _ & Hok).
    congruence.
Qed.

Lemma missing_fields_rejected_witness :
  Checkout.validationError
    (fst (Checkout.POST Samples.calm Samples.emptyStore
            Samples.undatedRequest))
  /\ snd (Checkout.POST Samples.calm Samples.emptyStore
            Samples.undatedRequest) = Samples.emptyStore.
Proof.
  apply (missing_fields_rejected Samples.calm Samples.emptyStore
           Samples.undatedRequest).
  reflexivity.
Defined.

(** C5 as stated fails on two of its cases.  A delivery address with
    street and area but neither city nor phone passes step 1, and so
    does an empty cart; in both runs the response is not a validation
    error and a customer has been created. *)
Lemma incomplete_request_not_rejected :
  (Checkout.addressComplete
     (Checkout.deliveryAddress Samples.shortAddressRequest) = false
   /\ Checkout.is_delivery
        (Checkout.serviceType Samples.shortAddressRequest) = true
   /\ ~ Checkout.validationError
         (fst (Checkout.POST Samples.calm Samples.emptyStore
                 Samples.shortAddressRequest))
   /\ customers (snd (Checkout.POST Samples.calm Samples.emptyStore
                        Samples.shortAddressRequest))
      <> customers Samples.emptyStore)
  /\ (Checkout.items (Samples.pickupRequest [] 48) = Some []
      /\ ~ Checkout.validationError
            (fst (Checkout.POST Samples.calm Samples.emptyStore
                    (Samples.pickupRequest [] 48)))
      /\ customers (snd (Checkout.POST Samples.calm Samples.emptyStore
                           (Samples.pickupRequest [] 48)))
         <> customers Samples.emptyStore).
Proof.
  repeat split; try (intros [H | H]; discriminate H);
    vm_compute; discriminate.
Qed.

(** The short address is completed by the collection's default city and
    the customer's phone, and the order is stored; the empty cart fails
    at order creation. *)
Example incomplete_request_response :
  Checkout.succeeded
    (fst (Checkout.POST Samples.calm Samples.emptyStore
            Samples.shortAddressRequest))
  /\ fst (Checkout.POST Samples.calm Samples.emptyStore
            (Samples.pickupRequest [] 48)) = Checkout.OrderFailed.
Proof. split; [ exact I | reflexivity ]. Qed.

(** C3, as the code has it. A request that is past steps 1 to 3 is
    rejected for its booking date exactly when the date is less than 24
    hours after the clock reading: 23 hours ahead is rejected, 25 hours
    ahead is not.  On that rejection the store is the one step 2 left:
    no order has been added and no customer aggregate has changed (the
    customer record itself may have been created or updated). *)
Theorem lead_time_check
    (env : Checkout.Env) (st st1 : Store) (req : Checkout.Request)
    (bd : Js.JsDate) :
  Checkout.passesRepricing env st req bd st1 ->
  (fst (Checkout.POST env st req) = Checkout.BookingTooSoon
   <-> exists ms, bd = Js.ValidDate ms
                  /\ (ms - Checkout.now env < 24 * 3600000)%Z)
  /\ (fst (Checkout.POST env st req) = Checkout.BookingTooSoon ->
      snd (Checkout.POST env st req) = st1
      /\ orders st1 = orders st
      /\ Checkout.aggregatesKept st st1)
  /\ (bd = Js.ValidDate (Checkout.now env + 23 * 3600000) ->
      fst (Checkout.POST env st req) = Checkout.BookingTooSoon)
  /\ (bd = Js.ValidDate (Checkout.now env + 25 * 3600000) ->
      fst (Checkout.POST env st req) <> Checkout.BookingTooSoon).
Proof.
  intros (lines & info & customer & isNew & rows & total & Hv & Hr & Hp).
  assert (Hiff : fst (Checkout.POST env st req) = Checkout.BookingTooSoon
                 <-> exists ms, bd = Js.ValidDate ms
                       /\ (ms - Checkout.now env < 24 * 3600000)%Z).
  { unfold Checkout.POST. rewrite Hv, Hr, Hp.
    destruct bd as [ms | ].
    - destruct (Checkout.bookingTooSoon (Checkout.now env) (Js.ValidDate ms))
        eqn:Hsoon.
      + cbn. split; [ intros _ | reflexivity ].
        exists ms. split; [ reflexivity | ].
        now apply bookingTooSoon_iff.
      + split.
        * intro H. exfalso.
          destruct (Checkout.createOrder _ _ _ _ _ _ _ _ _) as [r s] eqn:Hc.
          apply createOrder_cases in Hc. cbn in H. subst r.
          destruct Hc as [(E & _) | (? & ? & ? & ? & _ & E & _)];
            discriminate E.
        * intros (ms' & E & Hlt). injection E as <-.
          apply bookingTooSoon_iff in Hlt. congruence.
    - cbn. split; [ discriminate | ].
      intros (ms & E & _). discriminate E. }
  split; [ exact Hiff | split; [ | split ] ].
  - intro Hsoon. apply Hiff in Hsoon. destruct Hsoon as (ms & -> & Hlt).
    apply bookingTooSoon_iff in Hlt.
    unfold Checkout.POST. rewrite Hv, Hr, Hp, Hlt. cbn.
    destruct (resolveCustomer_keeps _ _ _ _ _ _ Hr) as (Ho & Hk & _).
    auto.
  - intros ->. apply Hiff. eexists. split; [ reflexivity | lia ].
  - intros -> Hsoon. apply Hiff in Hsoon.
    destruct Hsoon as (ms & E & Hlt). injection E as <-. lia.
Qed.

Lemma lead_time_check_witness :
  fst (Checkout.POST Samples.calm Samples.emptyStore
         (Samples.pickupRequest [Samples.line "p2" 1 3] 23))
  = Checkout.BookingTooSoon.
Proof.
  assert (Hp : exists st1,
             Checkout.passesRepricing Samples.calm Samples.emptyStore
               (Samples.pickupRequest [Samples.line "p2" 1 3] 23)
               (Js.ValidDate (Samples.hours 23)) st1).
  { eexists. unfold Checkout.passesRepricing.
    do 6 eexists. repeat split; reflexivity. }
  destruct Hp as (st1 & Hp).
  apply (proj1 (proj2 (proj2 (lead_time_check _ _ st1 _ _ Hp)))).
  reflexivity.
Defined.

Example lead_time_accepts_25_hours :
  Checkout.succeeded
    (fst (Checkout.POST Samples.calm Samples.emptyStore
            (Samples.pickupRequest [Samples.line "p2" 1 3] 25))).
Proof. exact I. Qed.

(** C3 as stated fails on its last part: when the booking date is
    refused, step 2 has already written the customer.  Here a first-time
    customer books 23 hours ahead; the request is refused and the
    customer record exists. *)
Lemma lead_time_rejection_follows_customer_write :
  fst (Checkout.POST Samples.calm Samples.emptyStore
         (Samples.pickupRequest [Samples.line "p2" 1 3] 23))
  = Checkout.BookingTooSoon
  /\ customers (snd (Checkout.POST Samples.calm Samples.emptyStore
                       (Samples.pickupRequest [Samples.line "p2" 1 3] 23)))
     <> customers Samples.emptyStore.
Proof. split; [ reflexivity | vm_compute; discriminate ]. Qed.

(** ** Customer aggregates *)

Section AggregateFacts.

Import Checkout.

Variable e : string.

(** A by-id update that keeps e-mail addresses rewrites the matches of
    an e-mail query in place. *)
Lemma find_update (i : nat) (data : Customers.Customer -> Customers.Customer)
    (docs : list Customers.Customer) :
  (forall c, Customers.email (data c) = Customers.email c) ->
  Customers.find (Some e) (Customers.update i data docs)
  = Customers.update i data (Customers.find (Some e) docs).
Proof.
  intro Hemail. unfold Customers.find, Customers.update.
  induction docs as [ | c rest IH]; [ reflexivity | ].
  cbn [map filter].
  assert (Hsame : Customers.email_equals (Some e)
                    (if Nat.eqb (Customers.id c) i then data c else c)
                  = Customers.email_equals (Some e) c).
  { unfold Customers.email_equals.
    destruct (Nat.eqb (Customers.id c) i); [ | reflexivity ].
    now rewrite Hemail. }
  rewrite Hsame.
  destruct (Customers.email_equals (Some e) c); cbn [map]; now rewrite IH.
Qed.

Lemma owner_update (st : Store) (c : Customers.Customer)
    (data : Customers.Customer -> Customers.Customer) os n :
  (forall c, Customers.email (data c) = Customers.email c) ->
  owner e st = Some c ->
  owner e {| customers := Customers.update (Customers.id c) data (customers st);
             orders := os; nextId := n |}
  = Some (data c).
Proof.
  intros Hemail. unfold owner. cbn [customers].
  rewrite find_update by exact Hemail.
  destruct (Customers.find (Some e) (customers st)) as [ | c0 rest];
    [ discriminate | ].
  cbn. intro H. injection H as ->. now rewrite Nat.eqb_refl.
Qed.

(** After step 2 the owner of the e-mail address is the customer the
    handler holds, with the aggregates the owner had before (the
    declared defaults for a new customer). *)
Lemma resolveCustomer_owner env st req info customer isNew st1 :
  email info = Some e ->
  resolveCustomer env st req info = (inr (customer, isNew), st1) ->
  owner e st1 = Some customer
  /\ Js.num_or (Customers.totalOrders customer) 0 = ownerOrders e st
  /\ Js.num_or (Customers.totalSpent customer) 0 = ownerSpent e st
  /\ Js.num_or (Customers.loyaltyPoints customer) 0 = ownerPoints e st.
Proof.
  intros He. unfold resolveCustomer. rewrite He.
  destruct (customerFindThrows env); [ discriminate | ].
  unfold ownerOrders, ownerSpent, ownerPoints.
  destruct (Customers.find (Some e) (customers st)) as [ | existing others]
    eqn:Hfind.
  - destruct (negb (Js.truthy_str (password info))); [ discriminate | ].
    destruct (customerWriteThrows env); [ discriminate | ].
    intro H. injection H as <- <- <-.
    unfold owner. cbn [customers]. rewrite Hfind.
    unfold Customers.find in *. rewrite filter_app, Hfind. cbn.
    rewrite He, String.eqb_refl. cbn. auto.
  - destruct (customerWriteThrows env); [ discriminate | ].
    intro H. injection H as <- <- <-.
    assert (Ho : owner e st = Some existing)
      by (unfold owner; now rewrite Hfind).
    rewrite Ho. split; [ | now cbn ].
    now apply owner_update.
Qed.



(** An order that passed the collection's checks, priced from valid
    products, has a total that is not negative. *)
Lemma total_nonneg env lines rows total o :
  productsValid env ->
  priceItems (products env) lines [] 0 = inr (rows, total) ->
  Orders.items o = rows ->
  Orders.validate (createClock env) o = true ->
  0 <= total.
Proof.
  intros Hvalid Hp Hrows Hchecked.
  apply priceItems_rows in Hp. destruct Hp as (new & Hnew & Hpriced & ->).
  cbn [app] in Hnew. subst new.
  unfold Orders.validate in Hchecked.
  do 6 (apply andb_true_iff in Hchecked; destruct Hchecked as [Hchecked _]).
  apply andb_true_iff in Hchecked. destruct Hchecked as [_ Hq].
  rewrite Hrows in Hq. clear Hrows.
  rewrite Qplus_0_l.
  induction Hpriced as [ | item row items rows' Hrow _ IH];
    [ cbn; lra | ].
  cbn [forallb] in Hq. apply andb_true_iff in Hq. destruct Hq as [Hq1 Hq].
  cbn [sumSubtotals fold_right].
  specialize (IH Hq). unfold sumSubtotals in IH.
  destruct Hrow as (itemId & foodItem & _ & Hfind & _ & Hqty & _ & ->).
  apply Qle_bool_iff in Hq1. rewrite Hqty in Hq1.
  apply Hvalid in Hfind. unfold Offer.price_valid in Hfind.
  assert (0 <= Offer.price foodItem * quantity item)
    by (apply Qmult_le_0_compat; lra).
  lra.
Qed.


End AggregateFacts.



Lemma catalogue_valid (itemId : string) (foodItem : Offer.FoodItem) :
  Samples.catalogue itemId = Checkout.Found foodItem ->
  Offer.price_valid foodItem.
Proof.
  unfold Samples.catalogue.
  destruct (String.eqb itemId "p1").
  { intro H. injection H as <-. unfold Offer.price_valid. cbn. lra. }
  destruct (String.eqb itemId "p2"); [ | discriminate ].
  intro H. injection H as <-. unfold Offer.price_valid. cbn. lra.
Qed.


Example two_orders_counters :
  Checkout.owner "alice@example.om"
    (snd (Checkout.runAll Samples.twoOrders Samples.emptyStore))
  = Some {| Customers.id := 1;
            Customers.email := Some "alice@example.om"%string;
            Customers.password := Some "secret1"%string;
            Customers.firstName := Some "Alice"%string;
            Customers.lastName := Some "Said"%string;
            Customers.phone := Some "91234567"%string;
            Customers.isActive := true;
            Customers.defaultAddress := None;
            Customers.totalOrders := Some (0 + 1 + 1);
            Customers.totalSpent := Some (0 + (0 + 3 * 2) + (0 + 10 * 1));
            Customers.lastOrderDate := Some 1009%Z;
            Customers.loyaltyPoints :=
              Some (0 + Js.floor (0 + 3 * 2) + Js.floor (0 + 10 * 1)) |}.
Proof. reflexivity. Qed.

(** ** Order cancellation *)

(** A by-id update that keeps order number and customer rewrites the
    matches of the cancel route's query in place. *)
Lemma orders_find_update (number : string) (cid i : nat)
    (data : Orders.Order -> Orders.Order) (docs : list Orders.Order) :
  (forall o, Orders.orderNumber (data o) = Orders.orderNumber o
             /\ Orders.customer (data o) = Orders.customer o) ->
  Orders.find number cid (Orders.update i data docs)
  = Orders.update i data (Orders.find number cid docs).
Proof.
  intro Hkeys. unfold Orders.find, Orders.update.
  induction docs as [ | o rest IH]; [ reflexivity | ].
  cbn [map filter].
  assert (Hsame : Orders.matches number cid
                    (if Nat.eqb (Orders.id o) i then data o else o)
                  = Orders.matches number cid o).
  { unfold Orders.matches.
    destruct (Nat.eqb (Orders.id o) i); [ | reflexivity ].
    destruct (Hkeys o) as [-> ->]. reflexivity. }
  rewrite Hsame.
  destruct (Orders.matches number cid o); cbn [map]; now rewrite IH.
Qed.

Lemma cancellable_iff (s : Orders.OrderStatus) :
  Cancel.cancellable s = true <-> s = Orders.Pending \/ s = Orders.Confirmed.
Proof.
  destruct s; cbn; split; intro H; auto; try discriminate;
    destruct H as [H | H]; discriminate H.
Qed.

(** C7, as the code has it.  A cancellation request that finds the
    customer's order: if the status is neither pending nor confirmed
    the request is refused and the store is untouched; if it is pending
    or confirmed and the update goes through, the stored order becomes
    cancelled and its notes are the old notes, a separator when there
    were any, and the cancellation marker carrying the reason; if the
    update is rejected, the request fails with the 500 response and the
    store is untouched. *)
Theorem cancel_spec (env : Cancel.Env) (st : Store) (req : Cancel.Request)
    (number : string) (cid : nat)
    (order : Orders.Order) (others : list Orders.Order) :
  Cancel.requestKeys req = Some (number, cid) ->
  Cancel.orderFindThrows env = false ->
  Orders.find number cid (orders st) = order :: others ->
  (Orders.status order <> Orders.Pending ->
   Orders.status order <> Orders.Confirmed ->
   Cancel.POST env st req
   = (Cancel.CannotCancel (Orders.status order), st))
  /\ (Orders.status order = Orders.Pending
      \/ Orders.status order = Orders.Confirmed ->
      Cancel.orderUpdateThrows env = false ->
      exists summary updated,
        fst (Cancel.POST env st req) = Cancel.Cancelled summary
        /\ Cancel.sum_status summary = Orders.Cancelled
        /\ hd_error (Orders.find number cid
                       (orders (snd (Cancel.POST env st req))))
           = Some updated
        /\ Orders.id updated = Orders.id order
        /\ Orders.status updated = Orders.Cancelled
        /\ (forall n r,
              Orders.customerNotes order = Some n -> n <> ""%string ->
              Cancel.reason req = Some r -> r <> ""%string ->
              Orders.customerNotes updated
              = Some ((n ++ " | ") ++ "CANCELLED: " ++ r)%string)
        /\ (forall r,
              Orders.customerNotes order = None
              \/ Orders.customerNotes order = Some ""%string ->
              Cancel.reason req = Some r -> r <> ""%string ->
              Orders.customerNotes updated
              = Some ("CANCELLED: " ++ r)%string))
  /\ (Orders.status order = Orders.Pending
      \/ Orders.status order = Orders.Confirmed ->
      Cancel.orderUpdateThrows env = true ->
      Cancel.POST env st req = (Cancel.Failed, st)).
Proof.
  intros Hkeys Hfind Horder. unfold Cancel.POST.
  rewrite Hkeys, Hfind, Horder. split; [ | split ].
  3:{ intros Hs Hupdate. apply cancellable_iff in Hs.
      rewrite Hs, Hupdate. reflexivity. }
  - intros Hp Hc.
    destruct (Cancel.cancellable (Orders.status order)) eqn:E;
      [ | reflexivity ].
    apply cancellable_iff in E. destruct E; contradiction.
  - intros Hs Hupdate. apply cancellable_iff in Hs.
    rewrite Hs, Hupdate. cbn [negb fst snd orders].
    exists {| Cancel.sum_id := Orders.id order;
              Cancel.sum_orderNumber := Orders.orderNumber order;
              Cancel.sum_status := Orders.Cancelled;
              Cancel.sum_totalAmount := Orders.totalAmount order |},
           (Cancel.cancelData (Cancel.reason req) order).
    split; [ reflexivity | split; [ reflexivity | split ] ].
    + rewrite orders_find_update by (intro o; now split).
      rewrite Horder. cbn. now rewrite Nat.eqb_refl.
    + repeat split.
      * intros n r Hn Hne Hr Hre. cbn. rewrite Hn, Hr.
        unfold Cancel.cancelledNotes.
        apply String.eqb_neq in Hne, Hre. now rewrite Hne, Hre.
      * intros r Hn Hr Hre. cbn. rewrite Hr.
        unfold Cancel.cancelledNotes.
        apply String.eqb_neq in Hre. rewrite Hre.
        destruct Hn as [-> | ->]; reflexivity.
Qed.

Lemma cancel_spec_witness :
  exists summary updated,
    fst (Cancel.POST Samples.cancelEnv (Samples.orderStore Orders.Pending)
           Samples.cancelRequest) = Cancel.Cancelled summary
    /\ Cancel.sum_status summary = Orders.Cancelled
    /\ hd_error (Orders.find "ORD-1700000000000" 1
                   (orders (snd (Cancel.POST Samples.cancelEnv
                                   (Samples.orderStore Orders.Pending)
                                   Samples.cancelRequest))))
       = Some updated
    /\ Orders.status updated = Orders.Cancelled.
Proof.
  destruct (proj1 (proj2 (cancel_spec Samples.cancelEnv
                            (Samples.orderStore Orders.Pending)
                            Samples.cancelRequest "ORD-1700000000000" 1
                            (Samples.storedOrder Orders.Pending) []
                            eq_refl eq_refl eq_refl))
                  (or_introl eq_refl) eq_refl)
    as (summary & updated & H1 & H2 & H3 & _ & H4 & _).
  exists summary, updated. auto.
Defined.

(** C7 as stated fails when the update is rejected.  [payload.update]
    validates the document it writes, and the booking-date check of
    the collection reads the clock: for a pending order whose booking
    is by now less than 24 hours ahead the update throws.  The request
    is answered with the 500 response and the order stays pending. *)
Lemma cancel_rejected_update_keeps_order :
  Orders.status (Samples.storedOrder Orders.Pending) = Orders.Pending
  /\ Orders.find "ORD-1700000000000" 1
       (orders (Samples.orderStore Orders.Pending))
     = [Samples.storedOrder Orders.Pending]
  /\ Cancel.POST Samples.rejectingEnv (Samples.orderStore Orders.Pending)
       Samples.cancelRequest
     = (Cancel.Failed, Samples.orderStore Orders.Pending)
  /\ option_map Orders.status
       (hd_error
          (Orders.find "ORD-1700000000000" 1
             (orders (snd (Cancel.POST Samples.rejectingEnv
                             (Samples.orderStore Orders.Pending)
                             Samples.cancelRequest)))))
     = Some Orders.Pending.
Proof. repeat split. Qed.

Example cancel_preparing_refused :
  Cancel.POST Samples.cancelEnv (Samples.orderStore Orders.Preparing)
    Samples.cancelRequest
  = (Cancel.CannotCancel Orders.Preparing,
     Samples.orderStore Orders.Preparing).
Proof. reflexivity. Qed.

Example cancel_pending_notes :
  option_map Orders.customerNotes
    (hd_error (orders (snd (Cancel.POST Samples.cancelEnv
                              (Samples.orderStore Orders.Pending)
                              Samples.cancelRequest))))
  = Some (Some "no onions | CANCELLED: changed plans"%string).
Proof. reflexivity. Qed.

(** * Further properties *)

(** ** Offer window and savings *)

Lemma truthy_num_some (q : Q) : Js.truthy_num (Some q) = true <-> ~ q == 0.
Proof.
  cbn. destruct (Qeq_bool q 0) eqn:E; cbn; split; intro H;
    try discriminate; try reflexivity.
  - apply Qeq_bool_iff in E. contradiction.
  - apply Qeq_bool_neq in E. exact E.
Qed.

Lemma isOfferActive_window (now : Z) (item : Offer.FoodItem) :
  Offer.isOfferActive now item = true
  <-> Offer.isOnOffer item = Some true
      /\ (exists dv, Offer.discountValue item = Some dv /\ 0 < dv)
      /\ (forall ms, Offer.offerStartDate item = Some (Js.ValidDate ms) ->
                     (ms <= now)%Z)
      /\ (forall ms, Offer.offerEndDate item = Some (Js.ValidDate ms) ->
                     (now <= ms)%Z).
Proof.
  unfold Offer.isOfferActive. split.
  - intro H.
    destruct (Offer.isOnOffer item) as [[ | ] | ]; cbn in H;
      try discriminate.
    destruct (Offer.discountValue item) as [dv | ]; cbn in H;
      [ | discriminate ].
    destruct (Qeq_bool dv 0) eqn:E0; cbn in H; [ discriminate | ].
    destruct (Qle_bool dv 0) eqn:E1; [ discriminate | ].
    split; [ reflexivity | split; [ | split ] ].
    + exists dv. split; [ reflexivity | ].
      apply Qnot_le_lt. intro Hle. apply Qle_bool_iff in Hle. congruence.
    + intros ms Hs. rewrite Hs in H. cbn in H.
      destruct (now <? ms)%Z eqn:E; [ discriminate | ].
      apply Z.ltb_ge in E. exact E.
    + intros ms He. rewrite He in H.
      destruct (match Offer.offerStartDate item with
                | Some s => Js.before now s | None => false end);
        [ discriminate | ].
      cbn in H. destruct (ms <? now)%Z eqn:E; [ discriminate | ].
      apply Z.ltb_ge in E. exact E.
  - intros (Hflag & (dv & Hdv & Hpos) & Hstart & Hend).
    rewrite Hflag, Hdv. cbn.
    assert (E0 : Qeq_bool dv 0 = false).
    { destruct (Qeq_bool dv 0) eqn:E; [ | reflexivity ].
      apply Qeq_bool_iff in E. rewrite E in Hpos.
      exfalso. exact (Qlt_irrefl 0 Hpos). }
    assert (E1 : Qle_bool dv 0 = false).
    { destruct (Qle_bool dv 0) eqn:E; [ | reflexivity ].
      apply Qle_bool_iff in E. exfalso. exact (Qlt_not_le _ _ Hpos E). }
    rewrite E0, E1. cbn.
    assert (Hs : match Offer.offerStartDate item with
                 | Some s => Js.before now s | None => false end = false).
    { destruct (Offer.offerStartDate item) as [[ms | ] | ]; try reflexivity.
      cbn. apply Z.ltb_ge. now apply Hstart. }
    assert (He : match Offer.offerEndDate item with
                 | Some s => Js.after now s | None => false end = false).
    { destruct (Offer.offerEndDate item) as [[ms | ] | ]; try reflexivity.
      cbn. apply Z.ltb_ge. now apply Hend. }
    now rewrite Hs, He.
Qed.

(** X1. An offer is active exactly when the product is flagged, its
    discount value is present and positive, and the clock reading is
    not before a valid start date nor after a valid end date; a date
    that does not parse restricts nothing. *)
Theorem offer_active_iff (now : Z) (item : Offer.FoodItem) :
  Offer.isOfferActive now item = true
  <-> Offer.isOnOffer item = Some true
      /\ (exists dv, Offer.discountValue item = Some dv /\ 0 < dv)
      /\ (forall ms, Offer.offerStartDate item = Some (Js.ValidDate ms) ->
                     (ms <= now)%Z)
      /\ (forall ms, Offer.offerEndDate item = Some (Js.ValidDate ms) ->
                     (now <= ms)%Z).
Proof. exact (isOfferActive_window now item). Qed.

(** X2. The offer window is an interval: an offer active at two clock
    readings is active at every reading between them. *)
Theorem offer_window_convex (t1 t2 t3 : Z) (item : Offer.FoodItem) :
  (t1 <= t2 <= t3)%Z ->
  Offer.isOfferActive t1 item = true ->
  Offer.isOfferActive t3 item = true ->
  Offer.isOfferActive t2 item = true.
Proof.
  intros Hbetween H1 H3.
  apply isOfferActive_window in H1. apply isOfferActive_window in H3.
  destruct H1 as (Hflag & Hdv & Hstart & _).
  destruct H3 as (_ & _ & _ & Hend).
  apply isOfferActive_window. split; [ exact Hflag | split; [ exact Hdv | ] ].
  split; intros ms Hms.
  - specialize (Hstart ms Hms). lia.
  - specialize (Hend ms Hms). lia.
Qed.

Lemma offer_window_convex_witness :
  Offer.isOfferActive 150 Fixtures.windowed = true.
Proof.
  apply (offer_window_convex 100 150 200 Fixtures.windowed);
    [ lia | reflexivity | reflexivity ].
Defined.

Example offer_window_edges :
  Offer.isOfferActive 99 Fixtures.windowed = false
  /\ Offer.isOfferActive 100 Fixtures.windowed = true
  /\ Offer.isOfferActive 200 Fixtures.windowed = true
  /\ Offer.isOfferActive 201 Fixtures.windowed = false.
Proof. repeat split. Qed.

Lemma savings_amount_value (now : Z) (item : Offer.FoodItem) :
  Offer.getSavingsAmount now item
  == Offer.price item - Offer.getEffectivePrice now item.
Proof.
  unfold Offer.getSavingsAmount, Offer.getEffectivePrice.
  destruct (Offer.isOfferActive now item); cbn [negb]; ring.
Qed.

Lemma savings_amount_bounds (now : Z) (item : Offer.FoodItem) :
  Offer.price_valid item ->
  0 <= Offer.getSavingsAmount now item <= Offer.price item.
Proof.
  intro Hvalid.
  pose proof (effective_price_bounds now item Hvalid) as [Hlo Hhi].
  rewrite savings_amount_value. lra.
Qed.

(** X3. The savings are the gap between the price and the effective
    price, whether or not an offer is active, and for a price that is
    not negative they lie between 0 and the price. *)
Theorem savings_amount_spec (now : Z) (item : Offer.FoodItem) :
  Offer.getSavingsAmount now item
  == Offer.price item - Offer.getEffectivePrice now item
  /\ (Offer.price_valid item ->
      0 <= Offer.getSavingsAmount now item <= Offer.price item).
Proof.
  split; [ apply savings_amount_value | apply savings_amount_bounds ].
Qed.

Lemma savings_amount_spec_witness :
  0 <= Offer.getSavingsAmount 0 Fixtures.fixedOff <= 10.
Proof.
  apply (proj2 (savings_amount_spec 0 Fixtures.fixedOff)).
  unfold Offer.price_valid. cbn. lra.
Defined.

(** X4. For a product with a positive price the savings percentage is a
    whole number between 0 and 100. *)
Theorem savings_percentage_bounds (now : Z) (item : Offer.FoodItem) :
  0 < Offer.price item ->
  exists n : Z,
    Offer.getSavingsPercentage now item = Js.Fin (inject_Z n)
    /\ (0 <= n <= 100)%Z.
Proof.
  intro Hpos. unfold Offer.getSavingsPercentage.
  destruct (Offer.isOfferActive now item) eqn:Hon; cbn [negb].
  2:{ exists 0%Z. split; [ reflexivity | lia ]. }
  unfold Js.div.
  destruct (Qeq_bool (Offer.price item) 0) eqn:E.
  { apply Qeq_bool_iff in E. rewrite E in Hpos.
    exfalso. exact (Qlt_irrefl 0 Hpos). }
  cbn [Js.mul Js.round]. eexists. split; [ reflexivity | ].
  assert (Hvalid : Offer.price_valid item)
    by (unfold Offer.price_valid; lra).
  pose proof (savings_amount_bounds now item Hvalid) as [Hlo Hhi].
  apply round_half_up_bounds.
  - change (inject_Z 0) with 0.
    apply Qmult_le_0_compat; [ | lra ].
    apply Qle_shift_div_l; [ exact Hpos | lra ].
  - change (inject_Z 100) with 100.
    assert (Offer.getSavingsAmount now item / Offer.price item <= 1).
    { apply Qle_shift_div_r; [ exact Hpos | lra ]. }
    lra.
Qed.

Lemma savings_percentage_bounds_witness :
  exists n : Z,
    Offer.getSavingsPercentage 0 Fixtures.fixedOff = Js.Fin (inject_Z n)
    /\ (0 <= n <= 100)%Z.
Proof.
  apply (savings_percentage_bounds 0 Fixtures.fixedOff).
  cbn. lra.
Defined.

(** X5. A fixed discount that passes the collection's discount check
    never needs the clamp of the evaluator and never makes the product
    free: while the offer is active the effective price is
    [price - discountValue], and it is positive. *)
Theorem validated_fixed_discount (now : Z) (item : Offer.FoodItem)
    (dv : Q) :
  Catalog.validateDiscountValue item = true ->
  Offer.isOfferActive now item = true ->
  Offer.discountType item = Some Offer.Fixed ->
  Offer.discountValue item = Some dv ->
  dv < Offer.price item
  /\ Offer.getEffectivePrice now item == Offer.price item - dv
  /\ 0 < Offer.getEffectivePrice now item.
Proof.
  intros Hcheck Hon Hty Hdv.
  rewrite (effective_price_active now item dv Hon Hdv).
  destruct (active_discount now item Hon) as (dv' & Hdv' & Hpos & Htr).
  assert (dv' = dv) by congruence. subst dv'.
  unfold Catalog.validateDiscountValue in Hcheck.
  rewrite Hdv in Hcheck. cbn [Js.num_value] in Hcheck.
  rewrite Hdv in Htr. rewrite Htr in Hcheck.
  destruct (negb (Js.truthy_bool (Offer.isOnOffer item))) eqn:Hflag.
  { apply isOfferActive_window in Hon. destruct Hon as (Hf & _).
    rewrite Hf in Hflag. discriminate. }
  cbn [negb orb] in Hcheck.
  destruct (Js.num_le (Some dv) 0); [ discriminate | ].
  rewrite Hty in *. cbn in Hcheck.
  destruct (Qle_bool (Offer.price item) dv) eqn:E; [ discriminate | ].
  assert (Hlt : dv < Offer.price item).
  { apply Qnot_le_lt. intro Hle. apply Qle_bool_iff in Hle. congruence. }
  assert (Heq : Qmax 0 (Offer.price item - dv) == Offer.price item - dv)
    by (apply Q.max_r; lra).
  split; [ exact Hlt | split; [ exact Heq | rewrite Heq; lra ] ].
Qed.

Lemma validated_fixed_discount_witness :
  3 < Offer.price Fixtures.fixedOff
  /\ Offer.getEffectivePrice 0 Fixtures.fixedOff == 10 - 3
  /\ 0 < Offer.getEffectivePrice 0 Fixtures.fixedOff.
Proof.
  exact (validated_fixed_discount 0 Fixtures.fixedOff 3
           eq_refl eq_refl eq_refl eq_refl).
Defined.

(** X6. The figures [getPriceInfo] reports fit together: the original
    price is the effective price plus the savings, the display price is
    the effective price, and [hasDiscount] is set exactly when an offer
    is active and the effective price is below the original one. *)
Theorem price_info_coherent (now : Z) (item : Offer.FoodItem) :
  let info := Catalog.getPriceInfo now item in
  Catalog.originalPrice info
  == Catalog.effectivePrice info + Catalog.savings info
  /\ Catalog.displayPrice info = Catalog.effectivePrice info
  /\ (Catalog.hasDiscount info = true
      <-> Catalog.isOnSale info = true
          /\ Catalog.effectivePrice info < Catalog.originalPrice info).
Proof.
  cbn. pose proof (savings_amount_value now item) as Hs.
  split; [ rewrite Hs; ring | split; [ reflexivity | ] ].
  rewrite andb_true_iff, Qlt_bool_iff. rewrite Hs.
  split; intros [Hon Hlt]; (split; [ exact Hon | lra ]).
Qed.

Lemma str_or_nonempty (s : option string) (d : string) :
  d <> EmptyString -> Js.str_or s d <> EmptyString.
Proof.
  intro Hd. unfold Js.str_or.
  destruct s as [v | ]; [ | exact Hd ].
  destruct (String.eqb v "") eqn:E; [ exact Hd | ].
  now apply String.eqb_neq.
Qed.

Lemma image_url_nonempty (item : Catalog.Pictured) :
  Catalog.getFoodItemImageUrl item <> EmptyString.
Proof.
  assert (H : forall s, Js.truthy_str s = true ->
                        Js.str_or s "" <> EmptyString).
  { intros [v | ]; cbn; [ | discriminate ].
    destruct (String.eqb v "") eqn:E; [ discriminate | ].
    intros _. now apply String.eqb_neq. }
  unfold Catalog.getFoodItemImageUrl.
  destruct (Catalog.image item) as [[i | file] | ].
  - destruct (Js.truthy_str (Catalog.imageUrl item)) eqn:E;
      [ now apply H | discriminate ].
  - destruct (Js.truthy_str (Catalog.url file)) eqn:Eu; [ now apply H | ].
    destruct (Js.truthy_str (Catalog.imageUrl item)) eqn:E;
      [ now apply H | discriminate ].
  - destruct (Js.truthy_str (Catalog.imageUrl item)) eqn:E;
      [ now apply H | discriminate ].
Qed.

(** X7. A product always has a picture to show: the image URL is never
    empty (the uploaded file's URL, else the fallback URL, else the
    placeholder), none of the four sizes is empty, the full size is the
    image URL, and without an uploaded file that carries sizes all four
    are the image URL. *)
Theorem image_sizes_spec (item : Catalog.Pictured) :
  let sizes := Catalog.getFoodItemImageSizes item in
  Catalog.getFoodItemImageUrl item <> EmptyString
  /\ Catalog.size_thumbnail sizes <> EmptyString
  /\ Catalog.size_card sizes <> EmptyString
  /\ Catalog.size_tablet sizes <> EmptyString
  /\ Catalog.size_full sizes = Catalog.getFoodItemImageUrl item
  /\ ((forall file s, Catalog.image item = Some (Catalog.ImageDoc file) ->
                      Catalog.sizes file <> Some s) ->
      Catalog.size_thumbnail sizes = Catalog.getFoodItemImageUrl item
      /\ Catalog.size_card sizes = Catalog.getFoodItemImageUrl item
      /\ Catalog.size_tablet sizes = Catalog.getFoodItemImageUrl item).
Proof.
  cbv zeta. pose proof (image_url_nonempty item) as Hbase.
  unfold Catalog.getFoodItemImageSizes.
  destruct (Catalog.image item) as [[i | [u [s | ]]] | ] eqn:Himg; cbn.
  2:{ split; [ exact Hbase | ].
      split; [ now apply str_or_nonempty | ].
      split; [ now apply str_or_nonempty | ].
      split; [ now apply str_or_nonempty | ].
      split; [ reflexivity | ].
      intro Hnone. exfalso. now apply (Hnone _ s eq_refl). }
  all: repeat split; auto.
Qed.

Lemma image_sizes_spec_witness :
  Catalog.size_card
    (Catalog.getFoodItemImageSizes
       {| Catalog.image := Some (Catalog.ImageId "64f0");
          Catalog.imageUrl := None |})
  = "/placeholder-food.svg"%string.
Proof.
  destruct (image_sizes_spec
              {| Catalog.image := Some (Catalog.ImageId "64f0");
                 Catalog.imageUrl := None |})
    as (_ & _ & _ & _ & _ & H).
  apply H. intros file s Himg. discriminate Himg.
Defined.

Example image_sizes_uploaded :
  Catalog.getFoodItemImageSizes Fixtures.pictured
  = {| Catalog.size_thumbnail := "/media/shuwa-400.jpg";
       Catalog.size_card := "/media/shuwa.jpg";
       Catalog.size_tablet := "/media/shuwa.jpg";
       Catalog.size_full := "/media/shuwa.jpg" |}.
Proof. reflexivity. Qed.

(** ** Store policy: fee, tax, services, opening hours *)

Lemma delivery_fee_cases (orderAmount : Q)
    (serviceType : StoreConfig.ServiceType)
    (config : option StoreConfig.Config) :
  StoreConfig.calculateDeliveryFee orderAmount serviceType config = 0
  \/ StoreConfig.calculateDeliveryFee orderAmount serviceType config
     = StoreConfig.configuredDeliveryFee (StoreConfig.orDefault config).
Proof.
  unfold StoreConfig.calculateDeliveryFee.
  destruct (StoreConfig.is_pickup serviceType || _); [ now left | ].
  destruct (Js.Qlt_bool 0 _ && _); [ now left | now right ].
Qed.

(** X8. With a configured fee that is not negative, the delivery fee is
    either 0 or the configured fee, never more, and spending more never
    raises it. *)
Theorem delivery_fee_antitone (a b : Q)
    (serviceType : StoreConfig.ServiceType)
    (config : option StoreConfig.Config) :
  0 <= StoreConfig.configuredDeliveryFee (StoreConfig.orDefault config) ->
  a <= b ->
  0 <= StoreConfig.calculateDeliveryFee a serviceType config
  /\ StoreConfig.calculateDeliveryFee a serviceType config
     <= StoreConfig.configuredDeliveryFee (StoreConfig.orDefault config)
  /\ StoreConfig.calculateDeliveryFee b serviceType config
     <= StoreConfig.calculateDeliveryFee a serviceType config.
Proof.
  intros Hfee Hab.
  destruct (delivery_fee_cases a serviceType config) as [Ha | Ha];
    rewrite Ha.
  2:{ destruct (delivery_fee_cases b serviceType config) as [Hb | Hb];
        rewrite Hb; repeat split; lra. }
  repeat split; try lra.
  revert Ha. unfold StoreConfig.calculateDeliveryFee.
  destruct (StoreConfig.is_pickup serviceType || _); [ lra | ].
  destruct (Js.Qlt_bool 0 _) eqn:Hpos; cbn [andb].
  - destruct (Qle_bool _ a) eqn:Hreach.
    + apply Qle_bool_iff in Hreach.
      assert (Hb : Qle_bool
                     (StoreConfig.configuredThreshold
                        (StoreConfig.orDefault config)) b = true)
        by (apply Qle_bool_iff; lra).
      rewrite Hb. lra.
    + intros ->. destruct (Qle_bool _ b); lra.
  - intros ->. lra.
Qed.

Lemma delivery_fee_antitone_witness :
  StoreConfig.calculateDeliveryFee 60 StoreConfig.Delivery
    (Some (Samples.feeConfig 1 50))
  <= StoreConfig.calculateDeliveryFee 40 StoreConfig.Delivery
       (Some (Samples.feeConfig 1 50)).
Proof.
  apply (delivery_fee_antitone 40 60 StoreConfig.Delivery
           (Some (Samples.feeConfig 1 50))).
  - cbn. lra.
  - lra.
Defined.

(** X9. The tax never runs against the amount: with a rate that is not
    negative a larger amount is never taxed less and an amount that is
    not negative is never taxed below 0.  Without a rate, with a rate
    of 0, and without a configuration (the default rate is 0) the tax
    is 0. *)
Theorem tax_monotone (a b : Q) (config : option StoreSettings.Settings) :
  (forall r, StoreSettings.taxRate (StoreSettings.orDefault config)
             = Some r ->
             0 <= r -> a <= b ->
             StoreSettings.calculateTax a config
             <= StoreSettings.calculateTax b config)
  /\ (forall r, StoreSettings.taxRate (StoreSettings.orDefault config)
                = Some r ->
                0 <= r -> 0 <= a ->
                0 <= StoreSettings.calculateTax a config)
  /\ (StoreSettings.taxRate (StoreSettings.orDefault config) = None ->
      StoreSettings.calculateTax a config == 0)
  /\ (forall r, StoreSettings.taxRate (StoreSettings.orDefault config)
                = Some r ->
                r == 0 -> StoreSettings.calculateTax a config == 0)
  /\ StoreSettings.calculateTax a None == 0.
Proof.
  unfold StoreSettings.calculateTax.
  split; [ | split; [ | split; [ | split ] ] ].
  - intros r E Hr Hab. rewrite E.
    apply Qle_shift_div_l; [ reflexivity | ].
    assert (0 <= (b - a) * r) by (apply Qmult_le_0_compat; lra).
    assert (Eq : a * r / 100 * 100 == a * r) by field.
    rewrite Eq. lra.
  - intros r E Hr Ha. rewrite E.
    apply Qle_shift_div_l; [ reflexivity | ].
    assert (0 <= a * r) by (apply Qmult_le_0_compat; lra).
    lra.
  - intros E. rewrite E. field.
  - intros r E Hr. rewrite E, Hr. field.
  - cbn. field.
Qed.

Lemma tax_monotone_witness :
  StoreSettings.calculateTax 40 (Some Fixtures.pickupOnly)
  <= StoreSettings.calculateTax 60 (Some Fixtures.pickupOnly).
Proof.
  apply (proj1 (tax_monotone 40 60 (Some Fixtures.pickupOnly)) 5).
  - reflexivity.
  - lra.
  - lra.
Defined.

(** X10. The list of available services holds delivery exactly when
    delivery is enabled and pickup exactly when pickup is enabled, each
    at most once and delivery first. *)
Theorem available_services_spec (config : option StoreSettings.Settings) :
  (In StoreConfig.Delivery (StoreSettings.getAvailableServices config)
   <-> StoreSettings.isDeliveryEnabled config = true)
  /\ (In StoreConfig.Pickup (StoreSettings.getAvailableServices config)
      <-> StoreSettings.isPickupEnabled config = true)
  /\ NoDup (StoreSettings.getAvailableServices config)
  /\ (StoreSettings.getAvailableServices config = []
      <-> StoreSettings.isDeliveryEnabled config = false
          /\ StoreSettings.isPickupEnabled config = false).
Proof.
  unfold StoreSettings.getAvailableServices.
  assert (Hd : StoreSettings.isDeliveryEnabled
                 (Some (StoreSettings.orDefault config))
               = StoreSettings.isDeliveryEnabled config) by reflexivity.
  assert (Hp : StoreSettings.isPickupEnabled
                 (Some (StoreSettings.orDefault config))
               = StoreSettings.isPickupEnabled config) by reflexivity.
  rewrite Hd, Hp.
  destruct (StoreSettings.isDeliveryEnabled config),
           (StoreSettings.isPickupEnabled config); cbn;
    repeat split; try tauto; try discriminate;
    try (intros [H | H]; try discriminate H; try contradiction);
    try (intros [H1 H2]; discriminate);
    repeat constructor; cbn; try tauto.
  all: intros [H | H]; try discriminate H; contradiction.
Qed.

(** Lexical comparison of strings of equal length goes block by
    block. *)
Lemma compare_app (s1 s2 r1 r2 : string) :
  String.length s1 = String.length s2 ->
  String.compare (s1 ++ r1) (s2 ++ r2)
  = match String.compare s1 s2 with
    | Eq => String.compare r1 r2
    | other => other
    end.
Proof.
  revert s2. induction s1 as [ | c1 s1 IH]; intros [ | c2 s2] Hlen;
    try discriminate Hlen; cbn; [ reflexivity | ].
  destruct (Ascii.compare c1 c2); try reflexivity.
  apply IH. now injection Hlen.
Qed.

Lemma twoDigits_compare (a b : nat) :
  (a < 100)%nat -> (b < 100)%nat ->
  String.compare (StoreSettings.twoDigits a) (StoreSettings.twoDigits b)
  = Nat.compare a b.
Proof.
  intros Ha Hb.
  assert (Hall : forallb
            (fun x => forallb
               (fun y => match String.compare (StoreSettings.twoDigits x)
                                 (StoreSettings.twoDigits y),
                               Nat.compare x y with
                         | Eq, Eq | Lt, Lt | Gt, Gt => true
                         | _, _ => false
                         end)
               (seq 0 100))
            (seq 0 100) = true) by (vm_compute; reflexivity).
  rewrite forallb_forall in Hall.
  specialize (Hall a). rewrite forallb_forall in Hall.
  assert (Hina : In a (seq 0 100)) by (apply in_seq; lia).
  assert (Hinb : In b (seq 0 100)) by (apply in_seq; lia).
  specialize (Hall Hina b Hinb).
  destruct (String.compare _ _), (Nat.compare a b);
    try reflexivity; discriminate Hall.
Qed.

(** On zero-padded [HH:MM] strings the lexical order is the order of
    the minutes of the day. *)
Lemma timeString_leb (h1 m1 h2 m2 : nat) :
  (h1 < 24)%nat -> (m1 < 60)%nat -> (h2 < 24)%nat -> (m2 < 60)%nat ->
  String.leb (StoreSettings.timeString h1 m1)
    (StoreSettings.timeString h2 m2)
  = (h1 * 60 + m1 <=? h2 * 60 + m2)%nat.
Proof.
  intros Hh1 Hm1 Hh2 Hm2.
  unfold String.leb, StoreSettings.timeString.
  rewrite compare_app by reflexivity.
  rewrite twoDigits_compare by lia.
  change (String.compare (":" ++ StoreSettings.twoDigits m1)
            (":" ++ StoreSettings.twoDigits m2))
    with (String.compare (StoreSettings.twoDigits m1)
            (StoreSettings.twoDigits m2)).
  rewrite twoDigits_compare by lia.
  destruct (Nat.compare_spec h1 h2) as [-> | Hlt | Hgt].
  - destruct (Nat.compare_spec m1 m2) as [-> | Hlt | Hgt]; symmetry.
    + apply Nat.leb_le. lia.
    + apply Nat.leb_le. lia.
    + apply Nat.leb_gt. lia.
  - symmetry. apply Nat.leb_le. lia.
  - symmetry. apply Nat.leb_gt. lia.
Qed.

(** X11. On a day listed as closed the store is closed whatever the
    time; on any other day, with opening and closing times written as
    zero-padded [HH:MM], the store is open exactly from the opening
    minute to the closing minute, both included. *)
Theorem store_open_spec (day : string) (h m ho mo hc mc : nat)
    (config : StoreSettings.Settings)
    (hours : StoreSettings.OperatingHours) (days : list string) :
  StoreSettings.operatingHours config = Some hours ->
  StoreSettings.closedDays hours = Some days ->
  StoreSettings.openTime hours = Some (StoreSettings.timeString ho mo) ->
  StoreSettings.closeTime hours = Some (StoreSettings.timeString hc mc) ->
  (h < 24 /\ ho < 24 /\ hc < 24)%nat ->
  (m < 60 /\ mo < 60 /\ mc < 60)%nat ->
  (In day days ->
   StoreSettings.isStoreOpen day (StoreSettings.timeString h m)
     (Some config) = false)
  /\ (~ In day days ->
      StoreSettings.isStoreOpen day (StoreSettings.timeString h m)
        (Some config)
      = ((ho * 60 + mo <=? h * 60 + m)%nat
         && (h * 60 + m <=? hc * 60 + mc)%nat)).
Proof.
  intros Hhours Hdays Hopen Hclose (Hh & Hho & Hhc) (Hm & Hmo & Hmc).
  unfold StoreSettings.isStoreOpen. cbn [StoreSettings.orDefault].
  rewrite Hhours, Hdays, Hopen, Hclose.
  split; intro Hday.
  - assert (E : existsb (String.eqb day) days = true).
    { apply existsb_exists. exists day. split; [ exact Hday | ].
      apply String.eqb_refl. }
    now rewrite E.
  - assert (E : existsb (String.eqb day) days = false).
    { destruct (existsb (String.eqb day) days) eqn:E; [ | reflexivity ].
      apply existsb_exists in E. destruct E as (d & Hin & Heq).
      apply String.eqb_eq in Heq. subst d. contradiction. }
    rewrite E. now rewrite !timeString_leb by assumption.
Qed.

Lemma store_open_spec_witness :
  StoreSettings.isStoreOpen "monday" (StoreSettings.timeString 22 0)
    (Some Fixtures.pickupOnly) = true
  /\ StoreSettings.isStoreOpen "friday" (StoreSettings.timeString 12 0)
       (Some Fixtures.pickupOnly) = false.
Proof.
  split.
  - refine (eq_trans
              (proj2 (store_open_spec "monday" 22 0 9 0 22 0
                        Fixtures.pickupOnly _ _
                        eq_refl eq_refl eq_refl eq_refl _ _) _)
              eq_refl).
    + repeat split; lia.
    + repeat split; lia.
    + cbn. intros [H | H]; [ discriminate H | exact H ].
  - refine (proj1 (store_open_spec "friday" 12 0 9 0 22 0
                     Fixtures.pickupOnly _ _
                     eq_refl eq_refl eq_refl eq_refl _ _) _).
    + repeat split; lia.
    + repeat split; lia.
    + cbn. now left.
Defined.

(** An opening time that is not zero-padded is compared as text: with
    ["9:00"] the store counts as closed at half past ten. *)
Example store_open_unpadded :
  StoreSettings.isStoreOpen "monday" "10:30"
    (Some {| StoreSettings.taxRate := None;
             StoreSettings.minOrderAmount := None;
             StoreSettings.serviceOptions := None;
             StoreSettings.contactInfo := None;
             StoreSettings.operatingHours :=
               Some {| StoreSettings.openTime := Some "9:00"%string;
                       StoreSettings.closeTime := Some "22:00"%string;
                       StoreSettings.closedDays := None |} |})
  = false.
Proof. reflexivity. Qed.

(** X12. The hook's delivery fee and the library's agree: whenever the
    hook's [calculateDeliveryFee] returns a number it is the fee the
    library computes from the same settings, and it does return a number
    whenever the settings carry a delivery fee. *)
Theorem hook_fee_agrees (config : StoreSettings.Settings)
    (orderAmount : Q) (serviceType : StoreConfig.ServiceType) :
  (forall q,
     Hook.calculateDeliveryFee config orderAmount serviceType
     = Hook.Returns q ->
     q = StoreConfig.calculateDeliveryFee orderAmount serviceType
           (Some (StoreSettings.feeView config)))
  /\ (forall so fee,
        StoreSettings.serviceOptions config = Some so ->
        StoreSettings.deliveryFee so = Some fee ->
        Hook.calculateDeliveryFee config orderAmount serviceType
        = Hook.Returns
            (StoreConfig.calculateDeliveryFee orderAmount serviceType
               (Some (StoreSettings.feeView config)))).
Proof.
  assert (Hen : StoreConfig.isDeliveryEnabled
                  (Some (StoreConfig.orDefault
                           (Some (StoreSettings.feeView config))))
                = Hook.isDeliveryEnabled config).
  { unfold StoreConfig.isDeliveryEnabled, Hook.isDeliveryEnabled. cbn.
    destruct (StoreSettings.serviceOptions config); reflexivity. }
  unfold Hook.calculateDeliveryFee, StoreConfig.calculateDeliveryFee.
  rewrite Hen.
  destruct (StoreConfig.is_pickup serviceType
            || negb (Hook.isDeliveryEnabled config)).
  { split; [ intros q H; now injection H | reflexivity ]. }
  unfold StoreConfig.configuredThreshold, StoreConfig.configuredDeliveryFee.
  cbn [StoreConfig.orDefault StoreSettings.feeView
       StoreConfig.serviceOptions].
  destruct (StoreSettings.serviceOptions config) as [so | ];
    [ | split; [ intros q H; discriminate H
               | intros so fee H; discriminate H ] ].
  cbn [StoreConfig.freeDeliveryThreshold StoreConfig.deliveryFee].
  assert (Hthr : match StoreSettings.freeDeliveryThreshold so with
                 | Some t => Js.Qlt_bool 0 t && Qle_bool t orderAmount
                 | None => false
                 end
                 = Js.Qlt_bool 0
                     match StoreSettings.freeDeliveryThreshold so with
                     | Some t => t | None => 0 end
                   && Qle_bool
                        match StoreSettings.freeDeliveryThreshold so with
                        | Some t => t | None => 0 end orderAmount).
  { destruct (StoreSettings.freeDeliveryThreshold so); reflexivity. }
  rewrite Hthr.
  destruct (Js.Qlt_bool 0 _ && _).
  { split; [ intros q H; now injection H | reflexivity ]. }
  destruct (StoreSettings.deliveryFee so) as [fee | ] eqn:Hfee.
  - split; [ intros q H; now injection H | reflexivity ].
  - split; [ intros q H; discriminate H | ].
    intros so' fee' E Hfee'. congruence.
Qed.

Lemma hook_fee_agrees_witness :
  Hook.calculateDeliveryFee Fixtures.pickupOnly 40 StoreConfig.Delivery
  = Hook.Returns
      (StoreConfig.calculateDeliveryFee 40 StoreConfig.Delivery
         (Some (StoreSettings.feeView Fixtures.pickupOnly))).
Proof.
  eapply (proj2 (hook_fee_agrees Fixtures.pickupOnly 40
                   StoreConfig.Delivery));
    reflexivity.
Defined.

(** X13. The service the cart page starts with is one of the available
    services whenever there is one; with none it is delivery. *)
Theorem initial_service_available (config : StoreSettings.Settings) :
  (Hook.getAvailableServices config <> [] ->
   In (Hook.initialService config) (Hook.getAvailableServices config))
  /\ (Hook.getAvailableServices config = [] ->
      Hook.initialService config = StoreConfig.Delivery)
  /\ (Hook.isPickupEnabled config = true ->
      Hook.isDeliveryEnabled config = false ->
      Hook.initialService config = StoreConfig.Pickup).
Proof.
  unfold Hook.initialService, Hook.getAvailableServices.
  destruct (Hook.isDeliveryEnabled config),
           (Hook.isPickupEnabled config); cbn;
    repeat split; try tauto; try discriminate.
Qed.

Lemma initial_service_available_witness :
  Hook.initialService Fixtures.pickupOnly = StoreConfig.Pickup.
Proof.
  apply (proj2 (proj2 (initial_service_available Fixtures.pickupOnly)));
    reflexivity.
Defined.

(** ** The configuration cache *)

Section CacheFacts.

Variable Cfg Stored : Type.
Variable defaultConfig : Cfg.
Variable merge : Stored -> Cfg.

Lemma cache_hit (now : Z) (db : ConfigCache.FindGlobal Stored)
    (st : ConfigCache.State Cfg) (cached : Cfg) :
  ConfigCache.configCache st = Some cached ->
  (now - ConfigCache.cacheTimestamp st < ConfigCache.CACHE_DURATION)%Z ->
  ConfigCache.getStoreConfig Cfg Stored defaultConfig merge now db st = (cached, st).
Proof.
  intros Hc Hfresh. unfold ConfigCache.getStoreConfig. rewrite Hc.
  apply Z.ltb_lt in Hfresh. now rewrite Hfresh.
Qed.

Lemma cache_miss (now : Z) (db : ConfigCache.FindGlobal Stored)
    (st : ConfigCache.State Cfg) :
  ConfigCache.configCache st = None
  \/ (ConfigCache.CACHE_DURATION <= now - ConfigCache.cacheTimestamp st)%Z ->
  ConfigCache.getStoreConfig Cfg Stored defaultConfig merge now db st
  = ConfigCache.fetch Cfg Stored defaultConfig merge now db st.
Proof.
  intros Hmiss. unfold ConfigCache.getStoreConfig.
  destruct (ConfigCache.configCache st) as [cached | ]; [ | reflexivity ].
  destruct Hmiss as [Hnone | Hold]; [ discriminate Hnone | ].
  apply Z.ltb_ge in Hold. now rewrite Hold.
Qed.

(** X14. Once a call has fetched the configuration at clock reading
    [t0], every call less than five minutes after [t0] answers the same
    configuration and leaves the cache alone, whatever the database
    holds by then and even if it fails. *)
Theorem cache_serves_fetched (t0 t : Z)
    (db0 db : ConfigCache.FindGlobal Stored)
    (st : ConfigCache.State Cfg) :
  ConfigCache.configCache st = None
  \/ (ConfigCache.CACHE_DURATION <= t0 - ConfigCache.cacheTimestamp st)%Z ->
  db0 <> ConfigCache.GlobalThrows ->
  (t - t0 < ConfigCache.CACHE_DURATION)%Z ->
  ConfigCache.getStoreConfig Cfg Stored defaultConfig merge t db (snd (ConfigCache.getStoreConfig Cfg Stored defaultConfig merge t0 db0 st)) = ConfigCache.getStoreConfig Cfg Stored defaultConfig merge t0 db0 st.
Proof.
  intros Hmiss Hdb Hfresh. rewrite (cache_miss t0 db0 st Hmiss).
  destruct db0 as [config | | ]; [ | | contradiction ]; cbn [snd];
    now apply cache_hit.
Qed.

(** X15. When the database fails, a call that has to fetch answers the
    defaults and leaves the cache as it was, an expired entry included;
    so the next call fetches again. *)
Theorem cache_failure_defaults (t0 t : Z)
    (db : ConfigCache.FindGlobal Stored) (st : ConfigCache.State Cfg) :
  ConfigCache.configCache st = None
  \/ (ConfigCache.CACHE_DURATION <= t0 - ConfigCache.cacheTimestamp st)%Z ->
  (t0 <= t)%Z ->
  ConfigCache.getStoreConfig Cfg Stored defaultConfig merge t0 ConfigCache.GlobalThrows st = (defaultConfig, st)
  /\ ConfigCache.getStoreConfig Cfg Stored defaultConfig merge t db (snd (ConfigCache.getStoreConfig Cfg Stored defaultConfig merge t0 ConfigCache.GlobalThrows st))
     = ConfigCache.fetch Cfg Stored defaultConfig merge t db st.
Proof.
  intros Hmiss Hlater.
  rewrite (cache_miss t0 _ st Hmiss). cbn.
  split; [ reflexivity | ].
  apply cache_miss. destruct Hmiss as [Hnone | Hold]; [ now left | right ].
  lia.
Qed.

(** X16. A successful refresh request empties the cache, so the next
    call answers what the database holds then; a refresh request that
    fails leaves the cache as it was. *)
Theorem refresh_invalidates (t : Z)
    (db0 : ConfigCache.FindGlobal Stored) (stored : Stored)
    (st : ConfigCache.State Cfg) :
  (db0 <> ConfigCache.GlobalThrows ->
   fst (ConfigCache.getStoreConfig Cfg Stored defaultConfig merge t (ConfigCache.GlobalFound stored) (snd (ConfigCache.refresh Cfg Stored db0 st)))
   = merge stored
   /\ fst (ConfigCache.getStoreConfig Cfg Stored defaultConfig merge t ConfigCache.GlobalNull (snd (ConfigCache.refresh Cfg Stored db0 st)))
      = defaultConfig)
  /\ (db0 = ConfigCache.GlobalThrows ->
      ConfigCache.refresh Cfg Stored db0 st = (None, st)).
Proof.
  split.
  - intro Hdb. destruct db0 as [config | | ]; [ | | contradiction ];
      split; reflexivity.
  - intros ->. reflexivity.
Qed.

End CacheFacts.

Lemma cache_serves_fetched_witness :
  ConfigCache.getStoreConfig StoreSettings.Settings StoreSettings.Settings StoreSettings.defaultConfig
    (fun stored : StoreSettings.Settings => stored)
    299999 ConfigCache.GlobalThrows
    (snd (ConfigCache.getStoreConfig StoreSettings.Settings StoreSettings.Settings StoreSettings.defaultConfig
            (fun stored : StoreSettings.Settings => stored)
            0 (ConfigCache.GlobalFound Fixtures.pickupOnly)
            (ConfigCache.initial StoreSettings.Settings)))
  = ConfigCache.getStoreConfig StoreSettings.Settings StoreSettings.Settings StoreSettings.defaultConfig
      (fun stored : StoreSettings.Settings => stored)
      0 (ConfigCache.GlobalFound Fixtures.pickupOnly)
      (ConfigCache.initial StoreSettings.Settings).
Proof.
  apply cache_serves_fetched.
  - now left.
  - discriminate.
  - reflexivity.
Defined.

Lemma cache_failure_defaults_witness :
  ConfigCache.getStoreConfig StoreSettings.Settings StoreSettings.Settings
    StoreSettings.defaultConfig (fun stored => stored)
    0 ConfigCache.GlobalThrows (ConfigCache.initial StoreSettings.Settings)
  = (StoreSettings.defaultConfig, ConfigCache.initial _).
Proof.
  apply (proj1 (cache_failure_defaults StoreSettings.Settings StoreSettings.Settings StoreSettings.defaultConfig
                  (fun stored => stored) 0 0 ConfigCache.GlobalThrows
                  (ConfigCache.initial StoreSettings.Settings) (or_introl eq_refl)
                  (Z.le_refl 0))).
Defined.

Lemma refresh_invalidates_witness :
  fst (ConfigCache.getStoreConfig StoreSettings.Settings StoreSettings.Settings StoreSettings.defaultConfig
         (fun stored : StoreSettings.Settings => stored)
         10 (ConfigCache.GlobalFound Fixtures.pickupOnly)
         (snd (ConfigCache.refresh StoreSettings.Settings StoreSettings.Settings ConfigCache.GlobalNull
                 {| ConfigCache.configCache :=
                      Some StoreSettings.defaultConfig;
                    ConfigCache.cacheTimestamp := 5 |})))
  = Fixtures.pickupOnly.
Proof.
  refine (proj1 (proj1 (refresh_invalidates StoreSettings.Settings StoreSettings.Settings StoreSettings.defaultConfig
                          (fun stored => stored) 10 ConfigCache.GlobalNull
                          Fixtures.pickupOnly _) _)).
  discriminate.
Defined.

(** ** The cart *)

Section CartFacts.

Import Cart.

Lemma total_items_acc (l : list Item) :
  forall a, fold_left (fun total item => total + quantity item) l a
            == a + getTotalItems l.
Proof.
  unfold getTotalItems.
  induction l as [ | x l IH]; intro a; cbn [fold_left]; [ ring | ].
  rewrite (IH (a + quantity x)), (IH (0 + quantity x)). ring.
Qed.

Lemma total_items_cons (x : Item) (l : list Item) :
  getTotalItems (x :: l) == quantity x + getTotalItems l.
Proof.
  unfold getTotalItems at 1. cbn [fold_left].
  rewrite total_items_acc. ring.
Qed.

Lemma total_items_app (l1 l2 : list Item) :
  getTotalItems (l1 ++ l2) == getTotalItems l1 + getTotalItems l2.
Proof.
  induction l1 as [ | x l1 IH]; cbn [app].
  - unfold getTotalItems at 2. cbn. ring.
  - rewrite !total_items_cons, IH. ring.
Qed.

Lemma total_price_acc (l : list Item) :
  forall a,
    fold_left (fun total item =>
                 total + price (details item) * quantity item) l a
    == a + getTotalPrice l.
Proof.
  unfold getTotalPrice.
  induction l as [ | x l IH]; intro a; cbn [fold_left]; [ ring | ].
  rewrite (IH (a + _)), (IH (0 + _)). ring.
Qed.

Lemma total_price_cons (x : Item) (l : list Item) :
  getTotalPrice (x :: l)
  == price (details x) * quantity x + getTotalPrice l.
Proof.
  unfold getTotalPrice at 1. cbn [fold_left].
  rewrite total_price_acc. ring.
Qed.

Lemma hasId_in (i : string) (x : Item) (l : list Item) :
  In x l -> hasId i x = true -> In i (ids l).
Proof.
  intros Hin Hid. apply String.eqb_eq in Hid. subst i.
  unfold ids. now apply (in_map (fun item => id (details item))).
Qed.

Lemma find_none_ids (i : string) (l : list Item) :
  List.find (hasId i) l = None <-> ~ In i (ids l).
Proof.
  induction l as [ | x l IH]; cbn; [ tauto | ].
  unfold hasId at 1. destruct (String.eqb (id (details x)) i) eqn:E.
  - apply String.eqb_eq in E. split; [ discriminate | ]. tauto.
  - apply String.eqb_neq in E. rewrite IH. tauto.
Qed.

Section Rewrite.

Variable i : string.
Variable q : Q.

Lemma set_ids (l : list Item) : ids (map (setQuantity i q) l) = ids l.
Proof.
  unfold ids. rewrite map_map. apply map_ext. intro x. unfold setQuantity.
  now destruct (hasId i x).
Qed.

Lemma set_absent (l : list Item) : ~ In i (ids l) -> map (setQuantity i q) l = l.
Proof.
  induction l as [ | x l IH]; cbn; [ reflexivity | ].
  intro Hnot. rewrite IH by tauto. unfold setQuantity, hasId.
  destruct (String.eqb (id (details x)) i) eqn:E; [ | reflexivity ].
  apply String.eqb_eq in E. tauto.
Qed.

Lemma set_total (l : list Item) (existing : Item) :
  NoDup (ids l) ->
  List.find (hasId i) l = Some existing ->
  getTotalItems (map (setQuantity i q) l)
  == getTotalItems l - quantity existing + q.
Proof.
  induction l as [ | x l IH]; cbn [List.find map ids]; [ discriminate | ].
  intros Hnodup Hfind. inversion Hnodup as [ | ? ? Hnot Hrest]; subst.
  fold (ids l) in Hnot, Hrest.
  rewrite !total_items_cons. unfold setQuantity at 1.
  destruct (hasId i x) eqn:E.
  - injection Hfind as <-. cbn [withQuantity quantity].
    apply String.eqb_eq in E. rewrite E in Hnot.
    rewrite (set_absent l Hnot). ring.
  - rewrite (IH Hrest Hfind). ring.
Qed.

Lemma set_quantityOf (l : list Item) (j : string) :
  quantityOf j (map (setQuantity i q) l)
  = match List.find (hasId j) l with
    | Some x => if String.eqb j i then q else quantity x
    | None => 0
    end.
Proof.
  unfold quantityOf.
  induction l as [ | x l IH]; cbn [List.find map]; [ reflexivity | ].
  assert (Hsame : hasId j (setQuantity i q x) = hasId j x).
  { unfold setQuantity. now destruct (hasId i x). }
  rewrite Hsame. destruct (hasId j x) eqn:Ej; [ | exact IH ].
  unfold setQuantity, hasId in *. apply String.eqb_eq in Ej. rewrite Ej.
  now destruct (String.eqb j i).
Qed.

End Rewrite.

End CartFacts.

Lemma quantityOf_app_absent (j : string) (l : list Cart.Item)
    (x : Cart.Item) :
  Cart.hasId j x = false ->
  Cart.quantityOf j (l ++ [x]) = Cart.quantityOf j l.
Proof.
  intro Hx. unfold Cart.quantityOf.
  induction l as [ | y l IH]; cbn [app List.find].
  - now rewrite Hx.
  - destruct (Cart.hasId j y); [ reflexivity | exact IH ].
Qed.

Lemma find_app_absent (i : string) (l : list Cart.Item) (x : Cart.Item) :
  List.find (Cart.hasId i) l = None ->
  List.find (Cart.hasId i) (l ++ [x])
  = if Cart.hasId i x then Some x else None.
Proof.
  induction l as [ | y l IH]; cbn [app List.find]; [ reflexivity | ].
  destruct (Cart.hasId i y); [ discriminate | exact IH ].
Qed.

(** X17. Adding to a cart whose lines have distinct ids leaves them
    distinct and raises the number of items by exactly the quantity
    added, whether the product was in the cart or not. *)
Theorem add_item_total (newItem : Cart.Details) (quantityToAdd : Q)
    (prev : list Cart.Item) :
  NoDup (Cart.ids prev) ->
  NoDup (Cart.ids (Cart.addItem newItem quantityToAdd prev))
  /\ Cart.getTotalItems (Cart.addItem newItem quantityToAdd prev)
     == Cart.getTotalItems prev + quantityToAdd.
Proof.
  intro Hnodup. unfold Cart.addItem.
  destruct (List.find (Cart.hasId (Cart.id newItem)) prev)
    as [existing | ] eqn:Hfind.
  - split.
    + now rewrite set_ids.
    + rewrite (set_total _ _ prev existing Hnodup Hfind). ring.
  - split.
    + unfold Cart.ids. rewrite map_app. cbn [map].
      apply find_none_ids in Hfind.
      apply NoDup_app; [ exact Hnodup | repeat constructor; auto | ].
      intros a Ha [<- | []]. contradiction.
    + rewrite total_items_app, total_items_cons.
      cbn [Cart.quantity].
      change (Cart.getTotalItems []) with 0. ring.
Qed.

Lemma add_item_total_witness :
  Cart.getTotalItems (Cart.addItem (Fixtures.dish "p2" 3 None) 4
                        Fixtures.cart)
  == Cart.getTotalItems Fixtures.cart + 4.
Proof.
  apply (add_item_total (Fixtures.dish "p2" 3 None) 4 Fixtures.cart).
  repeat constructor; cbn; intuition discriminate.
Defined.

(** X18. After [addItem] the line of the added product holds the old
    quantity plus the quantity added (the quantity added for a new
    line), every other line is as before, and a product that was already
    in the cart keeps the price and details it was first added with. *)
Theorem add_item_line (newItem : Cart.Details) (quantityToAdd : Q)
    (prev : list Cart.Item) :
  Cart.quantityOf (Cart.id newItem)
    (Cart.addItem newItem quantityToAdd prev)
  == Cart.quantityOf (Cart.id newItem) prev + quantityToAdd
  /\ (forall j, j <> Cart.id newItem ->
        Cart.quantityOf j (Cart.addItem newItem quantityToAdd prev)
        = Cart.quantityOf j prev)
  /\ (forall existing,
        List.find (Cart.hasId (Cart.id newItem)) prev = Some existing ->
        option_map Cart.details
          (List.find (Cart.hasId (Cart.id newItem))
             (Cart.addItem newItem quantityToAdd prev))
        = Some (Cart.details existing)).
Proof.
  unfold Cart.addItem.
  destruct (List.find (Cart.hasId (Cart.id newItem)) prev)
    as [existing | ] eqn:Hfind.
  - split; [ | split ].
    + rewrite set_quantityOf. unfold Cart.quantityOf.
      rewrite Hfind, String.eqb_refl. reflexivity.
    + intros j Hj. rewrite set_quantityOf. unfold Cart.quantityOf.
      apply String.eqb_neq in Hj. rewrite Hj. reflexivity.
    + intros ex E. injection E as <-.
      clear - Hfind. induction prev as [ | x l IH]; [ discriminate | ].
      cbn [map List.find] in *.
      assert (Hsame : forall q, Cart.hasId (Cart.id newItem)
                            (Cart.setQuantity (Cart.id newItem) q x)
                          = Cart.hasId (Cart.id newItem) x).
      { intro q. unfold Cart.setQuantity.
        destruct (Cart.hasId (Cart.id newItem) x) eqn:E; exact E. }
      rewrite Hsame.
      destruct (Cart.hasId (Cart.id newItem) x) eqn:E.
      * injection Hfind as <-. cbn. unfold Cart.setQuantity.
        now rewrite E.
      * now apply IH.
  - split; [ | split ].
    + unfold Cart.quantityOf. rewrite (find_app_absent _ _ _ Hfind), Hfind.
      unfold Cart.hasId. cbn. rewrite String.eqb_refl. cbn. ring.
    + intros j Hj. apply quantityOf_app_absent.
      unfold Cart.hasId. cbn. apply String.eqb_neq. congruence.
    + discriminate.
Qed.

Lemma add_item_line_witness :
  Cart.quantityOf "p1" (Cart.addItem (Fixtures.dish "p2" 99 None) 4
                          Fixtures.cart)
  = Cart.quantityOf "p1" Fixtures.cart.
Proof.
  apply (proj1 (proj2 (add_item_line (Fixtures.dish "p2" 99 None) 4
                         Fixtures.cart))).
  discriminate.
Defined.

Example add_item_keeps_first_price :
  Cart.getTotalPrice (Cart.addItem (Fixtures.dish "p2" 99 None) 1
                        [{| Cart.details := Fixtures.dish "p2" 3 None;
                            Cart.quantity := 2 |}]) == 9.
Proof. vm_compute. reflexivity. Qed.

Lemma remove_quantityOf (i j : string) (l : list Cart.Item) :
  Cart.quantityOf j (Cart.removeItem i l)
  = if String.eqb j i then 0 else Cart.quantityOf j l.
Proof.
  unfold Cart.quantityOf, Cart.removeItem.
  induction l as [ | x l IH]; cbn [filter List.find].
  - now destruct (String.eqb j i).
  - destruct (Cart.hasId i x) eqn:Ei; cbn [negb List.find].
    + rewrite IH. destruct (String.eqb j i) eqn:Eji; [ reflexivity | ].
      destruct (Cart.hasId j x) eqn:Ej; [ | reflexivity ].
      unfold Cart.hasId in *.
      apply String.eqb_eq in Ei, Ej. apply String.eqb_neq in Eji.
      congruence.
    + destruct (Cart.hasId j x) eqn:Ej; [ | exact IH ].
      destruct (String.eqb j i) eqn:Eji; [ | reflexivity ].
      unfold Cart.hasId in *.
      apply String.eqb_eq in Eji, Ej. apply String.eqb_neq in Ei.
      congruence.
Qed.

(** X19. [updateQuantity] with a quantity of 0 or less is [removeItem];
    after [removeItem] the cart has no line with that id and every other
    line is as before; with a positive quantity [updateQuantity] keeps
    the lines and their order, sets the quantity of the line with that
    id and leaves the others. *)
Theorem update_quantity_spec (i : string) (q : Q)
    (prev : list Cart.Item) :
  (q <= 0 -> Cart.updateQuantity i q prev = Cart.removeItem i prev)
  /\ ~ In i (Cart.ids (Cart.removeItem i prev))
  /\ (forall j, j <> i ->
        Cart.quantityOf j (Cart.removeItem i prev)
        = Cart.quantityOf j prev)
  /\ (0 < q ->
      Cart.ids (Cart.updateQuantity i q prev) = Cart.ids prev
      /\ (In i (Cart.ids prev) ->
          Cart.quantityOf i (Cart.updateQuantity i q prev) = q)
      /\ (forall j, j <> i ->
            Cart.quantityOf j (Cart.updateQuantity i q prev)
            = Cart.quantityOf j prev)).
Proof.
  split; [ | split; [ | split ] ].
  - intro Hq. unfold Cart.updateQuantity.
    apply Qle_bool_iff in Hq. now rewrite Hq.
  - unfold Cart.ids, Cart.removeItem. rewrite in_map_iff.
    intros (x & Hid & Hin). apply filter_In in Hin.
    destruct Hin as [_ Hkeep]. unfold Cart.hasId in Hkeep.
    rewrite Hid, String.eqb_refl in Hkeep. discriminate.
  - intros j Hj. rewrite remove_quantityOf.
    apply String.eqb_neq in Hj. now rewrite Hj.
  - intro Hq. unfold Cart.updateQuantity.
    assert (E : Qle_bool q 0 = false).
    { destruct (Qle_bool q 0) eqn:E; [ | reflexivity ].
      apply Qle_bool_iff in E. exfalso. exact (Qlt_not_le _ _ Hq E). }
    rewrite E. split; [ apply set_ids | split ].
    + intro Hin. rewrite set_quantityOf, String.eqb_refl.
      destruct (List.find (Cart.hasId i) prev) eqn:Hfind; [ reflexivity | ].
      apply find_none_ids in Hfind. contradiction.
    + intros j Hj. rewrite set_quantityOf.
      apply String.eqb_neq in Hj. now rewrite Hj.
Qed.

Lemma update_quantity_spec_witness :
  Cart.updateQuantity "p2" (-1) Fixtures.cart
  = Cart.removeItem "p2" Fixtures.cart
  /\ Cart.quantityOf "p1" (Cart.updateQuantity "p2" 7 Fixtures.cart)
     = Cart.quantityOf "p1" Fixtures.cart.
Proof.
  destruct (update_quantity_spec "p2" (-1) Fixtures.cart) as (H1 & _).
  destruct (update_quantity_spec "p2" 7 Fixtures.cart) as (_ & _ & _ & H2).
  split.
  - apply H1. unfold Qle. cbn. lia.
  - apply H2; [ reflexivity | discriminate ].
Defined.

Lemma fix_line (item : Cart.Item) :
  let fixed :=
    if Js.Qlt_bool (Cart.quantity item) (Cart.minQty item)
    then Cart.withQuantity item (Cart.minQty item) else item in
  Cart.details fixed = Cart.details item
  /\ Js.Qlt_bool (Cart.quantity fixed) (Cart.minQty fixed) = false
  /\ Cart.quantity item <= Cart.quantity fixed.
Proof.
  cbv zeta.
  destruct (Js.Qlt_bool (Cart.quantity item) (Cart.minQty item)) eqn:E.
  - split; [ reflexivity | split ].
    + unfold Cart.minQty. cbn. unfold Js.Qlt_bool.
      apply negb_false_iff, Qle_bool_iff, Qle_refl.
    + apply Qlt_bool_iff in E. cbn. lra.
  - split; [ reflexivity | split; [ exact E | apply Qle_refl ] ].
Qed.

(** X20. After [fixMinimumQuantities] no line is below its minimum
    order quantity, so the cart page's check depends on the minimum
    order amount alone; the repair keeps the lines, never lowers a
    quantity, and repairing twice is repairing once. *)
Theorem fix_minimum_spec (config : StoreSettings.Settings)
    (prev : list Cart.Item) :
  Cart.itemsWithMinQtyIssues (Cart.fixMinimumQuantities prev) = []
  /\ Cart.fixMinimumQuantities (Cart.fixMinimumQuantities prev)
     = Cart.fixMinimumQuantities prev
  /\ Forall2 (fun before after =>
                Cart.details after = Cart.details before
                /\ Cart.quantity before <= Cart.quantity after)
       prev (Cart.fixMinimumQuantities prev)
  /\ Cart.canProceedToCheckout config (Cart.fixMinimumQuantities prev)
     = Hook.meetsMinimumOrder config
         (Cart.getTotalPrice (Cart.fixMinimumQuantities prev)).
Proof.
  assert (Hnone : Cart.itemsWithMinQtyIssues
                    (Cart.fixMinimumQuantities prev) = []).
  { unfold Cart.itemsWithMinQtyIssues, Cart.fixMinimumQuantities.
    induction prev as [ | x l IH]; cbn [map filter]; [ reflexivity | ].
    destruct (fix_line x) as (_ & -> & _). exact IH. }
  split; [ exact Hnone | split; [ | split ] ].
  - unfold Cart.fixMinimumQuantities. rewrite map_map.
    apply map_ext. intro x.
    destruct (fix_line x) as (_ & -> & _). reflexivity.
  - clear Hnone. unfold Cart.fixMinimumQuantities.
    induction prev as [ | x l IH]; cbn [map]; [ constructor | ].
    constructor; [ | exact IH ].
    destruct (fix_line x) as (Hd & _ & Hq). now split.
  - unfold Cart.canProceedToCheckout. rewrite Hnone. cbn.
    apply andb_true_r.
Qed.

Example fix_minimum_cart :
  map Cart.quantity (Cart.fixMinimumQuantities Fixtures.cart) = [2; 3]
  /\ List.length (Cart.itemsWithMinQtyIssues Fixtures.cart) = 1%nat.
Proof. split; reflexivity. Qed.

(** ** More on the checkout route *)

(** Everything a success response tells about the run. *)
Lemma POST_success_order
    (env : Checkout.Env) (st st' : Store) (req : Checkout.Request)
    (order : Checkout.OrderSummary) (cust : Checkout.CustomerSummary)
    (tok : option string) :
  Checkout.POST env st req = (Checkout.Success order cust tok, st') ->
  exists lines info ms customer st1 rows total o,
    Checkout.validateRequest req = inr (lines, info, Js.ValidDate ms)
    /\ Checkout.resolveCustomer env st req info
       = (inr (customer, Checkout.isNewCustomer cust), st1)
    /\ Checkout.priceItems (Checkout.products env) lines [] 0
       = inr (rows, total)
    /\ Checkout.bookingTooSoon (Checkout.now env) (Js.ValidDate ms) = false
    /\ Orders.validate (Checkout.createClock env) o = true
    /\ o = Orders.withDefaults
            {| Orders.id := nextId st1;
               Orders.orderNumber :=
                 Orders.generateOrderNumber (Checkout.createClock env);
               Orders.customer := Customers.id customer;
               Orders.items := rows;
               Orders.totalAmount := total;
               Orders.status := Orders.Pending;
               Orders.bookingDate := ms;
               Orders.customerNotes :=
                 Some (Js.str_or (Checkout.customerNotes req) "");
               Orders.serviceType :=
                 Js.str_or (Checkout.serviceType req) "";
               Orders.paymentStatus := Orders.PayPending;
               Orders.deliveryAddress :=
                 Checkout.addressWhenDelivery req
                   (fun a => Checkout.orderAddress a info) |}
    /\ st' = {| customers :=
                  Customers.update (Customers.id customer)
                    (Checkout.statsData env customer total) (customers st1);
                orders := orders st1 ++ [o];
                nextId := S (nextId st1) |}
    /\ Checkout.cust_id cust = Customers.id customer
    /\ Checkout.sum_id order = Orders.id o
    /\ Checkout.sum_orderNumber order = Orders.orderNumber o
    /\ Checkout.sum_totalAmount order = total.
Proof.
  intro H. checkout_cases H.
  - injection H as -> _.
    apply validateRequest_error in Hvalidate.
    destruct Hvalidate as [[E | E] _]; discriminate E.
  - injection H as -> _.
    apply resolveCustomer_error in Hresolve.
    destruct Hresolve as [[E | E] _]; discriminate E.
  - injection H as -> _.
    apply priceItems_error in Hprice.
    destruct Hprice as (item & _ & _ & [E | [(i & _ & E) | E]]);
      discriminate E.
  - discriminate H.
  - unfold Checkout.createOrder in H.
    destruct bd as [ms | ]; [ | discriminate H ].
    destruct (Checkout.orderCreateThrows env || negb (Orders.validate _ _))
      eqn:Hc; [ discriminate H | ].
    apply orb_false_iff in Hc. destruct Hc as [_ Hvalid].
    apply negb_false_iff in Hvalid.
    destruct (Checkout.statsUpdateThrows env); [ discriminate H | ].
    injection H as <- <- <- <-.
    eexists items, info, ms, customer, st1, rows, total, _.
    split; [ reflexivity | split; [ exact Hresolve | ] ].
    split; [ exact Hprice | split; [ exact Hsoon | ] ].
    split; [ exact Hvalid | ].
    repeat split; reflexivity.
Qed.

(** X21. Every order a successful checkout stores is pending with a
    pending payment, has at least one row and no quantity below 1, is
    booked at least 24 hours after the clock reading of the check, and
    names delivery or pickup as its service.  It always carries an
    address with a city: a delivery order has the street and area of
    the request, the city of the request or the collection's default
    when the request names none, and a phone; any other order has the
    default city and nothing else. *)
Theorem stored_order_wellformed
    (env : Checkout.Env) (st st' : Store) (req : Checkout.Request)
    (order : Checkout.OrderSummary) (cust : Checkout.CustomerSummary)
    (tok : option string) :
  Checkout.POST env st req = (Checkout.Success order cust tok, st') ->
  exists o a,
    orders st' = orders st ++ [o]
    /\ Orders.status o = Orders.Pending
    /\ Orders.paymentStatus o = Orders.PayPending
    /\ Orders.items o <> []
    /\ Forall (fun row => 1 <= Orders.quantity row) (Orders.items o)
    /\ (24 * 3600000 <= Orders.bookingDate o - Checkout.now env)%Z
    /\ (Orders.serviceType o = "delivery"%string
        \/ Orders.serviceType o = "pickup"%string)
    /\ Orders.deliveryAddress o = Some a
    /\ Js.truthy_str (Addr.city a) = true
    /\ (Orders.serviceType o = "delivery"%string ->
        Checkout.addressComplete (Some a) = true
        /\ exists sent,
             Checkout.deliveryAddress req = Some sent
             /\ Addr.street a = Addr.street sent
             /\ Addr.area a = Addr.area sent
             /\ (forall c, Addr.city sent = Some c -> Addr.city a = Some c)
             /\ (Addr.city sent = None
                 -> Addr.city a = Some "Muscat"%string))
    /\ (Orders.serviceType o <> "delivery"%string ->
        a = Orders.defaultAddress None).
Proof.
  intro H. apply POST_success_order in H.
  destruct H as (lines & info & ms & customer & st1 & rows & total & o
                 & Hv & Hr & Hp & Hsoon & Hchecked & Ho & -> & _).
  apply resolveCustomer_keeps in Hr. destruct Hr as (Horders & _).
  exists o,
    (Orders.defaultAddress
       (Checkout.addressWhenDelivery req
          (fun a => Checkout.orderAddress a info))).
  cbn [orders]. rewrite Horders.
  split; [ reflexivity | ].
  unfold Orders.validate in Hchecked.
  repeat rewrite andb_true_iff in Hchecked.
  destruct Hchecked
    as (((((((Hrows & Hqty) & Hsvc) & _) & Hstreet) & Harea) & Hcity)
        & Hphone).
  split; [ now rewrite Ho | split; [ now rewrite Ho | ] ].
  split.
  { intro E. rewrite E in Hrows. discriminate Hrows. }
  split.
  { apply Forall_forall. intros row Hin.
    rewrite forallb_forall in Hqty. apply Qle_bool_iff. now apply Hqty. }
  split.
  { assert (Hms : Orders.bookingDate o = ms) by now rewrite Ho.
    rewrite Hms.
    destruct (Z_lt_le_dec (ms - Checkout.now env) (24 * 3600000))
      as [Hlt | Hge]; [ | exact Hge ].
    apply bookingTooSoon_iff in Hlt. congruence. }
  split.
  { apply orb_true_iff in Hsvc.
    destruct Hsvc as [E | E]; apply String.eqb_eq in E; auto. }
  split; [ now rewrite Ho | ].
  assert (Hservice : Orders.serviceType o
                     = Js.str_or (Checkout.serviceType req) "")
    by now rewrite Ho.
  assert (Haddress : Orders.deliveryAddress o
                     = Some (Orders.defaultAddress
                               (Checkout.addressWhenDelivery req
                                  (fun a => Checkout.orderAddress a info))))
    by now rewrite Ho.
  rewrite Haddress in Hstreet, Harea, Hcity, Hphone.
  cbn [Orders.addressField] in Hstreet, Harea, Hcity, Hphone.
  clear Ho Haddress.
  unfold Checkout.addressWhenDelivery, Checkout.is_delivery in *.
  destruct (Checkout.serviceType req) as [s | ].
  2:{ cbn in Hservice |- *. split; [ reflexivity | split ].
      - intro E. rewrite E in Hservice. discriminate Hservice.
      - reflexivity. }
  destruct (String.eqb s "delivery") eqn:Edel.
  - apply String.eqb_eq in Edel. subst s. cbn in Hservice.
    unfold Orders.validateAddressField in Hstreet, Harea, Hcity, Hphone.
    rewrite Hservice in Hstreet, Harea, Hcity, Hphone.
    cbn [String.eqb Ascii.eqb Bool.eqb andb] in Hstreet, Harea, Hcity, Hphone.
    destruct (Checkout.deliveryAddress req) as [sent | ];
      [ | discriminate Hstreet ].
    cbn in Hstreet, Harea, Hcity, Hphone |- *.
    destruct (Js.truthy_str (Addr.street sent)); [ | discriminate Hstreet ].
    destruct (Js.truthy_str (Addr.area sent)); [ | discriminate Harea ].
    assert (Hc : Js.truthy_str
                   match Addr.city sent with
                   | Some c => Some c
                   | None => Some "Muscat"%string
                   end = true).
    { destruct (Js.truthy_str _); [ reflexivity | discriminate Hcity ]. }
    rewrite Hc. split; [ reflexivity | split ].
    + intros _. split.
      * destruct (Js.truthy_str
                    (if Js.truthy_str (Addr.phone sent)
                     then Addr.phone sent else Checkout.phone info));
          [ reflexivity | discriminate Hphone ].
      * exists sent. split; [ reflexivity | ].
        split; [ reflexivity | split; [ reflexivity | split ] ].
        -- intros c E. now rewrite E.
        -- intro E. now rewrite E.
    + intro Hnot. contradiction.
  - cbn. split; [ reflexivity | split ].
    + intro E. rewrite E in Hservice. unfold Js.str_or in Hservice.
      destruct (String.eqb s "") eqn:Es.
      * discriminate Hservice.
      * subst s. discriminate Edel.
    + reflexivity.
Qed.

Lemma stored_order_wellformed_witness :
  exists o,
    orders (snd (Checkout.POST Samples.calm Samples.emptyStore
                   (Samples.pickupRequest [Samples.line "p1" 2 1] 25)))
    = orders Samples.emptyStore ++ [o]
    /\ Orders.status o = Orders.Pending
    /\ Orders.items o <> [].
Proof.
  destruct (Checkout.POST Samples.calm Samples.emptyStore
              (Samples.pickupRequest [Samples.line "p1" 2 1] 25))
    as [resp st'] eqn:E.
  assert (Hs : exists order cust tok, resp = Checkout.Success order cust tok).
  { vm_compute in E. injection E as <- _. eauto. }
  destruct Hs as (order & cust & tok & ->).
  destruct (stored_order_wellformed _ _ _ _ _ _ _ E)
    as (o & a & H1 & H2 & _ & H3 & _).
  exists o. auto.
Defined.

(** X22. The order number is a faithful copy of the clock reading it is
    made from: two order numbers are equal only if the two readings
    are. *)
Theorem order_number_injective (a b : Z) :
  Orders.generateOrderNumber a = Orders.generateOrderNumber b -> a = b.
Proof.
  unfold Orders.generateOrderNumber. intro H.
  assert (Hcut : forall p s1 s2 : string,
             (p ++ s1 = p ++ s2)%string -> s1 = s2).
  { induction p as [ | c p IH]; cbn; intros s1 s2 E; [ exact E | ].
    injection E as E. now apply IH. }
  apply Hcut in H.
  apply DecimalZ.to_int_inj.
  assert (Hnil : forall z, Z.to_int z <> Decimal.Pos Decimal.Nil
                           /\ Z.to_int z <> Decimal.Neg Decimal.Nil).
  { intros [ | p | p]; cbn; split; try discriminate;
      intro E; injection E as E;
      exact (DecimalPos.Unsigned.to_uint_nonnil p E). }
  apply (f_equal DecimalString.NilZero.int_of_string) in H.
  rewrite !DecimalString.NilZero.isi in H by apply Hnil.
  injection H as H. exact H.
Qed.

Lemma order_number_injective_witness :
  (1700000000000 = 1700000000000)%Z.
Proof.
  apply order_number_injective. reflexivity.
Defined.

Lemma update_nth (i : nat) (data : Customers.Customer -> Customers.Customer)
    (docs : list Customers.Customer) (k : nat) (c : Customers.Customer) :
  nth_error docs k = Some c ->
  nth_error (Customers.update i data docs) k = Some c
  \/ nth_error (Customers.update i data docs) k = Some (data c).
Proof.
  intro H. unfold Customers.update. rewrite nth_error_map, H. cbn.
  destruct (Nat.eqb (Customers.id c) i); auto.
Qed.

(** X23. Whatever its outcome, a checkout never removes a customer or
    an order, never touches a stored order, adds at most one order, and
    never changes the id, e-mail address, password or active flag of a
    customer that was already there. *)
Theorem checkout_keeps_records
    (env : Checkout.Env) (st : Store) (req : Checkout.Request) :
  let st' := snd (Checkout.POST env st req) in
  (exists added, orders st' = orders st ++ added
                 /\ (List.length added <= 1)%nat)
  /\ (forall k c,
        nth_error (customers st) k = Some c ->
        exists c',
          nth_error (customers st') k = Some c'
          /\ Customers.id c' = Customers.id c
          /\ Customers.email c' = Customers.email c
          /\ Customers.password c' = Customers.password c
          /\ Customers.isActive c' = Customers.isActive c).
Proof.
  cbv zeta.
  assert (Hresolve : forall info res st1,
            Checkout.resolveCustomer env st req info = (res, st1) ->
            orders st1 = orders st
            /\ forall k c,
                 nth_error (customers st) k = Some c ->
                 exists c',
                   nth_error (customers st1) k = Some c'
                   /\ Customers.id c' = Customers.id c
                   /\ Customers.email c' = Customers.email c
                   /\ Customers.password c' = Customers.password c
                   /\ Customers.isActive c' = Customers.isActive c).
  { intros info res st1 H. unfold Checkout.resolveCustomer in H.
    assert (Hsame : orders st = orders st
                    /\ forall k c,
                         nth_error (customers st) k = Some c ->
                         exists c',
                           nth_error (customers st) k = Some c'
                           /\ Customers.id c' = Customers.id c
                           /\ Customers.email c' = Customers.email c
                           /\ Customers.password c' = Customers.password c
                           /\ Customers.isActive c' = Customers.isActive c).
    { split; [ reflexivity | ]. intros k c Hk. exists c. auto. }
    destruct (Checkout.customerFindThrows env).
    { injection H as _ <-. exact Hsame. }
    destruct (Customers.find _ _) as [ | existing others].
    - destruct (negb _); [ injection H as _ <-; exact Hsame | ].
      destruct (Checkout.customerWriteThrows env);
        [ injection H as _ <-; exact Hsame | ].
      injection H as _ <-. cbn. split; [ reflexivity | ].
      intros k c Hk. exists c. repeat split.
      rewrite nth_error_app1; [ exact Hk | ].
      apply nth_error_Some. congruence.
    - destruct (Checkout.customerWriteThrows env);
        [ injection H as _ <-; exact Hsame | ].
      injection H as _ <-. cbn. split; [ reflexivity | ].
      intros k c Hk.
      destruct (update_nth (Customers.id existing)
                  (Checkout.updateData req info) _ k c Hk) as [E | E];
        rewrite E; eexists; repeat split. }
  destruct (Checkout.POST env st req) as [resp st'] eqn:H. cbn [snd].
  assert (Hsame : (exists added, orders st = orders st ++ added
                                 /\ (List.length added <= 1)%nat)).
  { exists []. rewrite app_nil_r. split; [ reflexivity | cbn; lia ]. }
  checkout_cases H.
  - injection H as _ <-. split; [ exact Hsame | ].
    intros k c Hk. exists c. auto.
  - injection H as _ <-. destruct (Hresolve _ _ _ Hresolve0) as [Ho Hc].
    rewrite Ho. split; [ exact Hsame | exact Hc ].
  - injection H as _ <-. destruct (Hresolve _ _ _ Hresolve0) as [Ho Hc].
    rewrite Ho. split; [ exact Hsame | exact Hc ].
  - injection H as _ <-. destruct (Hresolve _ _ _ Hresolve0) as [Ho Hc].
    rewrite Ho. split; [ exact Hsame | exact Hc ].
  - destruct (Hresolve _ _ _ Hresolve0) as [Ho Hc].
    unfold Checkout.createOrder in H.
    destruct bd as [ms | ].
    2:{ injection H as _ <-. rewrite Ho. split; [ exact Hsame | exact Hc ]. }
    destruct (Checkout.orderCreateThrows env || negb (Orders.validate _ _)).
    { injection H as _ <-. rewrite Ho. split; [ exact Hsame | exact Hc ]. }
    destruct (Checkout.statsUpdateThrows env).
    + injection H as _ <-. cbn. rewrite Ho.
      split; [ | exact Hc ].
      eexists [_]. split; [ reflexivity | cbn; lia ].
    + injection H as _ <-. cbn. rewrite Ho. split.
      * eexists [_]. split; [ reflexivity | cbn; lia ].
      * intros k c Hk. destruct (Hc k c Hk) as (c1 & Hk1 & Hi & He & Hp & Ha).
        destruct (update_nth (Customers.id customer)
                    (Checkout.statsData env customer total) _ k c1 Hk1)
          as [E | E]; rewrite E; eexists; (split; [ reflexivity | ]);
          cbn; auto.
Qed.

Lemma checkout_keeps_records_witness :
  exists c',
    nth_error
      (customers
         (snd (Checkout.POST Samples.later
                 (snd (Checkout.POST Samples.calm Samples.emptyStore
                         (Samples.pickupRequest [Samples.line "p2" 2 3] 25)))
                 (Samples.pickupRequest [Samples.line "p1" 1 1] 48)))) 0
    = Some c'
    /\ Customers.password c' = Some "secret1"%string.
Proof.
  destruct (nth_error
              (customers
                 (snd (Checkout.POST Samples.calm Samples.emptyStore
                         (Samples.pickupRequest [Samples.line "p2" 2 3] 25))))
              0) as [c | ] eqn:E; [ | vm_compute in E; discriminate E ].
  pose proof (checkout_keeps_records Samples.later
                (snd (Checkout.POST Samples.calm Samples.emptyStore
                        (Samples.pickupRequest [Samples.line "p2" 2 3] 25)))
                (Samples.pickupRequest [Samples.line "p1" 1 1] 48)) as H.
  cbv zeta in H. destruct H as [_ H].
  destruct (H 0%nat c E) as (c' & H1 & _ & _ & H3 & _).
  exists c'. split; [ exact H1 | ].
  rewrite H3. vm_compute in E. injection E as <-. reflexivity.
Defined.

Example checkout_keeps_password :
  option_map Customers.password
    (Checkout.owner "alice@example.om"
       (snd (Checkout.runAll
               [(Samples.calm, Samples.pickupRequest [Samples.line "p2" 2 3] 25);
                (Samples.later,
                 Checkout.mkRequest (Some [Samples.line "p1" 1 1])
                   (Some {| Checkout.email := Some "alice@example.om"%string;
                            Checkout.password := Some "another"%string;
                            Checkout.firstName := Some "Alice"%string;
                            Checkout.lastName := Some "Said"%string;
                            Checkout.phone := Some "91234567"%string |})
                   None (Some "pickup"%string)
                   (Some (Js.ValidDate (Samples.hours 48))) None None)]
               Samples.emptyStore)))
  = Some (Some "secret1"%string).
Proof. reflexivity. Qed.

Lemma owner_email (e : string) (st : Store) (c : Customers.Customer) :
  Checkout.owner e st = Some c -> Customers.email c = Some e.
Proof.
  unfold Checkout.owner, Customers.find. intro H.
  destruct (filter _ _) as [ | c0 rest] eqn:Hf; [ discriminate | ].
  injection H as ->.
  assert (Hin : In c (filter (Customers.email_equals (Some e))
                        (customers st))) by (rewrite Hf; now left).
  apply filter_In in Hin. destruct Hin as [_ Heq].
  unfold Customers.email_equals in Heq.
  destruct (Customers.email c) as [e' | ]; [ | discriminate ].
  apply String.eqb_eq in Heq. now subst.
Qed.

Lemma resolveCustomer_isNew (e : string) env st req info customer isNew st1 :
  Checkout.email info = Some e ->
  Checkout.resolveCustomer env st req info = (inr (customer, isNew), st1) ->
  (isNew = true <-> Checkout.owner e st = None).
Proof.
  intro He. unfold Checkout.resolveCustomer, Checkout.owner. rewrite He.
  destruct (Checkout.customerFindThrows env); [ discriminate | ].
  destruct (Customers.find (Some e) (customers st)) as [ | existing others].
  - destruct (negb _); [ discriminate | ].
    destruct (Checkout.customerWriteThrows env); [ discriminate | ].
    intro H. injection H as _ <- _. cbn. tauto.
  - destruct (Checkout.customerWriteThrows env); [ discriminate | ].
    intro H. injection H as _ <- _. cbn. split; discriminate.
Qed.

(** X24. For a request whose e-mail address is already in the form the
    collection stores (lower case, no blanks): after a successful
    checkout, looking the customer up by that address finds the
    customer the response names; and the response flags the customer as
    new exactly when the look-up found no customer before.  An address
    in another form is stored normalised while both routes query it as
    sent, and is not covered. *)
Theorem checkout_then_lookup (e : string)
    (env : Checkout.Env) (st st' : Store) (req : Checkout.Request)
    (order : Checkout.OrderSummary) (cust : Checkout.CustomerSummary)
    (tok : option string) :
  Checkout.requestEmail req = Some e ->
  e <> EmptyString ->
  Lookup.normalized e = true ->
  Checkout.POST env st req = (Checkout.Success order cust tok, st') ->
  (exists card,
     Lookup.customerByEmail false st' (Some e) = Lookup.Registered card
     /\ Lookup.card_id card = Checkout.cust_id cust
     /\ Lookup.card_email card = Some e)
  /\ (Checkout.isNewCustomer cust = true
      <-> Lookup.customerByEmail false st (Some e) = Lookup.NotRegistered).
Proof.
  intros He Hne _ H. apply POST_success_order in H.
  destruct H as (lines & info & ms & customer & st1 & rows & total & o
                 & Hv & Hr & _ & _ & _ & _ & -> & Hid & _).
  apply validateRequest_ok in Hv. destruct Hv as (_ & Hinfo & _).
  unfold Checkout.requestEmail in He. rewrite Hinfo in He.
  destruct (resolveCustomer_owner e _ _ _ _ _ _ _ He Hr) as (Howner & _).
  pose proof (resolveCustomer_isNew e _ _ _ _ _ _ _ He Hr) as Hnew.
  assert (Htruthy : Js.truthy_str (Some e) = true).
  { cbn. apply negb_true_iff. now apply String.eqb_neq. }
  unfold Lookup.customerByEmail. rewrite Htruthy. cbn [negb].
  split.
  - pose proof (owner_update e st1 customer
                  (Checkout.statsData env customer total)
                  (orders st1 ++ [o]) (S (nextId st1))
                  (fun c => eq_refl) Howner) as Hafter.
    unfold Checkout.owner in Hafter. cbn [customers] in Hafter |- *.
    destruct (Customers.find (Some e) _) as [ | found rest];
      [ discriminate | ].
    injection Hafter as ->. eexists. split; [ reflexivity | ].
    cbn. split; [ now symmetry | ].
    now apply (owner_email e st1).
  - rewrite Hnew. unfold Checkout.owner.
    destruct (Customers.find (Some e) (customers st)); cbn;
      split; intro; congruence.
Qed.

Lemma checkout_then_lookup_witness :
  exists card,
    Lookup.customerByEmail false
      (snd (Checkout.POST Samples.calm Samples.emptyStore
              (Samples.pickupRequest [Samples.line "p1" 2 1] 25)))
      (Some "alice@example.om"%string)
    = Lookup.Registered card
    /\ Lookup.card_id card = 1%nat.
Proof.
  destruct (Checkout.POST Samples.calm Samples.emptyStore
              (Samples.pickupRequest [Samples.line "p1" 2 1] 25))
    as [resp st'] eqn:E.
  assert (Hs : exists order cust tok,
             resp = Checkout.Success order cust tok
             /\ Checkout.cust_id cust = 1%nat).
  { vm_compute in E. injection E as <- _. eauto. }
  destruct Hs as (order & cust & tok & -> & Hid).
  destruct (checkout_then_lookup "alice@example.om" Samples.calm
              Samples.emptyStore st'
              (Samples.pickupRequest [Samples.line "p1" 2 1] 25)
              order cust tok eq_refl ltac:(discriminate) eq_refl E)
    as ((card & H1 & H2 & _) & _).
  exists card. cbn [snd]. split; [ exact H1 | congruence ].
Defined.

(** X25. An order just placed can be cancelled by its customer with the
    order number of the response: if that customer had no order with
    this number before, the cancellation goes through unless the
    look-up or the update itself throws; it then reports the same order
    and total and leaves the customers as they are. *)
Theorem checkout_then_cancel
    (env : Checkout.Env) (cenv : Cancel.Env) (st st' : Store)
    (req : Checkout.Request)
    (order : Checkout.OrderSummary) (cust : Checkout.CustomerSummary)
    (tok reason : option string) :
  Checkout.POST env st req = (Checkout.Success order cust tok, st') ->
  Orders.find (Checkout.sum_orderNumber order) (Checkout.cust_id cust)
    (orders st) = [] ->
  Checkout.cust_id cust <> 0%nat ->
  Cancel.orderFindThrows cenv = false ->
  Cancel.orderUpdateThrows cenv = false ->
  exists summary st'',
    Cancel.POST cenv st'
      {| Cancel.orderNumber := Some (Checkout.sum_orderNumber order);
         Cancel.customerId := Some (Checkout.cust_id cust);
         Cancel.reason := reason |}
    = (Cancel.Cancelled summary, st'')
    /\ Cancel.sum_id summary = Checkout.sum_id order
    /\ Cancel.sum_totalAmount summary = Checkout.sum_totalAmount order
    /\ Cancel.sum_status summary = Orders.Cancelled
    /\ customers st'' = customers st'.
Proof.
  intros H Hfresh Hcid Hfind Hupdate. apply POST_success_order in H.
  destruct H as (lines & info & ms & customer & st1 & rows & total & o
                 & _ & Hr & _ & _ & _ & Ho & -> & Hid & Hoid & Hnum & Htot).
  apply resolveCustomer_keeps in Hr. destruct Hr as (Horders & _).
  unfold Cancel.POST, Cancel.requestKeys.
  cbn [Cancel.orderNumber Cancel.customerId Cancel.reason orders customers].
  rewrite Hfind, Hupdate.
  assert (Hnonempty : String.eqb (Checkout.sum_orderNumber order) "" = false).
  { rewrite Hnum, Ho. reflexivity. }
  rewrite Hnonempty.
  apply Nat.eqb_neq in Hcid. rewrite Hcid. cbn [orb].
  unfold Orders.find in *. rewrite filter_app, Horders, Hfresh.
  cbn [app filter].
  assert (Hmatch : Orders.matches (Checkout.sum_orderNumber order)
                     (Checkout.cust_id cust) o = true).
  { unfold Orders.matches. rewrite Hnum, Hid, Ho. cbn.
    now rewrite String.eqb_refl, Nat.eqb_refl. }
  rewrite Hmatch.
  assert (Hstatus : Orders.status o = Orders.Pending) by now rewrite Ho.
  rewrite Hstatus. cbn [Cancel.cancellable negb].
  eexists _, _. split; [ reflexivity | ].
  cbn. repeat split; try congruence.
  rewrite Htot, Ho. reflexivity.
Qed.

Lemma checkout_then_cancel_witness :
  exists summary st'',
    Cancel.POST Samples.cancelEnv
      (snd (Checkout.POST Samples.calm Samples.emptyStore
              (Samples.pickupRequest [Samples.line "p1" 2 1] 25)))
      {| Cancel.orderNumber := Some "ORD-5"%string;
         Cancel.customerId := Some 1%nat;
         Cancel.reason := None |}
    = (Cancel.Cancelled summary, st'')
    /\ Cancel.sum_status summary = Orders.Cancelled.
Proof.
  destruct (Checkout.POST Samples.calm Samples.emptyStore
              (Samples.pickupRequest [Samples.line "p1" 2 1] 25))
    as [resp st'] eqn:E.
  assert (Hs : exists order cust tok,
             resp = Checkout.Success order cust tok
             /\ Checkout.cust_id cust = 1%nat
             /\ Checkout.sum_orderNumber order = "ORD-5"%string).
  { vm_compute in E. injection E as <- _. do 3 eexists.
    split; [ reflexivity | split; reflexivity ]. }
  destruct Hs as (order & cust & tok & -> & Hid & Hnum).
  assert (Hfresh : Orders.find (Checkout.sum_orderNumber order)
                     (Checkout.cust_id cust) (orders Samples.emptyStore) = [])
    by reflexivity.
  assert (Hcid : Checkout.cust_id cust <> 0%nat)
    by (rewrite Hid; discriminate).
  destruct (checkout_then_cancel Samples.calm Samples.cancelEnv _ _ _ _ _ _
              None E Hfresh Hcid eq_refl eq_refl)
    as (summary & st'' & H1 & _ & _ & H2 & _).
  exists summary, st''. cbn [snd]. rewrite Hid, Hnum in H1. auto.
Defined.

(** ** The checkout page and the checkout route *)

Lemma resolveCustomer_password env st req info st1 :
  Checkout.resolveCustomer env st req info
  = (inl Checkout.PasswordRequired, st1) ->
  Js.truthy_str (Checkout.password info) = false.
Proof.
  unfold Checkout.resolveCustomer.
  destruct (Checkout.customerFindThrows env); [ discriminate | ].
  destruct (Customers.find _ _).
  - destruct (Js.truthy_str (Checkout.password info)); cbn [negb];
      [ | reflexivity ].
    destruct (Checkout.customerWriteThrows env); discriminate.
  - destruct (Checkout.customerWriteThrows env); discriminate.
Qed.

(** The responses of step 1 come from step 1 only, and the password
    response from a request without a password. *)
Lemma POST_response_cases env st req :
  match Checkout.validateRequest req with
  | inl err => fst (Checkout.POST env st req) = err
  | inr (lines, info, bd) =>
      ~ Checkout.validationError (fst (Checkout.POST env st req))
      /\ (fst (Checkout.POST env st req) = Checkout.PasswordRequired ->
          Js.truthy_str (Checkout.password info) = false)
  end.
Proof.
  unfold Checkout.POST, Checkout.validationError.
  destruct (Checkout.validateRequest req) as [e0 | [[lines info] bd]];
    [ reflexivity | ].
  destruct (Checkout.resolveCustomer env st req info)
    as [[e0 | [customer isNew]] st1] eqn:Hr.
  { cbn [fst]. pose proof (resolveCustomer_error _ _ _ _ _ _ Hr) as [He _].
    split.
    - intros [E | E]; destruct He as [E' | E']; congruence.
    - intros ->. now apply resolveCustomer_password in Hr. }
  destruct (Checkout.priceItems (Checkout.products env) lines [] 0)
    as [e0 | [rows total]] eqn:Hp.
  { cbn [fst]. apply priceItems_error in Hp.
    destruct Hp as (item & _ & _ & [E | [(i & _ & E) | E]]);
      (split; [ intros [E' | E'] | intro E' ]); congruence. }
  destruct (Checkout.bookingTooSoon (Checkout.now env) bd).
  { cbn [fst]. split; [ intros [E | E] | intro E ]; discriminate E. }
  destruct (Checkout.createOrder env st1 req info customer isNew rows total bd)
    as [resp st2] eqn:Hc.
  cbn [fst]. apply createOrder_cases in Hc.
  destruct Hc as [(E & _) | (ms & o & order' & cust' & _ & E & _)];
    (split; [ intros [E' | E'] | intro E' ]); congruence.
Qed.

(** The body the page posts, seen by step 1 of the route. *)
Lemma page_validates (p : CheckoutPage.Page) (body : Checkout.Request) :
  CheckoutPage.handleCheckout p = CheckoutPage.Posts body ->
  Checkout.validateRequest body
  = (if CheckoutPage.isDelivery (CheckoutPage.selectedService p)
        && negb (Hook.isDeliveryEnabled (CheckoutPage.config p))
     then inl Checkout.MissingDeliveryAddress
     else inr (map CheckoutPage.line (CheckoutPage.items p),
               CheckoutPage.customerBody (CheckoutPage.customerInfo p),
               CheckoutPage.deliveryDateTime p))
  /\ (CheckoutPage.isAuthenticated p = false ->
      Js.truthy_str
        (Some (CheckoutPage.password (CheckoutPage.customerInfo p))) = true).
Proof.
  unfold CheckoutPage.handleCheckout.
  destruct (negb (CheckoutPage.mounted p) || _ || _); [ discriminate | ].
  destruct (CheckoutPage.empty _ || _ || _ || _); [ discriminate | ].
  destruct (negb (CheckoutPage.isAuthenticated p) && (_ || _)) eqn:Hpw;
    [ discriminate | ].
  destruct (negb (CheckoutPage.isAuthenticated p) && negb _);
    [ discriminate | ].
  destruct (CheckoutPage.isDelivery _ && _ && _) eqn:Haddr;
    [ discriminate | ].
  destruct (CheckoutPage.empty (CheckoutPage.bookingDate p) || _);
    [ discriminate | ].
  destruct (CheckoutPage.deliveryDateTime p) as [ms | ]; [ | discriminate ].
  intro H. injection H as <-. split.
  - unfold Checkout.validateRequest, Checkout.addressMissing.
    cbn [Checkout.items Checkout.customerInfo Checkout.bookingDate
         Checkout.serviceType Checkout.deliveryAddress].
    destruct (CheckoutPage.selectedService p);
      destruct (Hook.isDeliveryEnabled (CheckoutPage.config p));
      cbn in Haddr |- *; try reflexivity.
    apply orb_false_iff in Haddr. destruct Haddr as [Haddr _].
    apply orb_false_iff in Haddr. destruct Haddr as [Hstreet Harea].
    unfold CheckoutPage.empty in Hstreet, Harea.
    now rewrite Hstreet, Harea.
  - intro Hauth. rewrite Hauth in Hpw. cbn [negb andb] in Hpw.
    apply orb_false_iff in Hpw. destruct Hpw as [Hpw _].
    unfold CheckoutPage.empty in Hpw. cbn. now rewrite Hpw.
Qed.

(** X26. A request the checkout page posts is never answered with the
    missing-information response; it is answered with the
    missing-address response exactly when delivery is selected while
    delivery is switched off (the page then posts no address); and for
    a visitor who is not logged in it is never answered with the
    password response. *)
Theorem page_request_validation
    (p : CheckoutPage.Page) (body : Checkout.Request)
    (env : Checkout.Env) (st : Store) :
  CheckoutPage.handleCheckout p = CheckoutPage.Posts body ->
  fst (Checkout.POST env st body) <> Checkout.MissingInformation
  /\ (fst (Checkout.POST env st body) = Checkout.MissingDeliveryAddress
      <-> CheckoutPage.selectedService p = StoreConfig.Delivery
          /\ Hook.isDeliveryEnabled (CheckoutPage.config p) = false)
  /\ (CheckoutPage.isAuthenticated p = false ->
      fst (Checkout.POST env st body) <> Checkout.PasswordRequired).
Proof.
  intro H. destruct (page_validates p body H) as [Hv Hpw].
  pose proof (POST_response_cases env st body) as Hcases.
  rewrite Hv in Hcases.
  assert (Hsel : CheckoutPage.isDelivery (CheckoutPage.selectedService p)
                 && negb (Hook.isDeliveryEnabled (CheckoutPage.config p))
                 = true
                 <-> CheckoutPage.selectedService p = StoreConfig.Delivery
                     /\ Hook.isDeliveryEnabled (CheckoutPage.config p)
                        = false).
  { destruct (CheckoutPage.selectedService p),
             (Hook.isDeliveryEnabled (CheckoutPage.config p)); cbn;
      split; try discriminate; try tauto;
      intros [E1 E2]; discriminate. }
  destruct (CheckoutPage.isDelivery _ && negb _).
  - rewrite Hcases. split; [ discriminate | split ].
    + split; [ intros _; now apply Hsel | reflexivity ].
    + intros _. discriminate.
  - destruct Hcases as [Hnot Hpass].
    unfold Checkout.validationError in Hnot. split; [ tauto | split ].
    + split; [ tauto | ]. intro E. apply Hsel in E. discriminate E.
    + intros Hauth E. specialize (Hpw Hauth). specialize (Hpass E).
      cbn [CheckoutPage.customerBody Checkout.password] in Hpass.
      congruence.
Qed.

Lemma page_request_validation_witness :
  exists body,
    CheckoutPage.handleCheckout Fixtures.page = CheckoutPage.Posts body
    /\ fst (Checkout.POST Samples.calm Samples.emptyStore body)
       <> Checkout.MissingInformation
    /\ fst (Checkout.POST Samples.calm Samples.emptyStore body)
       <> Checkout.PasswordRequired.
Proof.
  eexists. split; [ reflexivity | ].
  destruct (page_request_validation Fixtures.page _ Samples.calm
              Samples.emptyStore eq_refl) as (H1 & _ & H3).
  split; [ exact H1 | exact (H3 eq_refl) ].
Defined.

(** ** Cancellation: eligibility, repetition, and what is left alone *)

(** A cancellation goes through on one path only. *)
Lemma cancel_POST_inv env st req summary st' :
  Cancel.POST env st req = (Cancel.Cancelled summary, st') ->
  exists number cid order others,
    Cancel.requestKeys req = Some (number, cid)
    /\ Orders.find number cid (orders st) = order :: others
    /\ Cancel.cancellable (Orders.status order) = true
    /\ st' = {| customers := customers st;
                orders :=
                  Orders.update (Orders.id order)
                    (Cancel.cancelData (Cancel.reason req)) (orders st);
                nextId := nextId st |}.
Proof.
  unfold Cancel.POST.
  destruct (Cancel.requestKeys req) as [[number cid] | ]; [ | discriminate ].
  destruct (Cancel.orderFindThrows env); [ discriminate | ].
  destruct (Orders.find number cid (orders st)) as [ | order others] eqn:Hf;
    [ discriminate | ].
  destruct (Cancel.cancellable (Orders.status order)) eqn:Hc; cbn [negb];
    [ | discriminate ].
  destruct (Cancel.orderUpdateThrows env); [ discriminate | ].
  intro H. injection H as _ <-.
  exists number, cid, order, others. auto.
Qed.

Lemma requestKeys_some req number cid :
  Cancel.requestKeys req = Some (number, cid) ->
  Cancel.orderNumber req = Some number /\ Cancel.customerId req = Some cid
  /\ String.eqb number "" = false /\ Nat.eqb cid 0 = false.
Proof.
  unfold Cancel.requestKeys.
  destruct (Cancel.orderNumber req) as [n | ]; [ | discriminate ].
  destruct (Cancel.customerId req) as [c | ]; [ | discriminate ].
  destruct (String.eqb n "") eqn:Hn, (Nat.eqb c 0) eqn:Hc; cbn [orb];
    try discriminate.
  intro H. injection H as <- <-. auto.
Qed.

(** The revenue figure reads the amounts only. *)
Lemma revenue_fold (l : list Orders.Order) (a : Q) :
  fold_left (fun sum order => sum + Orders.totalAmount order) l a
  = fold_left Qplus (map Orders.totalAmount l) a.
Proof.
  revert a. induction l as [ | o l IH]; intro a; [ reflexivity | ].
  cbn [fold_left map]. apply IH.
Qed.

Lemma update_amounts (i : nat) (reason : option string)
    (docs : list Orders.Order) :
  map Orders.totalAmount (Orders.update i (Cancel.cancelData reason) docs)
  = map Orders.totalAmount docs.
Proof.
  unfold Orders.update. rewrite map_map. apply map_ext. intro o.
  now destruct (Nat.eqb (Orders.id o) i).
Qed.

Lemma summary_by_amounts (st st' : Store) :
  customers st' = customers st ->
  map Orders.totalAmount (orders st') = map Orders.totalAmount (orders st) ->
  Lookup.summary st' = Lookup.summary st.
Proof.
  intros Hc Ho. unfold Lookup.summary. rewrite Hc.
  assert (Hdocs : map Orders.totalAmount (firstn 100 (rev (orders st')))
                  = map Orders.totalAmount (firstn 100 (rev (orders st)))).
  { now rewrite <- !firstn_map, !map_rev, Ho. }
  rewrite !revenue_fold, Hdocs. f_equal.
  rewrite <- (length_map Orders.totalAmount (firstn 100 (rev (orders st')))).
  rewrite Hdocs. apply length_map.
Qed.

(** X27. The eligibility check and the cancellation agree.  For an order
    number that is not empty and a customer id that is not 0: where the
    check reports no order or fails, so does the cancellation; where it
    says the order cannot be cancelled, the cancellation is refused
    with the same status; where it says the order can be cancelled, the
    cancellation goes through, unless the update itself fails. *)
Theorem eligibility_agrees (env : Cancel.Env) (st : Store)
    (number : string) (cid : nat) (reason : option string) :
  number <> EmptyString ->
  cid <> 0%nat ->
  let post :=
    Cancel.POST env st
      {| Cancel.orderNumber := Some number;
         Cancel.customerId := Some cid;
         Cancel.reason := reason |} in
  match Lookup.canCancel env st (Some number) (Some cid) with
  | Lookup.EligibilityMissingFields => False
  | Lookup.EligibilityNotFound => post = (Cancel.NotFound, st)
  | Lookup.EligibilityFailed => post = (Cancel.Failed, st)
  | Lookup.Eligible false status => post = (Cancel.CannotCancel status, st)
  | Lookup.Eligible true _ =>
      Cancel.orderUpdateThrows env = false ->
      exists summary, fst post = Cancel.Cancelled summary
                      /\ Cancel.sum_orderNumber summary = number
                      /\ Cancel.sum_status summary = Orders.Cancelled
  end.
Proof.
  intros Hn Hc. apply String.eqb_neq in Hn. apply Nat.eqb_neq in Hc.
  unfold Lookup.canCancel, Cancel.POST, Cancel.requestKeys.
  cbn [Cancel.orderNumber Cancel.customerId Cancel.reason].
  rewrite Hn, Hc. cbn [orb].
  destruct (Cancel.orderFindThrows env); [ reflexivity | ].
  destruct (Orders.find number cid (orders st)) as [ | order others] eqn:Hf;
    [ reflexivity | ].
  destruct (Cancel.cancellable (Orders.status order)); cbn [negb];
    [ | reflexivity ].
  intros ->. eexists. split; [ reflexivity | ]. cbn. split; [ | reflexivity ].
  assert (Hin : In order (Orders.find number cid (orders st)))
    by (rewrite Hf; now left).
  apply filter_In in Hin. destruct Hin as [_ Hm].
  unfold Orders.matches in Hm. apply andb_true_iff in Hm.
  destruct Hm as [Hm _]. now apply String.eqb_eq in Hm.
Qed.

Lemma eligibility_agrees_witness :
  exists summary,
    fst (Cancel.POST Samples.cancelEnv (Samples.orderStore Orders.Pending)
           {| Cancel.orderNumber := Some "ORD-1700000000000"%string;
              Cancel.customerId := Some 1%nat;
              Cancel.reason := None |})
    = Cancel.Cancelled summary
    /\ Cancel.sum_orderNumber summary = "ORD-1700000000000"%string
    /\ Cancel.sum_status summary = Orders.Cancelled.
Proof.
  exact (eligibility_agrees Samples.cancelEnv
           (Samples.orderStore Orders.Pending) "ORD-1700000000000" 1 None
           ltac:(discriminate) ltac:(discriminate) eq_refl).
Defined.

(** X28. An order is cancelled at most once: once a cancellation has
    gone through, a further request for the same order and customer is
    refused with the status cancelled and changes nothing, and the
    eligibility check says the order cannot be cancelled. *)
Theorem cancel_only_once (env env' : Cancel.Env) (st st' : Store)
    (req req' : Cancel.Request) (summary : Cancel.OrderSummary) :
  Cancel.POST env st req = (Cancel.Cancelled summary, st') ->
  Cancel.requestKeys req' = Cancel.requestKeys req ->
  Cancel.orderFindThrows env' = false ->
  Cancel.POST env' st' req' = (Cancel.CannotCancel Orders.Cancelled, st')
  /\ Lookup.canCancel env' st' (Cancel.orderNumber req)
       (Cancel.customerId req)
     = Lookup.Eligible false Orders.Cancelled.
Proof.
  intros H Hkeys Hfind. apply cancel_POST_inv in H.
  destruct H as (number & cid & order & others & Hk & Hf & _ & ->).
  assert (Hfound : Orders.find number cid
                     (Orders.update (Orders.id order)
                        (Cancel.cancelData (Cancel.reason req)) (orders st))
                   = Cancel.cancelData (Cancel.reason req) order
                     :: Orders.update (Orders.id order)
                          (Cancel.cancelData (Cancel.reason req)) others).
  { rewrite orders_find_update by (intro o; now split).
    rewrite Hf. unfold Orders.update at 1. cbn [map].
    now rewrite Nat.eqb_refl. }
  split.
  - unfold Cancel.POST. rewrite Hkeys, Hk, Hfind. cbn [orders].
    rewrite Hfound. reflexivity.
  - apply requestKeys_some in Hk. destruct Hk as (-> & -> & Hn & _).
    unfold Lookup.canCancel. rewrite Hn, Hfind. cbn [orders].
    rewrite Hfound. reflexivity.
Qed.

Lemma cancel_only_once_witness :
  Cancel.POST Samples.cancelEnv
    (snd (Cancel.POST Samples.cancelEnv (Samples.orderStore Orders.Pending)
            Samples.cancelRequest))
    Samples.cancelRequest
  = (Cancel.CannotCancel Orders.Cancelled,
     snd (Cancel.POST Samples.cancelEnv (Samples.orderStore Orders.Pending)
            Samples.cancelRequest)).
Proof.
  destruct (Cancel.POST Samples.cancelEnv (Samples.orderStore Orders.Pending)
              Samples.cancelRequest) as [resp st'] eqn:E.
  assert (Hs : exists summary, resp = Cancel.Cancelled summary).
  { vm_compute in E. injection E as <- _. eexists. reflexivity. }
  destruct Hs as (summary & ->).
  exact (proj1 (cancel_only_once Samples.cancelEnv Samples.cancelEnv _ _
                  Samples.cancelRequest Samples.cancelRequest summary
                  E eq_refl eq_refl)).
Defined.

(** X29. A cancellation request, whatever its outcome, leaves every
    customer as it is (no total, order count or loyalty point is taken
    back), keeps every order in place with its id, number, customer,
    rows, amount and payment status, changes an order only by marking
    it cancelled, and leaves the figures of the statistics route as
    they are; a request that is not answered with a cancellation
    changes nothing at all. *)
Theorem cancel_leaves_rest (env : Cancel.Env) (st : Store)
    (req : Cancel.Request) :
  let resp := fst (Cancel.POST env st req) in
  let st' := snd (Cancel.POST env st req) in
  customers st' = customers st
  /\ nextId st' = nextId st
  /\ Forall2 (fun o o' =>
                Orders.id o' = Orders.id o
                /\ Orders.orderNumber o' = Orders.orderNumber o
                /\ Orders.customer o' = Orders.customer o
                /\ Orders.items o' = Orders.items o
                /\ Orders.totalAmount o' = Orders.totalAmount o
                /\ Orders.paymentStatus o' = Orders.paymentStatus o
                /\ (o' = o \/ Orders.status o' = Orders.Cancelled))
       (orders st) (orders st')
  /\ Lookup.summary st' = Lookup.summary st
  /\ ((forall summary, resp <> Cancel.Cancelled summary) -> st' = st).
Proof.
  assert (Hsame : forall l : list Orders.Order,
             Forall2 (fun o o' =>
                Orders.id o' = Orders.id o
                /\ Orders.orderNumber o' = Orders.orderNumber o
                /\ Orders.customer o' = Orders.customer o
                /\ Orders.items o' = Orders.items o
                /\ Orders.totalAmount o' = Orders.totalAmount o
                /\ Orders.paymentStatus o' = Orders.paymentStatus o
                /\ (o' = o \/ Orders.status o' = Orders.Cancelled)) l l).
  { induction l; constructor; auto 10. }
  destruct (Cancel.POST env st req) as [resp st'] eqn:E. cbn [fst snd].
  destruct resp as [ | | status | | summary].
  5:{ apply cancel_POST_inv in E.
      destruct E as (number & cid & order & others & _ & _ & _ & ->).
      cbn [customers orders nextId].
      split; [ reflexivity | split; [ reflexivity | split; [ | split ] ] ].
      - unfold Orders.update.
        induction (orders st) as [ | o l IH]; cbn [map]; constructor;
          [ | exact IH ].
        destruct (Nat.eqb (Orders.id o) (Orders.id order)); cbn; auto 10.
      - apply summary_by_amounts; [ reflexivity | ].
        cbn [orders]. apply update_amounts.
      - intro Hnone. now destruct (Hnone summary). }
  all: assert (Hst : st' = st)
         by (revert E; unfold Cancel.POST;
             repeat match goal with
                    | |- context [match ?x with _ => _ end] => destruct x
                    end;
             intro E; congruence).
  all: subst st'; auto 10.
Qed.

Lemma cancel_leaves_rest_witness :
  snd (Cancel.POST Samples.cancelEnv (Samples.orderStore Orders.Preparing)
         Samples.cancelRequest)
  = Samples.orderStore Orders.Preparing.
Proof.
  pose proof (cancel_leaves_rest Samples.cancelEnv
                (Samples.orderStore Orders.Preparing) Samples.cancelRequest)
    as H.
  cbv zeta in H. destruct H as (_ & _ & _ & _ & H).
  apply H. intros summary E. vm_compute in E. discriminate E.
Defined.

(** ** The statistics route after a checkout *)

Lemma resolveCustomer_count env st req info customer isNew st1 :
  Checkout.resolveCustomer env st req info = (inr (customer, isNew), st1) ->
  List.length (customers st1)
  = (List.length (customers st) + (if isNew then 1 else 0))%nat.
Proof.
  unfold Checkout.resolveCustomer.
  destruct (Checkout.customerFindThrows env); [ discriminate | ].
  destruct (Customers.find _ _).
  - destruct (negb _); [ discriminate | ].
    destruct (Checkout.customerWriteThrows env); [ discriminate | ].
    intro H. injection H as _ <- <-. cbn [customers].
    now rewrite length_app.
  - destruct (Checkout.customerWriteThrows env); [ discriminate | ].
    intro H. injection H as _ <- <-. cbn [customers].
    unfold Customers.update. rewrite length_map. lia.
Qed.

Lemma revenue_monotone (l : list Orders.Order) (a b : Q) :
  a <= b ->
  fold_left (fun sum order => sum + Orders.totalAmount order) l a
  <= fold_left (fun sum order => sum + Orders.totalAmount order) l b.
Proof.
  revert a b. induction l as [ | o l IH]; intros a b Hab; cbn [fold_left].
  - exact Hab.
  - apply IH. lra.
Qed.

(** X30. While the store holds fewer than 100 orders and fewer than 100
    customers, a successful checkout raises the order count of the
    statistics route by one and its customer count by one exactly when
    the response flags a new customer.  The revenue figure becomes the
    sum over the orders stored before, taken in the same order but
    started from the new total instead of from 0; with product prices
    that are not negative it does not decrease. *)
Theorem stats_after_checkout
    (env : Checkout.Env) (st st' : Store) (req : Checkout.Request)
    (order : Checkout.OrderSummary) (cust : Checkout.CustomerSummary)
    (tok : option string) :
  Checkout.POST env st req = (Checkout.Success order cust tok, st') ->
  (List.length (orders st) < 100)%nat ->
  (List.length (customers st) < 100)%nat ->
  Checkout.productsValid env ->
  Lookup.totalOrders (Lookup.summary st')
  = S (Lookup.totalOrders (Lookup.summary st))
  /\ Lookup.totalCustomers (Lookup.summary st')
     = (Lookup.totalCustomers (Lookup.summary st)
        + (if Checkout.isNewCustomer cust then 1 else 0))%nat
  /\ Lookup.totalRevenue (Lookup.summary st')
     = fold_left (fun sum o => sum + Orders.totalAmount o)
         (rev (orders st)) (0 + Checkout.sum_totalAmount order)
  /\ Lookup.totalRevenue (Lookup.summary st)
     <= Lookup.totalRevenue (Lookup.summary st').
Proof.
  intros H Horders Hcustomers Hvalid. apply POST_success_order in H.
  destruct H as (lines & info & ms & customer & st1 & rows & total & o
                 & _ & Hr & Hp & _ & Hchecked & Ho & -> & _ & _ & _ & Htot).
  pose proof (resolveCustomer_count _ _ _ _ _ _ _ Hr) as Hcount.
  apply resolveCustomer_keeps in Hr. destruct Hr as (Hkeep & _).
  assert (Hamount : Orders.totalAmount o = total) by now rewrite Ho.
  assert (Hnonneg : 0 <= total).
  { apply (total_nonneg env lines rows total o Hvalid Hp);
      [ now rewrite Ho | exact Hchecked ]. }
  clear Ho.
  unfold Lookup.summary.
  cbn [Lookup.totalOrders Lookup.totalRevenue Lookup.totalCustomers
       customers orders].
  rewrite Hkeep, rev_app_distr. cbn [rev app].
  rewrite (firstn_all2 (n := 100) (rev (orders st)))
    by (rewrite length_rev; lia).
  rewrite (firstn_all2 (n := 100) (o :: rev (orders st)))
    by (cbn [List.length]; rewrite length_rev; lia).
  cbn [fold_left]. rewrite Hamount, Htot.
  split; [ reflexivity | split; [ | split ] ].
  - rewrite !length_firstn, !length_rev.
    unfold Customers.update. rewrite length_map, Hcount.
    destruct (Checkout.isNewCustomer cust); lia.
  - reflexivity.
  - apply revenue_monotone. lra.
Qed.

Lemma stats_after_checkout_witness :
  Lookup.totalOrders
    (Lookup.summary
       (snd (Checkout.POST Samples.calm Samples.emptyStore
               (Samples.pickupRequest [Samples.line "p1" 2 1] 25))))
  = 1%nat.
Proof.
  destruct (Checkout.POST Samples.calm Samples.emptyStore
              (Samples.pickupRequest [Samples.line "p1" 2 1] 25))
    as [resp st'] eqn:E.
  assert (Hs : exists order cust tok,
             resp = Checkout.Success order cust tok).
  { vm_compute in E. injection E as <- _. do 3 eexists. reflexivity. }
  destruct Hs as (order & cust & tok & ->).
  assert (Ho : (List.length (orders Samples.emptyStore) < 100)%nat)
    by (cbn; lia).
  assert (Hc : (List.length (customers Samples.emptyStore) < 100)%nat)
    by (cbn; lia).
  destruct (stats_after_checkout _ _ _ _ _ _ _ E Ho Hc catalogue_valid)
    as (H1 & _).
  cbn [snd]. rewrite H1. reflexivity.
Defined.
